(** * tiny-local-agent: the provider, the settings panel and the chat session

    A shallow embedding of [src/llm_provider.py] (class [OllamaProvider]) and of
    the controller methods of [src/chatbot_app.py] ([ModelSettingsPanel._handle_save],
    [ChatApp.send_message], [ChatApp.process_message]), with the Python
    primitives they rest on ([str.strip], [in], [str.split], [dict.get],
    [json.loads]).

    Conventions.
    - A Python [str] is a list of Unicode code points ([list N]).
    - A Python value that comes out of JSON is a [pyval]; a [dict] is an
      association list in insertion order.
    - A method body runs in the monad [M]: it threads the provider object and
      the console, and either returns or raises.
    - The backend is not part of the repository: every call of the [ollama]
      client is a field of the record [Client], and theorems quantify over it.
    - [json.loads] is the decoder of CPython 3.11, with its two limits: the
      depth of nesting the recursion limit allows, a parameter
      ([Json.loads_with]), and the 4300 digits of an integer. *)

From Stdlib Require Import List NArith ZArith QArith Ascii String Bool Arith Lia.
From Stdlib Require Import DecimalString.
Import ListNotations.

Set Implicit Arguments.
Set Warnings "-register-all,-abstract-large-number".

(* ================================================================== *)
(** * Python strings *)
(* ================================================================== *)

Module Py.

Definition str := list N.

(** [lit] reads an ASCII literal of this file as a Python string. *)
Definition lit (s : string) : str :=
  map N_of_ascii (list_ascii_of_string s).
Arguments lit : simpl never.

Definition NL : N := 10%N.
Definition DQ : N := 34%N.

Fixpoint eqb (a b : str) : bool :=
  match a, b with
  | [], [] => true
  | x :: a', y :: b' => N.eqb x y && eqb a' b'
  | _, _ => false
  end.

(** [str.isspace] on one code point (CPython's [_PyUnicode_IsWhitespace]). *)
Definition isspace (c : N) : bool :=
  (((9 <=? c) && (c <=? 13)) || ((28 <=? c) && (c <=? 32))
   || (c =? 133) || (c =? 160) || (c =? 5760)
   || ((8192 <=? c) && (c <=? 8202))
   || (c =? 8232) || (c =? 8233) || (c =? 8239) || (c =? 8287)
   || (c =? 12288))%N.

Fixpoint lstrip (s : str) : str :=
  match s with
  | c :: s' => if isspace c then lstrip s' else s
  | [] => []
  end.

Definition rstrip (s : str) : str := rev (lstrip (rev s)).

(** [s.strip()] *)
Definition strip (s : str) : str := rstrip (lstrip s).

(** [s.startswith(p)] *)
Fixpoint startswith (p s : str) : bool :=
  match p, s with
  | [], _ => true
  | x :: p', y :: s' => N.eqb x y && startswith p' s'
  | _ :: _, [] => false
  end.

(** [sub in s] *)
Fixpoint contains (sub s : str) : bool :=
  startswith sub s ||
  match s with
  | [] => false
  | _ :: s' => contains sub s'
  end.

(** [s.split(sep)] for a non-empty [sep]: the pieces between the leftmost,
    non-overlapping occurrences of [sep].  [skip] counts the characters of a
    separator still to be passed over, [cur] is the piece being read,
    reversed. *)
Fixpoint split_go (sep : str) (skip : nat) (cur : str) (s : str) : list str :=
  match s with
  | [] => [rev cur]
  | c :: s' =>
      match skip with
      | S k => split_go sep k cur s'
      | O =>
          if startswith sep s
          then rev cur :: split_go sep (List.length sep - 1) [] s'
          else split_go sep O (c :: cur) s'
      end
  end.

Definition split (sep s : str) : list str := split_go sep 0 [] s.

(** [s.partition(sep)] when [sep] occurs: the text before the leftmost
    occurrence and the text after it. *)
Fixpoint partition (sep s : str) : option (str * str) :=
  if startswith sep s then Some ([], skipn (List.length sep) s)
  else match s with
       | [] => None
       | c :: s' =>
           match partition sep s' with
           | Some (a, b) => Some (c :: a, b)
           | None => None
           end
       end.

End Py.

Import Py.

(* ================================================================== *)
(** * Python values, exceptions, results *)
(* ================================================================== *)

(** The values the backend's JSON payloads and [json.loads] produce.  A float
    keeps the text it was read from: all that is asked of it here is whether
    it is zero ([PyFloat.is_zero]). *)
Inductive pyval : Type :=
| PNone
| PBool (b : bool)
| PInt (z : Z)
| PFloat (lexeme : str)
| PStr (s : str)
| PList (l : list pyval)
| PDict (d : list (str * pyval)).

Definition dict := list (str * pyval).

Fixpoint dict_lookup (k : str) (d : dict) : option pyval :=
  match d with
  | [] => None
  | (k', v) :: d' => if Py.eqb k k' then Some v else dict_lookup k d'
  end.

(** [d[k] = v]: a present key keeps its place, a new one goes last. *)
Fixpoint dict_set (k : str) (v : pyval) (d : dict) : dict :=
  match d with
  | [] => [(k, v)]
  | (k', v') :: d' =>
      if Py.eqb k k' then (k', v) :: d' else (k', v') :: dict_set k v d'
  end.

(** The exception classes that occur, all below [Exception]. *)
Inductive exn_class : Type :=
| JSONDecodeError
| AttributeError
| TypeError
| ConnectionError
| ResponseError
| RecursionError
| ValueError
| OtherException.

Record exn : Type := Exn { exn_cls : exn_class; exn_msg : str }.

(** [str(e)] *)
Definition str_of_exn (e : exn) : str := exn_msg e.

Definition is_JSONDecodeError (e : exn) : bool :=
  match exn_cls e with JSONDecodeError => true | _ => false end.

(** The outcome of evaluating an expression: a value or a raised exception. *)
Inductive res (A : Type) : Type :=
| Ret (a : A)
| Raise (e : exn).
Arguments Ret {A} a.
Arguments Raise {A} e.

Definition type_name (v : pyval) : str :=
  match v with
  | PNone => lit "NoneType"
  | PBool _ => lit "bool"
  | PInt _ => lit "int"
  | PFloat _ => lit "float"
  | PStr _ => lit "str"
  | PList _ => lit "list"
  | PDict _ => lit "dict"
  end.

Definition no_attribute (v : pyval) (attr : string) : exn :=
  Exn AttributeError
      (lit "'" ++ type_name v ++ lit "' object has no attribute '" ++ lit attr ++ lit "'").

(** [v.get(key, default)]: defined on a dict, an [AttributeError] elsewhere. *)
Definition py_get (v : pyval) (key : string) (default : pyval) : res pyval :=
  match v with
  | PDict d =>
      match dict_lookup (lit key) d with
      | Some x => Ret x
      | None => Ret default
      end
  | _ => Raise (no_attribute v "get")
  end.

(** Whether [float(lexeme)] is zero.  A lexeme is written as a JSON number:
    an optional minus sign, digits, an optional fraction and an optional
    exponent; its absolute value is [m * 10^e], with [m] the digits of the
    integer part and of the fraction read as one integer.  The nearest double
    is zero when [m] is zero, and when the value is at most [2^-1075], half
    the least positive double (the tie goes to the even neighbour, zero).
    [NaN], [Infinity] and [-Infinity] are no numbers of this form and are not
    zero. *)
Module PyFloat.

Definition is_digit (c : N) : bool := ((48 <=? c) && (c <=? 57))%N.

Fixpoint digits (s : str) : str * str :=
  match s with
  | c :: s' =>
      if is_digit c
      then let (d, r) := digits s' in (c :: d, r)
      else ([], s)
  | [] => ([], [])
  end.

Definition value_of (ds : str) : Z :=
  fold_left (fun acc c => (10 * acc + (Z.of_N c - 48))%Z) ds 0%Z.

(** [Some (m, e)] for a lexeme of absolute value [m * 10^e]. *)
Definition parse (lexeme : str) : option (Z * Z) :=
  let unsigned :=
    match lexeme with
    | c :: s' => if (c =? 45)%N then s' else lexeme
    | [] => []
    end in
  let (int_part, r) := digits unsigned in
  match int_part with
  | [] => None
  | _ :: _ =>
      let (frac, r1) :=
        match r with
        | dot :: r' => if (dot =? 46)%N then digits r' else ([], r)
        | [] => ([], r)
        end in
      let m := value_of (int_part ++ frac) in
      let shift := Z.of_nat (List.length frac) in
      match r1 with
      | [] => Some (m, (- shift)%Z)
      | e :: r2 =>
          if ((e =? 101) || (e =? 69))%N then
            let (neg, r3) :=
              match r2 with
              | sg :: t =>
                  if (sg =? 45)%N then (true, t)
                  else if (sg =? 43)%N then (false, t) else (false, r2)
              | [] => (false, r2)
              end in
            let (ex, r4) := digits r3 in
            match ex, r4 with
            | _ :: _, [] =>
                Some (m, ((if neg then - value_of ex else value_of ex) - shift)%Z)
            | _, _ => None
            end
          else None
      end
  end.

Definition is_zero (lexeme : str) : bool :=
  match parse lexeme with
  | Some (m, e) =>
      ((m =? 0) || ((e <? 0) && (m * 2 ^ 1075 <=? 10 ^ (- e))))%Z
  | None => false
  end.

End PyFloat.

(** Truth value of [if v:]. *)
Definition truthy (v : pyval) : bool :=
  match v with
  | PNone => false
  | PBool b => b
  | PInt z => negb (Z.eqb z 0)
  | PFloat lexeme => negb (PyFloat.is_zero lexeme)
  | PStr s => match s with [] => false | _ => true end
  | PList l => match l with [] => false | _ => true end
  | PDict d => match d with [] => false | _ => true end
  end.

(** [v == s] for a string [s]. *)
Definition eq_str (v : pyval) (s : str) : bool :=
  match v with
  | PStr t => Py.eqb t s
  | _ => false
  end.

(** [for x in v]: the items iteration yields. *)
Definition py_iter (v : pyval) : res (list pyval) :=
  match v with
  | PList l => Ret l
  | PDict d => Ret (map (fun kv => PStr (fst kv)) d)
  | PStr s => Ret (map (fun c => PStr [c]) s)
  | _ => Raise (Exn TypeError (lit "'" ++ type_name v ++ lit "' object is not iterable"))
  end.

(* ================================================================== *)
(** * [json.loads] *)
(* ================================================================== *)

(** The decoder of CPython's [json] package (the scanner of [_json.c]), on the
    remaining input instead of an index: a position is recovered as the
    length of the document minus the length of what remains. *)
Module Json.

Inductive scan (A : Type) : Type :=
| Scanned (a : A) (rest : str)
| StopIteration (at_ : str)
| DecodeError (msg : string) (at_ : str)
| OutOfFuel
| Raised (e : exn).
Arguments Scanned {A} a rest.
Arguments StopIteration {A} at_.
Arguments DecodeError {A} msg at_.
Arguments OutOfFuel {A}.
Arguments Raised {A} e.

Definition decimal (n : nat) : str :=
  lit (DecimalString.NilEmpty.string_of_uint (Nat.to_uint n)).

(** [sys.int_info.default_max_str_digits]: the longest decimal text [int]
    converts (CPython 3.11); the sign is not counted. *)
Definition int_max_str_digits : nat := 4300.
Arguments int_max_str_digits : simpl never.

Definition too_many_digits (n : nat) : exn :=
  Exn ValueError
      (lit "Exceeds the limit (4300 digits) for integer string conversion: value has "
       ++ decimal n
       ++ lit " digits; use sys.set_int_max_str_digits() to increase the limit").

(** What [Py_EnterRecursiveCall] raises in the scanner; [what] is [array] or
    [object]. *)
Definition too_deep (what : string) : exn :=
  Exn RecursionError
      (lit "maximum recursion depth exceeded while decoding a JSON "
       ++ lit what ++ lit " from a unicode string").

Definition is_ws (c : N) : bool :=
  ((c =? 32) || (c =? 9) || (c =? 10) || (c =? 13))%N.

Fixpoint skip_ws (s : str) : str :=
  match s with
  | c :: s' => if is_ws c then skip_ws s' else s
  | [] => []
  end.

Definition is_digit (c : N) : bool := ((48 <=? c) && (c <=? 57))%N.

Fixpoint span_digits (s : str) : str * str :=
  match s with
  | c :: s' =>
      if is_digit c
      then let (d, r) := span_digits s' in (c :: d, r)
      else ([], s)
  | [] => ([], [])
  end.

Definition int_of_digits (ds : str) : Z :=
  fold_left (fun acc c => (10 * acc + (Z.of_N c - 48))%Z) ds 0%Z.

(** The parts of a number, each with what follows it: the digits of the
    integer part (at least one; a leading 0 stands alone), a fraction (a dot
    and at least one digit) and an exponent (e or E, an optional sign, at
    least one digit); the last two are empty when they are not there. *)
Definition scan_integer (s : str) : option (str * str) :=
  match s with
  | [] => None
  | c :: s' =>
      if ((49 <=? c) && (c <=? 57))%N
      then let (d, r) := span_digits s' in Some (c :: d, r)
      else if (c =? 48)%N then Some ([c], s') else None
  end.

Definition scan_fraction (s : str) : str * str :=
  match s with
  | dot :: c :: s' =>
      if ((dot =? 46)%N && is_digit c)
      then let (d, r) := span_digits s' in (dot :: c :: d, r)
      else ([], s)
  | _ => ([], s)
  end.

Definition scan_exponent (s : str) : str * str :=
  match s with
  | e :: s' =>
      if ((e =? 101) || (e =? 69))%N
      then
        let (sign, s'') :=
          match s' with
          | sg :: t => if ((sg =? 45) || (sg =? 43))%N then ([sg], t) else ([], s')
          | [] => ([], s')
          end in
        let (d, r) := span_digits s'' in
        match d with
        | [] => ([], s)
        | _ :: _ => (e :: sign ++ d, r)
        end
      else ([], s)
  | [] => ([], s)
  end.

Definition scan_sign (s : str) : bool * str :=
  match s with
  | c :: s' => if (c =? 45)%N then (true, s') else (false, s)
  | [] => (false, s)
  end.

(** [_match_number_unicode]: an integer when there is neither fraction nor
    exponent, a float otherwise; no number at [s] is a [StopIteration].  The
    integer is made by [int], which refuses more than [int_max_str_digits]
    digits with a [ValueError]; [float] has no such limit. *)
Definition match_number (s : str) : scan pyval :=
  let (neg, s1) := scan_sign s in
  match scan_integer s1 with
  | None => StopIteration s
  | Some (ds, r) =>
      let (frac, r1) := scan_fraction r in
      let (ex, r2) := scan_exponent r1 in
      match frac, ex with
      | [], [] =>
          if (int_max_str_digits <? List.length ds)%nat
          then Raised (too_many_digits (List.length ds))
          else
            let z := int_of_digits ds in
            Scanned (PInt (if neg then (- z)%Z else z)) r2
      | _, _ =>
          Scanned (PFloat ((if neg then [45%N] else []) ++ ds ++ frac ++ ex)) r2
      end
  end.

Definition hex_digit (c : N) : option N :=
  if ((48 <=? c) && (c <=? 57))%N then Some (c - 48)%N
  else if ((97 <=? c) && (c <=? 102))%N then Some (c - 87)%N
  else if ((65 <=? c) && (c <=? 70))%N then Some (c - 55)%N
  else None.

(** Four hex digits at the head of [s]; [None] when they are not there. *)
Definition decode_uXXXX (s : str) : option (N * str) :=
  match s with
  | a :: b :: c :: d :: rest =>
      match hex_digit a, hex_digit b, hex_digit c, hex_digit d with
      | Some x, Some y, Some z, Some w =>
          Some ((((x * 16 + y) * 16 + z) * 16 + w)%N, rest)
      | _, _, _, _ => None
      end
  | _ => None
  end.

Definition unescape (c : N) : option N :=
  if (c =? 34)%N then Some 34%N
  else if (c =? 92)%N then Some 92%N
  else if (c =? 47)%N then Some 47%N
  else if (c =? 98)%N then Some 8%N
  else if (c =? 102)%N then Some 12%N
  else if (c =? 110)%N then Some 10%N
  else if (c =? 114)%N then Some 13%N
  else if (c =? 116)%N then Some 9%N
  else None.

(** [scanstring_unicode], strict: [begin] is the input at the opening quote,
    [acc] the characters read so far, reversed.  An escape [\u] wants its
    four hex digits and one more character after them; a high surrogate
    joins a low one that follows when that second escape too has a character
    after it. *)
Fixpoint scanstring (fuel : nat) (begin : str) (acc : str) (s : str) : scan str :=
  match fuel with
  | O => OutOfFuel
  | S fuel' =>
      match s with
      | [] => DecodeError "Unterminated string starting at" begin
      | c :: s' =>
          if (c =? 34)%N then Scanned (rev acc) s'
          else if (c =? 92)%N then
            match s' with
            | [] => DecodeError "Unterminated string starting at" begin
            | esc :: s'' =>
                if (esc =? 117)%N then
                  match (if (List.length s'' <=? 4)%nat then None
                         else decode_uXXXX s'') with
                  | None => DecodeError "Invalid \uXXXX escape" s'
                  | Some (u, r) =>
                      if ((55296 <=? u) && (u <=? 56319))%N then
                        match r with
                        | b :: u' :: r' =>
                            if ((b =? 92) && (u' =? 117))%N
                               && (5 <=? List.length r')%nat
                            then
                              match decode_uXXXX r' with
                              | None => DecodeError "Invalid \uXXXX escape" (u' :: r')
                              | Some (u2, r2) =>
                                  if ((56320 <=? u2) && (u2 <=? 57343))%N
                                  then scanstring fuel' begin
                                         ((65536 + (N.lor (N.shiftl (u - 55296) 10) (u2 - 56320)))%N :: acc) r2
                                  else scanstring fuel' begin (u :: acc) r
                              end
                            else scanstring fuel' begin (u :: acc) r
                        | _ => scanstring fuel' begin (u :: acc) r
                        end
                      else scanstring fuel' begin (u :: acc) r
                  end
                else
                  match unescape esc with
                  | Some c' => scanstring fuel' begin (c' :: acc) s''
                  | None => DecodeError "Invalid \escape" s
                  end
            end
          else if (c <=? 31)%N then DecodeError "Invalid control character at" s
          else scanstring fuel' begin (c :: acc) s'
      end
  end.

Definition literal (word : string) (v : pyval) (s : str) : option (pyval * str) :=
  if startswith (lit word) s
  then Some (v, skipn (List.length (lit word)) s)
  else None.

(** [scan_once_unicode] with [_parse_array_unicode] and
    [_parse_object_unicode].  [depth] is the number of arrays and objects that
    may still be entered: the scanner asks the interpreter for one more level
    of recursion ([Py_EnterRecursiveCall]) before it reads an array or an
    object, the empty ones too.  [fuel] only bounds the recursion of this
    definition ([scan_fuel] shows it never runs out). *)
Fixpoint scan_once (fuel depth : nat) (s : str) : scan pyval :=
  match fuel with
  | O => OutOfFuel
  | S fuel' =>
      match s with
      | [] => StopIteration s
      | c :: s' =>
          if (c =? 34)%N then
            match scanstring (S (List.length s')) s [] s' with
            | Scanned x r => Scanned (PStr x) r
            | StopIteration a => StopIteration a
            | DecodeError m a => DecodeError m a
            | OutOfFuel => OutOfFuel
            | Raised e => Raised e
            end
          else if (c =? 123)%N then
            match depth with
            | O => Raised (too_deep "object")
            | S depth' =>
                let s1 := skip_ws s' in
                match s1 with
                | close :: r =>
                    if (close =? 125)%N then Scanned (PDict []) r
                    else parse_members fuel' depth' [] s1
                | [] => parse_members fuel' depth' [] s1
                end
            end
          else if (c =? 91)%N then
            match depth with
            | O => Raised (too_deep "array")
            | S depth' =>
                let s1 := skip_ws s' in
                match s1 with
                | close :: r =>
                    if (close =? 93)%N then Scanned (PList []) r
                    else parse_items fuel' depth' [] s1
                | [] => parse_items fuel' depth' [] s1
                end
            end
          else
            let named :=
              if (c =? 110)%N then literal "null" PNone s
              else if (c =? 116)%N then literal "true" (PBool true) s
              else if (c =? 102)%N then literal "false" (PBool false) s
              else if (c =? 78)%N then literal "NaN" (PFloat (lit "NaN")) s
              else if (c =? 73)%N then literal "Infinity" (PFloat (lit "Infinity")) s
              else if (c =? 45)%N then literal "-Infinity" (PFloat (lit "-Infinity")) s
              else None in
            match named with
            | Some (v, r) => Scanned v r
            | None => match_number s
            end
      end
  end

with parse_items (fuel depth : nat) (acc : list pyval) (s : str) : scan pyval :=
  match fuel with
  | O => OutOfFuel
  | S fuel' =>
      match scan_once fuel' depth s with
      | Scanned v r =>
          let r1 := skip_ws r in
          match r1 with
          | c :: r2 =>
              if (c =? 93)%N then Scanned (PList (rev (v :: acc))) r2
              else if (c =? 44)%N then parse_items fuel' depth (v :: acc) (skip_ws r2)
              else DecodeError "Expecting ',' delimiter" r1
          | [] => DecodeError "Expecting ',' delimiter" r1
          end
      | StopIteration a => StopIteration a
      | DecodeError m a => DecodeError m a
      | OutOfFuel => OutOfFuel
      | Raised e => Raised e
      end
  end

with parse_members (fuel depth : nat) (acc : dict) (s : str) : scan pyval :=
  match fuel with
  | O => OutOfFuel
  | S fuel' =>
      match s with
      | q :: s' =>
          if (q =? 34)%N then
            match scanstring (S (List.length s')) s [] s' with
            | Scanned key r =>
                let r1 := skip_ws r in
                match r1 with
                | colon :: r2 =>
                    if (colon =? 58)%N then
                      match scan_once fuel' depth (skip_ws r2) with
                      | Scanned v r3 =>
                          let acc' := dict_set key v acc in
                          let r4 := skip_ws r3 in
                          match r4 with
                          | c :: r5 =>
                              if (c =? 125)%N then Scanned (PDict acc') r5
                              else if (c =? 44)%N
                              then parse_members fuel' depth acc' (skip_ws r5)
                              else DecodeError "Expecting ',' delimiter" r4
                          | [] => DecodeError "Expecting ',' delimiter" r4
                          end
                      | StopIteration a => StopIteration a
                      | DecodeError m a => DecodeError m a
                      | OutOfFuel => OutOfFuel
                      | Raised e => Raised e
                      end
                    else DecodeError "Expecting ':' delimiter" r1
                | [] => DecodeError "Expecting ':' delimiter" r1
                end
            | StopIteration a => StopIteration a
            | DecodeError m a => DecodeError m a
            | OutOfFuel => OutOfFuel
            | Raised e => Raised e
            end
          else DecodeError "Expecting property name enclosed in double quotes" s
      | [] => DecodeError "Expecting property name enclosed in double quotes" s
      end
  end.

Definition count_newlines (s : str) : nat :=
  List.length (filter (fun c => (c =? 10)%N) s).

(** Characters after the last newline of [s]. *)
Definition last_line (s : str) : str :=
  rev ((fix go (r : str) : str :=
          match r with
          | c :: r' => if (c =? 10)%N then [] else c :: go r'
          | [] => []
          end) (rev s)).

(** [str(JSONDecodeError(msg, doc, pos))] *)
Definition errmsg (msg : string) (doc : str) (pos : nat) : str :=
  let before := firstn pos doc in
  lit msg ++ lit ": line " ++ decimal (count_newlines before + 1)
  ++ lit " column " ++ decimal (List.length (last_line before) + 1)
  ++ lit " (char " ++ decimal pos ++ lit ")".

Definition decode_error (msg : string) (doc at_ : str) : exn :=
  Exn JSONDecodeError (errmsg msg doc (List.length doc - List.length at_)).

(** [JSONDecoder.decode(doc)] with [depth] levels of nesting left: one value,
    and nothing but white space after it.  A [StopIteration] of the scanner
    becomes a [JSONDecodeError]; a [RecursionError] or a [ValueError] passes
    through.  Every nesting level takes two units of fuel and at least one
    character, so [2 * len(doc) + 1] units are enough ([scan_fuel]). *)
Definition decode (depth : nat) (doc : str) : res pyval :=
  match scan_once (S (2 * List.length doc)) depth (skip_ws doc) with
  | Scanned v r =>
      match skip_ws r with
      | [] => Ret v
      | extra => Raise (decode_error "Extra data" doc extra)
      end
  | StopIteration a => Raise (decode_error "Expecting value" doc a)
  | DecodeError m a => Raise (decode_error m doc a)
  | OutOfFuel => Raise (Exn OtherException (lit "out of fuel"))
  | Raised e => Raise e
  end.

(** [json.loads(doc)] for a [str] document, called where the interpreter's
    recursion limit leaves [depth] levels of nesting to the scanner, once
    the frames of [loads], [decode] and [raw_decode] are entered. *)
Definition loads_with (depth : nat) (doc : str) : res pyval :=
  match doc with
  | 65279%N :: _ =>
      Raise (decode_error "Unexpected UTF-8 BOM (decode using utf-8-sig)" doc doc)
  | _ => decode depth doc
  end.

(** The levels left under the default limit ([sys.getrecursionlimit()] is
    1000) when [generate_json] is called from the top level of a script: 994
    nested arrays are decoded, the 995th is refused (CPython 3.11).  A caller
    deeper in the stack leaves fewer; what is proved of [loads_with] holds for
    every depth. *)
Definition default_depth : nat := 994.
Arguments default_depth : simpl never.

Definition loads (doc : str) : res pyval := loads_with default_depth doc.

End Json.

(* ================================================================== *)
(** * The provider object and the method monad *)
(* ================================================================== *)

(** The [ollama.Client] of one host: what each call answers.  The fields take
    the keyword arguments of the call. *)
Record Client : Type := {
  client_chat : pyval -> pyval -> Q -> res pyval;      (* model, messages, temperature *)
  client_generate : pyval -> str -> Q -> res pyval;    (* model, prompt, temperature *)
  client_list : res pyval
}.

(** The attributes of an [OllamaProvider]. *)
Record Provider : Type := {
  host : str;
  model_name : pyval;
  temperature : Q;
  client : Client
}.

Definition set_host (h : str) (p : Provider) : Provider :=
  {| host := h; model_name := model_name p;
     temperature := temperature p; client := client p |}.
Definition set_model_name (m : pyval) (p : Provider) : Provider :=
  {| host := host p; model_name := m;
     temperature := temperature p; client := client p |}.
Definition set_temperature (t : Q) (p : Provider) : Provider :=
  {| host := host p; model_name := model_name p;
     temperature := t; client := client p |}.
Definition set_client (c : Client) (p : Provider) : Provider :=
  {| host := host p; model_name := model_name p;
     temperature := temperature p; client := c |}.

(** What [print] writes.  The one f-string that renders an arbitrary value
    keeps the value as it is. *)
Inductive console_line : Type :=
| Line (s : str)
| DefaultModelNotFound (chosen : pyval).

Record State : Type := { self : Provider; console : list console_line }.

(** A method body: it reads and updates the object and the console, and
    returns or raises.  Updates made before a raise stay. *)
Definition M (A : Type) : Type := State -> res A * State.

Definition ret {A} (a : A) : M A := fun st => (Ret a, st).
Definition raise {A} (e : exn) : M A := fun st => (Raise e, st).
Definition bind {A B} (m : M A) (k : A -> M B) : M B :=
  fun st =>
    match m st with
    | (Ret a, st') => k a st'
    | (Raise e, st') => (Raise e, st')
    end.
Definition lift {A} (r : res A) : M A := fun st => (r, st).

(** [try: body except Exception as e: handler(e)] *)
Definition try_except {A} (body : M A) (handler : exn -> M A) : M A :=
  fun st =>
    match body st with
    | (Ret a, st') => (Ret a, st')
    | (Raise e, st') => handler e st'
    end.

(** [try: body except json.JSONDecodeError as e: handler(e)] *)
Definition try_except_JSONDecodeError {A} (body : M A) (handler : exn -> M A) : M A :=
  fun st =>
    match body st with
    | (Ret a, st') => (Ret a, st')
    | (Raise e, st') =>
        if is_JSONDecodeError e then handler e st' else (Raise e, st')
    end.

Definition get_self : M Provider := fun st => (Ret (self st), st).
Definition modify_self (f : Provider -> Provider) : M unit :=
  fun st => (Ret tt, {| self := f (self st); console := console st |}).
Definition print (l : console_line) : M unit :=
  fun st => (Ret tt, {| self := self st; console := console st ++ [l] |}).

Declare Scope py_scope.
Delimit Scope py_scope with py.
Notation "x <- m ;; k" := (bind m (fun x => k))
  (at level 61, m at next level, right associativity) : py_scope.
Notation "m ;;; k" := (bind m (fun _ => k))
  (at level 61, right associativity) : py_scope.
Open Scope py_scope.

(** Sequencing of plain outcomes. *)
Definition rbind {A B} (r : res A) (k : A -> res B) : res B :=
  match r with
  | Ret a => k a
  | Raise e => Raise e
  end.
Notation "'let?' x ':=' r 'in' k" := (rbind r (fun x => k))
  (at level 10, x name, r at level 100, k at level 200) : py_scope.

(** [[f(x) for x in l]] *)
Fixpoint py_map (f : pyval -> res pyval) (l : list pyval) : res (list pyval) :=
  match l with
  | [] => Ret []
  | x :: l' =>
      let? y := f x in
      let? ys := py_map f l' in
      Ret (y :: ys)
  end.

(** [any(f(x) for x in l)]: stops at the first true item. *)
Fixpoint py_any (f : pyval -> res bool) (l : list pyval) : res bool :=
  match l with
  | [] => Ret false
  | x :: l' =>
      let? b := f x in
      if b then Ret true else py_any f l'
  end.

(** [v[0]] *)
Definition py_first (v : pyval) : res pyval :=
  match v with
  | PList (x :: _) => Ret x
  | PList [] => Raise (Exn OtherException (lit "list index out of range"))
  | PStr (c :: _) => Ret (PStr [c])
  | PStr [] => Raise (Exn OtherException (lit "string index out of range"))
  | PDict _ => Raise (Exn OtherException (lit "0"))
  | _ => Raise (Exn TypeError (lit "'" ++ type_name v ++ lit "' object is not subscriptable"))
  end.

(** [sub in v] *)
Definition py_contains (sub : str) (v : pyval) : res bool :=
  match v with
  | PStr s => Ret (contains sub s)
  | PList l => Ret (existsb (fun x => eq_str x sub) l)
  | PDict d => Ret (existsb (fun kv => Py.eqb (fst kv) sub) d)
  | _ => Raise (Exn TypeError
                    (lit "argument of type '" ++ type_name v ++ lit "' is not iterable"))
  end.

(** [v.split(sep)] and [v.strip()]: methods of [str] only. *)
Definition py_split (v : pyval) (sep : str) : res (list str) :=
  match v with
  | PStr s => Ret (split sep s)
  | _ => Raise (no_attribute v "split")
  end.

Definition py_strip (v : pyval) : res str :=
  match v with
  | PStr s => Ret (strip s)
  | _ => Raise (no_attribute v "strip")
  end.

(** [l[i]] on a list of pieces *)
Definition py_nth (l : list str) (i : nat) : res str :=
  match nth_error l i with
  | Some x => Ret x
  | None => Raise (Exn OtherException (lit "list index out of range"))
  end.

(* ================================================================== *)
(** * [OllamaProvider] *)
(* ================================================================== *)

Module OllamaProvider.

Definition no_response : pyval := PStr (lit "No response from model").

(** [get_available_models(self)] *)
Definition get_available_models : M pyval :=
  try_except
    (p <- get_self ;;
     models <- lift (client_list (client p)) ;;
     lift (py_get models "models" (PList [])))
    (fun e =>
       print (Line (lit "Error fetching models: " ++ str_of_exn e)) ;;;
       ret (PList [])).

(** The body of [__init__] after the attributes are set: the choice of the
    model among the installed ones. *)
Definition init_body (model_name : str) : M unit :=
  try_except
    (models <- get_available_models ;;
     if truthy models then
       items <- lift (py_iter models) ;;
       model_names <- lift (py_map (fun model => py_get model "model" (PStr [])) items) ;;
       if negb (existsb (fun v => eq_str v model_name) model_names) then
         first <- lift (py_first models) ;;
         name <- lift (py_get first "model" (PStr [])) ;;
         modify_self (set_model_name name) ;;;
         print (DefaultModelNotFound name)
       else ret tt
     else
       modify_self (set_model_name PNone) ;;;
       print (Line (lit "No models available. Please install at least one model with 'ollama pull <model>'.")))
    (fun e =>
       print (Line (lit "Error checking for available models: " ++ str_of_exn e))).

(** [OllamaProvider(host, model_name)]: the object [__init__] leaves, with
    what it printed.  [ollama_Client] is the constructor [ollama.Client]. *)
Definition init (ollama_Client : str -> Client) (host model_name : str)
  : res unit * State :=
  init_body model_name
    {| self := {| host := host; model_name := PStr model_name;
                  temperature := 7 # 10; client := ollama_Client host |};
       console := [] |}.

(** [generate_text(self, prompt, temperature=None)] *)
Definition generate_text (prompt : str) (temperature_arg : option Q) : M pyval :=
  try_except
    (p <- get_self ;;
     let temp := match temperature_arg with
                 | Some t => t
                 | None => temperature p
                 end in
     response <- lift (client_generate (client p) (model_name p) prompt temp) ;;
     lift (py_get response "response" no_response))
    (fun e => ret (PStr (lit "Error: " ++ str_of_exn e))).

(** [generate_chat(self, messages, temperature=None)] *)
Definition generate_chat (messages : pyval) (temperature_arg : option Q) : M pyval :=
  try_except
    (p <- get_self ;;
     let temp := match temperature_arg with
                 | Some t => t
                 | None => temperature p
                 end in
     response <- lift (client_chat (client p) (model_name p) messages temp) ;;
     message <- lift (py_get response "message" (PDict [])) ;;
     lift (py_get message "content" no_response))
    (fun e => ret (PStr (lit "Error: " ++ str_of_exn e))).

Definition FENCE_JSON : str := lit "```json".
Definition FENCE : str := lit "```".

(** The extraction step of [generate_json]: the text handed to
    [json.loads]. *)
Definition extract_json_text (response_text : pyval) : res str :=
  let? tagged := py_contains FENCE_JSON response_text in
  if (tagged : bool) then
    let? parts := py_split response_text FENCE_JSON in
    let? part := py_nth parts 1 in
    let? inner := py_nth (split FENCE part) 0 in
    Ret (strip inner)
  else
    let? fenced := py_contains FENCE response_text in
    if (fenced : bool) then
      let? parts := py_split response_text FENCE in
      let? part := py_nth parts 1 in
      let? inner := py_nth (split FENCE part) 0 in
      Ret (strip inner)
    else
      py_strip response_text.

(** A statement of the [try] block that runs before [response_text] is
    bound: were it to raise a [JSONDecodeError], the handler would find the
    name unbound. *)
Definition before_binding {A} (m : M A) : M A :=
  fun st =>
    match m st with
    | (Ret a, st') => (Ret a, st')
    | (Raise e, st') =>
        if is_JSONDecodeError e
        then (Raise (Exn OtherException
                         (lit "cannot access local variable 'response_text' where it is not associated with a value")), st')
        else (Raise e, st')
    end.

Definition parse_failure (e : exn) (response_text : pyval) : pyval :=
  PDict [(lit "error", PStr (lit "Failed to parse JSON: " ++ str_of_exn e));
         (lit "raw_text", response_text)].

(** [generate_json(self, prompt)], called where [depth] levels of nesting are
    left to [json.loads]. *)
Definition generate_json_with (depth : nat) (prompt : str) : M pyval :=
  let formatted_prompt :=
    prompt ++ [NL; NL] ++ lit "Respond with valid JSON only." in
  response_text <- before_binding (generate_text formatted_prompt None) ;;
  try_except_JSONDecodeError
    (json_text <- lift (extract_json_text response_text) ;;
     lift (Json.loads_with depth json_text))
    (fun e => ret (parse_failure e response_text)).

(** [generate_json(self, prompt)] called from the top level of a script. *)
Definition generate_json (prompt : str) : M pyval :=
  generate_json_with Json.default_depth prompt.

(** [set_model(self, model_name)] *)
Definition set_model (model_name : str) : M bool :=
  try_except
    (available_models <- get_available_models ;;
     items <- lift (py_iter available_models) ;;
     model_exists <-
       lift (py_any (fun model =>
                       let? name := py_get model "name" PNone in
                       Ret (eq_str name model_name)) items) ;;
     if (model_exists : bool) then
       modify_self (set_model_name (PStr model_name)) ;;;
       ret true
     else
       print (Line (lit "Model " ++ model_name ++ lit " not found in available models")) ;;;
       ret false)
    (fun e =>
       print (Line (lit "Error setting model: " ++ str_of_exn e)) ;;;
       ret false).

End OllamaProvider.

(* ================================================================== *)
(** * The settings panel and the chat session *)
(* ================================================================== *)

Module ChatApp.

(** The text of a [Message].  The two f-strings that render a float or an
    optional name keep their arguments instead of the rendered text. *)
Inductive text : Type :=
| Text (v : pyval)
| SettingsUpdated (model_name : option str) (temperature : Q).

(** [Message(user_name, text)] *)
Record Message : Type := { user_name : str; message_text : text }.

(** The items of [chat_display.controls]: a [ChatMessage] built from a
    message, or the one [typing_indicator] object of the application. *)
Inductive control : Type :=
| ChatMessage (m : Message)
| typing_indicator.

(** A worker thread started by [send_message], holding the coroutine
    [process_message(user_message)].  [reply] is the outcome of the
    [generate_chat] call once the coroutine has issued it. *)
Record thread : Type := {
  user_message : str;
  reply : option (res pyval)
}.

(** [ModelSettingsPanel]: the values of its inputs and its own attributes. *)
Record Panel : Type := {
  model_combo_value : option str;
  endpoint_input_value : str;
  temperature_slider_value : Q;
  visible : bool;
  has_page : bool;
  has_on_save : bool
}.

Definition set_visible (b : bool) (p : Panel) : Panel :=
  {| model_combo_value := model_combo_value p;
     endpoint_input_value := endpoint_input_value p;
     temperature_slider_value := temperature_slider_value p;
     visible := b; has_page := has_page p; has_on_save := has_on_save p |}.

(** [ChatApp]: the provider it owns (with the console), the transcript, the
    input field, the typing indicator's flag, the snack bars added to the
    page, the panel and the worker threads that have not ended. *)
Record App : Type := {
  llm_provider : State;
  controls : list control;
  chat_input_value : str;
  typing_indicator_visible : bool;
  snack_bars : list str;
  model_settings_panel : Panel;
  threads : list thread
}.

Definition with_provider (s : State) (a : App) : App :=
  {| llm_provider := s; controls := controls a;
     chat_input_value := chat_input_value a;
     typing_indicator_visible := typing_indicator_visible a;
     snack_bars := snack_bars a;
     model_settings_panel := model_settings_panel a; threads := threads a |}.
Definition with_controls (c : list control) (a : App) : App :=
  {| llm_provider := llm_provider a; controls := c;
     chat_input_value := chat_input_value a;
     typing_indicator_visible := typing_indicator_visible a;
     snack_bars := snack_bars a;
     model_settings_panel := model_settings_panel a; threads := threads a |}.
Definition with_chat_input (v : str) (a : App) : App :=
  {| llm_provider := llm_provider a; controls := controls a;
     chat_input_value := v;
     typing_indicator_visible := typing_indicator_visible a;
     snack_bars := snack_bars a;
     model_settings_panel := model_settings_panel a; threads := threads a |}.
Definition with_typing (b : bool) (a : App) : App :=
  {| llm_provider := llm_provider a; controls := controls a;
     chat_input_value := chat_input_value a;
     typing_indicator_visible := b;
     snack_bars := snack_bars a;
     model_settings_panel := model_settings_panel a; threads := threads a |}.
Definition with_snack_bars (l : list str) (a : App) : App :=
  {| llm_provider := llm_provider a; controls := controls a;
     chat_input_value := chat_input_value a;
     typing_indicator_visible := typing_indicator_visible a;
     snack_bars := l;
     model_settings_panel := model_settings_panel a; threads := threads a |}.
Definition with_panel (p : Panel) (a : App) : App :=
  {| llm_provider := llm_provider a; controls := controls a;
     chat_input_value := chat_input_value a;
     typing_indicator_visible := typing_indicator_visible a;
     snack_bars := snack_bars a;
     model_settings_panel := p; threads := threads a |}.
Definition with_threads (t : list thread) (a : App) : App :=
  {| llm_provider := llm_provider a; controls := controls a;
     chat_input_value := chat_input_value a;
     typing_indicator_visible := typing_indicator_visible a;
     snack_bars := snack_bars a;
     model_settings_panel := model_settings_panel a; threads := t |}.

Definition bot (t : text) : control :=
  ChatMessage {| user_name := lit "Bot"; message_text := t |}.
Definition you (s : str) : control :=
  ChatMessage {| user_name := lit "You"; message_text := Text (PStr s) |}.

(** [_on_settings_saved(self, model_name, endpoint, temperature)] *)
Definition _on_settings_saved (model_name : option str) (endpoint : str)
    (temperature : Q) (a : App) : App :=
  with_controls (controls a ++ [bot (SettingsUpdated model_name temperature)]) a.

(** [ModelSettingsPanel._handle_close] *)
Definition _handle_close (a : App) : App :=
  with_panel (set_visible false (model_settings_panel a)) a.

Definition NO_MODELS_FOUND : str := lit "No models found".

(** The endpoint update of [_handle_save]: a new host gets a new client. *)
Definition apply_endpoint (ollama_Client : str -> Client) (endpoint : str)
    (st : State) : State :=
  if negb (Py.eqb endpoint (host (self st)))
  then {| self := set_client (ollama_Client endpoint) (set_host endpoint (self st));
          console := console st |}
  else st.

(** The guarded call of [set_model] in [_handle_save]; [true] stands for the
    case where no call is made. *)
Definition apply_model (model_name : option str) : M bool :=
  match model_name with
  | Some name =>
      if negb (Py.eqb name []) && negb (Py.eqb name NO_MODELS_FOUND)
      then OllamaProvider.set_model name
      else ret true
  | None => ret true
  end.

(** [ModelSettingsPanel._handle_save], for the panel of the application:
    its [llm_provider] is the application's and its [on_save] is
    [_on_settings_saved].  [ollama_Client] is the constructor
    [ollama.Client]. *)
Definition _handle_save (ollama_Client : str -> Client) (a : App)
  : res unit * App :=
  let panel := model_settings_panel a in
  let model_name := model_combo_value panel in
  let endpoint := strip (endpoint_input_value panel) in
  let temperature := temperature_slider_value panel in
  (* Update provider settings *)
  let st1 := apply_endpoint ollama_Client endpoint (llm_provider a) in
  (* Update model *)
  match apply_model model_name st1 with
  | (Raise e, st2) => (Raise e, with_provider st2 a)
  | (Ret success, st2) =>
      if negb success && has_page panel then
        (Ret tt,
         with_snack_bars
           (snack_bars a ++ [lit "Failed to set model to "
                             ++ match model_name with Some n => n | None => [] end])
           (with_provider st2 a))
      else
        (* Update temperature *)
        let st3 := {| self := set_temperature temperature (self st2);
                      console := console st2 |} in
        let a1 := with_provider st3 a in
        (* Call the save callback *)
        let a2 := if has_on_save panel
                  then _on_settings_saved model_name endpoint temperature a1
                  else a1 in
        (* Close panel *)
        (Ret tt, _handle_close a2)
  end.

(** [send_message(self, e)]: the text is the value of the input field. *)
Definition send_message (a : App) : App :=
  let user_message := strip (chat_input_value a) in
  match user_message with
  | [] => a
  | _ :: _ =>
      (* Display user message, clear input *)
      let a1 := with_controls (controls a ++ [you user_message]) a in
      let a2 := with_chat_input [] a1 in
      (* Process message in a separate thread *)
      with_threads
        (threads a2 ++ [{| user_message := user_message; reply := None |}]) a2
  end.

(** [self.chat_display.controls.remove(self.typing_indicator)] when it is
    there: the first occurrence goes. *)
Fixpoint remove_typing_indicator (l : list control) : list control :=
  match l with
  | [] => []
  | typing_indicator :: l' => l'
  | c :: l' => c :: remove_typing_indicator l'
  end.

(** [process_message] up to and including the call of [generate_chat]: the
    indicator is shown and the request leaves with the provider's settings of
    that moment. *)
Definition process_message_call (user_message : str) (a : App)
  : res pyval * App :=
  let a1 := with_typing true a in
  let a2 := with_controls (controls a1 ++ [typing_indicator]) a1 in
  let messages :=
    PList [PDict [(lit "role", PStr (lit "user"));
                  (lit "content", PStr user_message)]] in
  let (response, st) :=
    OllamaProvider.generate_chat messages
      (Some (temperature (self (llm_provider a2)))) (llm_provider a2) in
  (response, with_provider st a2).

(** [process_message] from the return of [generate_chat] on: both branches
    hide the indicator and append one message of the bot. *)
Definition process_message_return (response : res pyval) (a : App) : App :=
  let a1 := with_typing false a in
  let a2 := with_controls (remove_typing_indicator (controls a1)) a1 in
  match response with
  | Ret r => with_controls (controls a2 ++ [bot (Text r)]) a2
  | Raise e =>
      with_controls
        (controls a2 ++ [bot (Text (PStr (lit "Error: " ++ str_of_exn e)))]) a2
  end.

(** The whole coroutine, when nothing else runs in between. *)
Definition process_message (user_message : str) (a : App) : App :=
  let (response, a') := process_message_call user_message a in
  process_message_return response a'.

End ChatApp.

(* ================================================================== *)
(** * The session as a transition system *)
(* ================================================================== *)

Module Session.
Import ChatApp.

Definition DEFAULT_HOST : str := lit "http://127.0.0.1:11434".
Definition DEFAULT_MODEL : str := lit "mistral".
Definition WELCOME : str :=
  lit "Welcome to the Chatbot Application! Type a message to begin.".

(** [ChatApp(page)]: the provider with its defaults, the welcome message, an
    empty input, the hidden panel, no worker. *)
Definition initial (ollama_Client : str -> Client) : App :=
  {| llm_provider := snd (OllamaProvider.init ollama_Client DEFAULT_HOST DEFAULT_MODEL);
     controls := [bot (Text (PStr WELCOME))];
     chat_input_value := [];
     typing_indicator_visible := false;
     snack_bars := [];
     model_settings_panel :=
       {| model_combo_value := None; endpoint_input_value := DEFAULT_HOST;
          temperature_slider_value := 7 # 10; visible := false;
          has_page := true; has_on_save := true |};
     threads := [] |}.

(** What can happen next.
    - [Submit text]: the user enters [text] and sends it ([send_message]).
    - [Call i]: worker [i] runs its coroutine up to the call of
      [generate_chat].
    - [Return i]: the call of worker [i] returns, the coroutine finishes and
      the thread ends.
    - [Abort i]: worker [i] ends without running its coroutine: every worker
      hands its coroutine to the one event loop of the application
      ([_run_async_in_thread]), and [run_until_complete] raises when that
      loop is taken.
    Which of the last three the event loop and the scheduler allow a worker
    at a given moment is not fixed here: every order is a run, so the runs of
    the application are among the runs below. *)
Inductive event : Type :=
| Submit (text : str)
| Call (i : nat)
| Return (i : nat)
| Abort (i : nat).

Fixpoint remove_nth {A} (i : nat) (l : list A) : list A :=
  match i, l with
  | _, [] => []
  | O, _ :: l' => l'
  | S i', x :: l' => x :: remove_nth i' l'
  end.

Fixpoint replace_nth {A} (i : nat) (y : A) (l : list A) : list A :=
  match i, l with
  | _, [] => []
  | O, _ :: l' => y :: l'
  | S i', x :: l' => x :: replace_nth i' y l'
  end.

Definition step (ev : event) (a : App) : option App :=
  match ev with
  | Submit text => Some (send_message (with_chat_input text a))
  | Call i =>
      match nth_error (threads a) i with
      | Some {| user_message := m; reply := None |} =>
          let (r, a') := process_message_call m a in
          Some (with_threads
                  (replace_nth i {| user_message := m; reply := Some r |} (threads a'))
                  a')
      | _ => None
      end
  | Return i =>
      match nth_error (threads a) i with
      | Some {| user_message := _; reply := Some r |} =>
          Some (process_message_return r
                  (with_threads (remove_nth i (threads a)) a))
      | _ => None
      end
  | Abort i =>
      match nth_error (threads a) i with
      | Some {| user_message := _; reply := None |} =>
          Some (with_threads (remove_nth i (threads a)) a)
      | _ => None
      end
  end.

Fixpoint run (evs : list event) (a : App) : option App :=
  match evs with
  | [] => Some a
  | ev :: evs' =>
      match step ev a with
      | Some a' => run evs' a'
      | None => None
      end
  end.

Inductive reachable (ollama_Client : str -> Client) : App -> Prop :=
| reach_initial : reachable ollama_Client (initial ollama_Client)
| reach_step a ev a' :
    reachable ollama_Client a -> step ev a = Some a' ->
    reachable ollama_Client a'.

(** The generation requests that have been started and have not ended. *)
Definition outstanding (a : App) : nat := List.length (threads a).

(** The session is idle when no request is outstanding. *)
Definition idle (a : App) : Prop := threads a = [].

End Session.

(* ================================================================== *)
(** * The statements of the specification *)
(* ================================================================== *)

Module Spec.
Import ChatApp Session.

(** The text before the leftmost occurrence of [sep], all of [s] when there
    is none; and the text after it. *)
Definition before (sep s : str) : str :=
  match partition sep s with
  | Some (a, _) => a
  | None => s
  end.

Definition after (sep s : str) : str :=
  match partition sep s with
  | Some (_, b) => b
  | None => []
  end.

(** The extraction as the specification words it: from the first marker to
    the next fence after it. *)
Definition extract_as_claimed (s : str) : str :=
  if contains OllamaProvider.FENCE_JSON s
  then strip (before OllamaProvider.FENCE (after OllamaProvider.FENCE_JSON s))
  else if contains OllamaProvider.FENCE s
  then strip (before OllamaProvider.FENCE (after OllamaProvider.FENCE s))
  else strip s.

(** What the code extracts, in the same terms: the fence is looked for in
    the stretch that ends where the marker occurs again. *)
Definition extract_by_pieces (s : str) : str :=
  if contains OllamaProvider.FENCE_JSON s
  then strip (before OllamaProvider.FENCE
                (before OllamaProvider.FENCE_JSON (after OllamaProvider.FENCE_JSON s)))
  else if contains OllamaProvider.FENCE s
  then strip (before OllamaProvider.FENCE (after OllamaProvider.FENCE s))
  else strip s.

(** [min(2.0, max(0.0, value))] *)
Definition clamp (value : Q) : Q :=
  let m := if Qle_bool 0 value then value else 0 in
  if Qle_bool m 2 then m else 2.

(** A result marked as an error: a string that starts with [Error:]. *)
Definition is_error (v : pyval) : bool :=
  match v with
  | PStr s => startswith (lit "Error:") s
  | _ => false
  end.

(** The reply text of a well-formed chat payload, [{message: {content}}]. *)
Definition reply_text (response : pyval) : option str :=
  match response with
  | PDict d =>
      match dict_lookup (lit "message") d with
      | Some (PDict m) =>
          match dict_lookup (lit "content") m with
          | Some (PStr text) => Some text
          | _ => None
          end
      | _ => None
      end
  | _ => None
  end.

(** The name of a catalog entry, as [__init__] and the settings panel read
    it. *)
Definition entry_name (entry : dict) : pyval :=
  match dict_lookup (lit "model") entry with
  | Some v => v
  | None => PStr []
  end.

(** The payload of the listing endpoint for a catalog. *)
Definition listing (catalog : list dict) : pyval :=
  PDict [(lit "models", PList (map PDict catalog))].

(** [name] is among the names of the catalog. *)
Definition listed (name : str) (catalog : list dict) : bool :=
  existsb (fun entry => eq_str (entry_name entry) name) catalog.

(** A backend that cannot be reached: every call raises. *)
Definition refused : exn := Exn ConnectionError (lit "connection refused").

Definition offline : Client :=
  {| client_chat := fun _ _ _ => Raise refused;
     client_generate := fun _ _ _ => Raise refused;
     client_list := Raise refused |}.

(** A backend with the catalog [catalog] that answers every generation
    request with the payload [answer]. *)
Definition serving (catalog : list dict) (answer : pyval) : Client :=
  {| client_chat := fun _ _ _ => Ret answer;
     client_generate := fun _ _ _ => Ret answer;
     client_list := Ret (listing catalog) |}.

Definition provider_of (c : Client) (name : pyval) : State :=
  {| self := {| host := DEFAULT_HOST; model_name := name;
                temperature := 7 # 10; client := c |};
     console := [] |}.

(** C2 as stated: a raised call and a malformed payload both give a result
    marked as an error, a well-formed payload gives its text. *)
Definition chat_errors_tagged : Prop :=
  forall (st : State) (messages : pyval) (t : option Q),
    let temp := match t with Some x => x | None => temperature (self st) end in
    exists v,
      fst (OllamaProvider.generate_chat messages t st) = Ret v /\
      match client_chat (client (self st)) (model_name (self st)) messages temp with
      | Raise _ => is_error v = true
      | Ret response =>
          match reply_text response with
          | Some text => v = PStr text
          | None => is_error v = true
          end
      end.

(** C4 as stated, for the values the slider yields: after a save the stored
    temperature is the clamped value. *)
Definition save_clamps (ollama_Client : str -> Client) : Prop :=
  forall a,
    let value := temperature_slider_value (model_settings_panel a) in
    0 <= value -> value <= 2 ->
    temperature (self (llm_provider (snd (_handle_save ollama_Client a))))
    == clamp value.

(** C5 as stated: a failed listing and an empty catalog give different
    results. *)
Definition listing_failure_distinguishable : Prop :=
  forall (st_failed st_empty : State) (e : exn),
    client_list (client (self st_failed)) = Raise e ->
    client_list (client (self st_empty)) = Ret (listing []) ->
    fst (OllamaProvider.get_available_models st_failed)
    <> fst (OllamaProvider.get_available_models st_empty).

(** C10 as stated: the extraction is the one the specification words. *)
Definition extraction_as_claimed : Prop :=
  forall s, OllamaProvider.extract_json_text (PStr s) = Ret (extract_as_claimed s).

(** A catalog as the listing endpoint reports it: the name of an entry is
    under [model]. *)
Definition llama_catalog : list dict :=
  [[(lit "model", PStr (lit "llama3:latest"));
    (lit "details",
     PDict [(lit "parameter_size", PStr (lit "8.0B"));
            (lit "quantization_level", PStr (lit "Q4_0"));
            (lit "family", PStr (lit "llama"));
            (lit "format", PStr (lit "gguf"))])]].

(** Some entry has [name] under the key [name], the one [set_model] reads. *)
Definition has_name_field (name : str) (catalog : list dict) : bool :=
  existsb (fun entry =>
             match dict_lookup (lit "name") entry with
             | Some v => eq_str v name
             | None => false
             end) catalog.

(** [_handle_save] took the early return: the model was refused and the
    panel has a page to show the snack bar on. *)
Definition save_rejected (ollama_Client : str -> Client) (a : App) : bool :=
  let panel := model_settings_panel a in
  match apply_model (model_combo_value panel)
          (apply_endpoint ollama_Client (strip (endpoint_input_value panel))
             (llm_provider a)) with
  | (Ret success, _) => negb success && has_page panel
  | (Raise _, _) => false
  end.

(** The application with the panel's slider at [value] and no model chosen. *)
Definition slider_at (value : Q) (a : App) : App :=
  with_panel
    {| model_combo_value := None;
       endpoint_input_value := endpoint_input_value (model_settings_panel a);
       temperature_slider_value := value;
       visible := true; has_page := true; has_on_save := true |} a.

(** The application started against a backend that lists [llama_catalog],
    with the panel open, the listed model chosen and the slider moved to
    1. *)
Definition refused_save : App :=
  with_panel
    {| model_combo_value := Some (lit "llama3:latest");
       endpoint_input_value := DEFAULT_HOST;
       temperature_slider_value := 1;
       visible := true; has_page := true; has_on_save := true |}
    (initial (fun _ => serving llama_catalog PNone)).

(** The raw response of the round trip: a fenced block, marker [json], around
    the object with the one member [a] equal to 1. *)
Definition fenced_answer : str :=
  lit "```json" ++ [NL] ++ lit "{" ++ [DQ] ++ lit "a" ++ [DQ] ++ lit ":1}"
  ++ [NL] ++ lit "```".

(** The prompt [generate_json] sends for [prompt]. *)
Definition formatted (prompt : str) : str :=
  prompt ++ [NL; NL] ++ lit "Respond with valid JSON only.".

(** A raw response on which the code and the wording differ: the closing
    fence has four backticks and the marker follows it. *)
Definition overlapping_answer : str := lit "```json1````json".

(** C7 as stated: whenever the block extracted from the raw output is not
    parsed, [generate_json] returns the dict of a parse failure with the raw
    output. *)
Definition parse_failure_reported : Prop :=
  forall (prompt raw : str) (st : State),
    OllamaProvider.generate_text (formatted prompt) None st = (Ret (PStr raw), st) ->
    (forall v, Json.loads (extract_by_pieces raw) <> Ret v) ->
    exists e,
      OllamaProvider.generate_json prompt st
      = (Ret (OllamaProvider.parse_failure e (PStr raw)), st).

(** A raw response that is no JSON: an array that is not closed, with an
    integer of 4301 digits in it. *)
Definition long_integer_answer : str := lit "[" ++ repeat 49%N 4301.

Definition logged (st : State) (l : console_line) : State :=
  {| self := self st; console := console st ++ [l] |}.

End Spec.

(* ================================================================== *)
(** * The rest of the provider *)
(* ================================================================== *)

Module Admin.

(** The calls of [ollama.Client] behind the methods below: [ps], [show],
    [pull] and [delete], the last three with their keyword argument
    [model]. *)
Record AdminClient : Type := {
  client_ps : res pyval;
  client_show : str -> res pyval;
  client_pull : str -> res pyval;
  client_delete : str -> res pyval
}.

(** [get_running_models(self)] *)
Definition get_running_models (c : AdminClient) : M pyval :=
  try_except
    (ps_result <- lift (client_ps c) ;;
     lift (py_get ps_result "models" (PList [])))
    (fun e =>
       print (Line (lit "Error fetching running models: " ++ str_of_exn e)) ;;;
       ret (PList [])).

(** [get_model_info(self, model_name)] *)
Definition get_model_info (c : AdminClient) (model_name : str) : M pyval :=
  try_except
    (lift (client_show c model_name))
    (fun e =>
       print (Line (lit "Error fetching model info: " ++ str_of_exn e)) ;;;
       ret (PDict [(lit "error", PStr (str_of_exn e))])).

(** [pull_model(self, model_name)] *)
Definition pull_model (c : AdminClient) (model_name : str) : M pyval :=
  try_except
    (_ <- lift (client_pull c model_name) ;;
     ret (PDict [(lit "status", PStr (lit "success"));
                 (lit "model", PStr model_name)]))
    (fun e =>
       print (Line (lit "Error pulling model: " ++ str_of_exn e)) ;;;
       ret (PDict [(lit "error", PStr (str_of_exn e))])).

(** [delete_model(self, model_name)] *)
Definition delete_model (c : AdminClient) (model_name : str) : M bool :=
  try_except
    (_ <- lift (client_delete c model_name) ;;
     ret true)
    (fun e =>
       print (Line (lit "Error deleting model: " ++ str_of_exn e)) ;;;
       ret false).

End Admin.

(* ================================================================== *)
(** * The widgets of the settings panel *)
(* ================================================================== *)

Module SettingsPanel.
Import ChatApp Admin.

(** The text of a dropdown option.  The f-string that joins a name with its
    details keeps its arguments: [Detailed name parts] stands for
    [name (part, part)]. *)
Inductive label : Type :=
| Plain (name : pyval)
| Detailed (name : pyval) (parts : list str).

(** [ft.dropdown.Option(key, text)] *)
Record dropdown_option : Type := { option_key : pyval; option_text : label }.

(** The content of the [model_details] container: the placeholder it is
    built with, the text [Error fetching details for] a model, the column of
    rows (label and value), or the text [Error: ] with a message. *)
Inductive details_content : Type :=
| NoModelSelected
| ErrorFetchingDetails (model_name : str)
| DetailRows (rows : list (string * pyval))
| DetailsFailed (message : str).

(** The attributes of the panel's widgets that [Panel] leaves out.
    [temp_label_value] is the number the label was last written from (the
    label shows it rounded to two places). *)
Record Widgets : Type := {
  model_combo_options : list dropdown_option;
  model_combo_disabled : bool;
  model_details_content : details_content;
  model_details_visible : bool;
  loading_visible : bool;
  temp_label_value : Q
}.

Definition with_options (o : list dropdown_option) (w : Widgets) : Widgets :=
  {| model_combo_options := o; model_combo_disabled := false;
     model_details_content := model_details_content w;
     model_details_visible := model_details_visible w;
     loading_visible := loading_visible w;
     temp_label_value := temp_label_value w |}.
Definition with_details (c : details_content) (w : Widgets) : Widgets :=
  {| model_combo_options := model_combo_options w;
     model_combo_disabled := model_combo_disabled w;
     model_details_content := c; model_details_visible := true;
     loading_visible := loading_visible w;
     temp_label_value := temp_label_value w |}.
Definition with_loading (b : bool) (w : Widgets) : Widgets :=
  {| model_combo_options := model_combo_options w;
     model_combo_disabled := model_combo_disabled w;
     model_details_content := model_details_content w;
     model_details_visible := model_details_visible w;
     loading_visible := b;
     temp_label_value := temp_label_value w |}.
Definition with_temp_label (t : Q) (w : Widgets) : Widgets :=
  {| model_combo_options := model_combo_options w;
     model_combo_disabled := model_combo_disabled w;
     model_details_content := model_details_content w;
     model_details_visible := model_details_visible w;
     loading_visible := loading_visible w;
     temp_label_value := t |}.

Definition with_combo_value (v : option str) (p : Panel) : Panel :=
  {| model_combo_value := v;
     endpoint_input_value := endpoint_input_value p;
     temperature_slider_value := temperature_slider_value p;
     visible := visible p; has_page := has_page p; has_on_save := has_on_save p |}.
Definition with_slider (t : Q) (p : Panel) : Panel :=
  {| model_combo_value := model_combo_value p;
     endpoint_input_value := endpoint_input_value p;
     temperature_slider_value := t;
     visible := visible p; has_page := has_page p; has_on_save := has_on_save p |}.

(** The widgets as [ModelSettingsPanel.__init__] builds them. *)
Definition initial_widgets : Widgets :=
  {| model_combo_options := []; model_combo_disabled := false;
     model_details_content := NoModelSelected; model_details_visible := false;
     loading_visible := false; temp_label_value := 7 # 10 |}.

(** [', '.join(parts)] wants strings: the error names the place of the first
    item that is none, [i] being the place of the head of [parts]. *)
Fixpoint py_join_from (i : nat) (parts : list pyval) : res (list str) :=
  match parts with
  | [] => Ret []
  | PStr s :: rest =>
      let? more := py_join_from (S i) rest in
      Ret (s :: more)
  | v :: _ =>
      Raise (Exn TypeError
               (lit "sequence item " ++ Json.decimal i
                ++ lit ": expected str instance, " ++ type_name v ++ lit " found"))
  end.

Definition py_join_parts (parts : list pyval) : res (list str) :=
  py_join_from 0 parts.

(** One turn of the loop of [_populate_models]: the option of an entry, none
    for an entry without a name. *)
Definition option_of (model : pyval) : res (option dropdown_option) :=
  let? model_name := py_get model "model" (PStr []) in
  if negb (truthy model_name) then Ret None
  else
    let? details := py_get model "details" (PDict []) in
    let? param_size := py_get details "parameter_size" (PStr []) in
    let? quant_level := py_get details "quantization_level" (PStr []) in
    let display_parts :=
      (if truthy param_size then [param_size] else [])
      ++ (if truthy quant_level then [quant_level] else []) in
    match display_parts with
    | [] => Ret (Some {| option_key := model_name; option_text := Plain model_name |})
    | _ :: _ =>
        let? parts := py_join_parts display_parts in
        Ret (Some {| option_key := model_name; option_text := Detailed model_name parts |})
    end.

Fixpoint options_of (models : list pyval) : res (list dropdown_option) :=
  match models with
  | [] => Ret []
  | model :: rest =>
      let? o := option_of model in
      let? more := options_of rest in
      Ret (match o with Some x => x :: more | None => more end)
  end.

Definition fixed_option (s : string) : dropdown_option :=
  {| option_key := PStr (lit s); option_text := Plain (PStr (lit s)) |}.

(** The rows [_update_model_details] shows for a model. *)
Definition detail_rows (model_name : str) (model_info : pyval)
  : res (list (string * pyval)) :=
  let? details := py_get model_info "details" (PDict []) in
  let? model_family := py_get details "family" (PStr (lit "Unknown")) in
  let? model_format := py_get details "format" (PStr (lit "Unknown")) in
  let? parameter_size := py_get details "parameter_size" (PStr (lit "Unknown")) in
  let? quantization := py_get details "quantization_level" (PStr (lit "None")) in
  Ret ([("Model: "%string, PStr model_name);
        ("Family: "%string, model_family);
        ("Size: "%string, parameter_size)]
       ++ (if truthy quantization && negb (eq_str quantization (lit "None"))
           then [("Quantization: "%string, quantization)] else [])
       ++ [("Format: "%string, model_format)]).

(** [_update_model_details(self, model_name)] *)
Definition _update_model_details (c : AdminClient) (model_name : str)
    (st : State) (w : Widgets) : State * Widgets :=
  let failed (e : exn) (st' : State) :=
    ({| self := self st';
        console := console st'
                   ++ [Line (lit "Error fetching model details: " ++ str_of_exn e)] |},
     with_details (DetailsFailed (str_of_exn e)) w) in
  match get_model_info c model_name st with
  | (Raise e, st') => failed e st'
  | (Ret model_info, st') =>
      if negb (truthy model_info)
      then (st', with_details (ErrorFetchingDetails model_name) w)
      else
        match py_contains (lit "error") model_info with
        | Raise e => failed e st'
        | Ret true => (st', with_details (ErrorFetchingDetails model_name) w)
        | Ret false =>
            match detail_rows model_name model_info with
            | Raise e => failed e st'
            | Ret rows => (st', with_details (DetailRows rows) w)
            end
        end
  end.

(** The value [_populate_models] gives the dropdown: the model of the
    provider, [None] for a falsy one.  A model that is neither a string nor
    falsy is outside what [Panel] can hold. *)
Definition combo_value_of (model_name : pyval) : option (option str) :=
  match model_name with
  | PStr [] => Some None
  | PStr s => Some (Some s)
  | v => if truthy v then None else Some None
  end.

(** [_populate_models(self)] *)
Definition _populate_models (c : AdminClient)
    (st : State) (p : Panel) (w : Widgets) : option (State * Panel * Widgets) :=
  let w0 := with_loading true w in
  let listed :=
    match OllamaProvider.get_available_models st with
    | (Raise e, st1) => (Raise e, st1)
    | (Ret models, st1) =>
        if negb (truthy models)
        then (Ret [fixed_option "No models found"], st1)
        else (rbind (py_iter models) options_of, st1)
    end in
  match listed with
  | (Ret options, st1) =>
      let w1 := with_options options w0 in
      match combo_value_of (model_name (self st1)) with
      | None => None
      | Some value =>
          let p1 := with_combo_value value p in
          match value with
          | Some name =>
              let (st2, w2) := _update_model_details c name st1 w1 in
              Some (st2, p1, with_loading false w2)
          | None => Some (st1, p1, with_loading false w1)
          end
      end
  | (Raise e, st1) =>
      Some ({| self := self st1;
               console := console st1
                          ++ [Line (lit "Error populating models: " ++ str_of_exn e)] |},
            p,
            with_loading false (with_options [fixed_option "Error loading models"] w0))
  end.

(** [_on_model_selected(self, e)], [data] being [e.data]. *)
Definition _on_model_selected (c : AdminClient) (data : option str)
    (st : State) (w : Widgets) : State * Widgets :=
  match data with
  | Some d =>
      if negb (Py.eqb d []) && negb (Py.eqb d (lit "None"))
      then _update_model_details c d st w
      else (st, w)
  | None => (st, w)
  end.

(** [_update_temperature_label(self, e)] *)
Definition _update_temperature_label (p : Panel) (w : Widgets) : Widgets :=
  with_temp_label (temperature_slider_value p) w.

(** [toggle_visibility(self)] *)
Definition toggle_visibility (c : AdminClient)
    (st : State) (p : Panel) (w : Widgets) : option (State * Panel * Widgets) :=
  let p1 := set_visible (negb (visible p)) p in
  if visible p1 then
    match _populate_models c st p1 w with
    | Some (st1, p2, w1) =>
        let p3 := with_slider (temperature (self st1)) p2 in
        Some (st1, p3, _update_temperature_label p3 w1)
    | None => None
    end
  else Some (st, p1, w).

(** [_refresh_models(self, e)]: a new endpoint that is not blank gets a new
    client; the calls of [AdminClient] are those of the client of the
    provider's host. *)
Definition _refresh_models (ollama_Client : str -> Client)
    (ollama_Admin : str -> AdminClient)
    (st : State) (p : Panel) (w : Widgets) : option (State * Panel * Widgets) :=
  let endpoint := strip (endpoint_input_value p) in
  let st1 :=
    if negb (Py.eqb endpoint []) && negb (Py.eqb endpoint (host (self st)))
    then {| self := set_client (ollama_Client endpoint) (set_host endpoint (self st));
            console := console st |}
    else st in
  _populate_models (ollama_Admin (host (self st1))) st1 p w.

(** [ChatApp._toggle_model_settings(self, e)] *)
Definition _toggle_model_settings (ollama_Admin : str -> AdminClient)
    (a : App) (w : Widgets) : option (App * Widgets) :=
  match toggle_visibility (ollama_Admin (host (self (llm_provider a))))
          (llm_provider a) (model_settings_panel a) w with
  | Some (st, p, w') => Some (with_panel p (with_provider st a), w')
  | None => None
  end.

(** [ChatApp.toggle_sidebar(self, e)], on the width of the sidebar. *)
Definition toggle_sidebar (width : Z) : Z :=
  if (width =? 0)%Z then 250%Z else 0%Z.

(** An option whose text is its key alone, or its key with one or two
    details, none of them empty. *)
Definition well_labelled (o : dropdown_option) : Prop :=
  option_text o = Plain (option_key o)
  \/ exists parts,
       option_text o = Detailed (option_key o) parts
       /\ (1 <= List.length parts <= 2)%nat
       /\ Forall (fun part => part <> []) parts.

(** A backend whose administrative calls all fail. *)
Definition admin_offline : AdminClient :=
  {| client_ps := Raise Spec.refused;
     client_show := fun _ => Raise Spec.refused;
     client_pull := fun _ => Raise Spec.refused;
     client_delete := fun _ => Raise Spec.refused |}.

(** A backend that answers [show] with [info] and accepts the rest. *)
Definition admin_serving (info : pyval) : AdminClient :=
  {| client_ps := Ret (PDict [(lit "models", PList [])]);
     client_show := fun _ => Ret info;
     client_pull := fun _ => Ret PNone;
     client_delete := fun _ => Ret PNone |}.

End SettingsPanel.

(* ================================================================== *)
(** * Reading a transcript *)
(* ================================================================== *)

Module Transcript.
Import ChatApp.

(** The messages of a transcript, in order: everything but the typing
    indicator. *)
Fixpoint messages (l : list control) : list Message :=
  match l with
  | [] => []
  | ChatMessage m :: l' => m :: messages l'
  | typing_indicator :: l' => messages l'
  end.

(** How often the typing indicator occurs in a transcript. *)
Fixpoint indicators (l : list control) : nat :=
  match l with
  | [] => O
  | ChatMessage _ :: l' => indicators l'
  | typing_indicator :: l' => S (indicators l')
  end.

(** The workers whose call of [generate_chat] is under way. *)
Definition calling (ts : list thread) : list thread :=
  filter (fun t => match reply t with Some _ => true | None => false end) ts.

(** The texts the user sent, in order. *)
Fixpoint sent (l : list control) : list text :=
  match l with
  | [] => []
  | ChatMessage m :: l' =>
      if Py.eqb (user_name m) (lit "You")
      then message_text m :: sent l'
      else sent l'
  | typing_indicator :: l' => sent l'
  end.

End Transcript.

(* ================================================================== *)
(** * The event loop *)
(* ================================================================== *)

(** The application has one event loop ([self.loop], made in
    [ChatApp.__init__]), and every worker hands its coroutine to it with
    [run_until_complete] ([_run_async_in_thread]).  That call raises
    [RuntimeError] ("This event loop is already running") when the loop is
    running, and the worker ends there; otherwise it runs the coroutine to
    its end in the worker's thread.  [process_message] awaits nothing, so the
    loop is running from the moment a worker enters it until the call of
    [generate_chat] has returned and the reply is in the transcript.  The
    check of the loop and its start are taken as one step. *)
Module EventLoop.
Import ChatApp Session Transcript.

(** [self.loop.is_running()]: a worker is inside [run_until_complete]. *)
Definition is_running (a : App) : bool :=
  match calling (threads a) with
  | [] => false
  | _ :: _ => true
  end.

(** A step of the session under the loop: a worker enters the loop only when
    it is not running, and is turned away only when it is. *)
Definition loop_step (ev : event) (a : App) : option App :=
  match ev with
  | Submit _ => step ev a
  | Call _ => if is_running a then None else step ev a
  | Return _ => step ev a
  | Abort _ => if is_running a then step ev a else None
  end.

Fixpoint loop_run (evs : list event) (a : App) : option App :=
  match evs with
  | [] => Some a
  | ev :: evs' =>
      match loop_step ev a with
      | Some a' => loop_run evs' a'
      | None => None
      end
  end.

Inductive loop_reachable (ollama_Client : str -> Client) : App -> Prop :=
| loop_initial : loop_reachable ollama_Client (initial ollama_Client)
| loop_next a ev a' :
    loop_reachable ollama_Client a -> loop_step ev a = Some a' ->
    loop_reachable ollama_Client a'.

(** The calls of [generate_chat] that have been made and have not
    returned. *)
Definition backend_calls (a : App) : nat := List.length (calling (threads a)).

End EventLoop.

(* ================================================================== *)
(** * Checks on concrete inputs *)
(* ================================================================== *)

Import OllamaProvider ChatApp Session Spec.

Unset Implicit Arguments.

(** Unfolds the plumbing of the method monad. *)
Ltac run_method :=
  unfold try_except, try_except_JSONDecodeError, before_binding,
         bind, lift, ret, raise, get_self, modify_self, print; simpl.

(** Closes a conjunction of equations between closed terms by evaluating
    them. *)
Ltac by_computation :=
  repeat match goal with |- _ /\ _ => split end; vm_compute; reflexivity.

Example strip_blank : strip (lit "   ") = [].
Proof. reflexivity. Qed.

Example strip_inner : strip (lit "  a b  ") = lit "a b".
Proof. reflexivity. Qed.

Example split_fences :
  split (lit "```") (lit "x```y```z") = [lit "x"; lit "y"; lit "z"].
Proof. reflexivity. Qed.

Example split_trailing : split (lit ",") (lit "a,") = [lit "a"; []].
Proof. reflexivity. Qed.

Example split_overlap : split (lit "aa") (lit "aaa") = [[]; lit "a"].
Proof. reflexivity. Qed.

Example loads_not_json :
  Json.loads (lit "not json")
  = Raise (Exn JSONDecodeError (lit "Expecting value: line 1 column 1 (char 0)")).
Proof. reflexivity. Qed.

Example loads_object :
  Json.loads (lit "{" ++ [DQ] ++ lit "a" ++ [DQ] ++ lit ": [1, -2.5e3, true, null], "
              ++ [DQ] ++ lit "b" ++ [DQ] ++ lit ":{}}")
  = Ret (PDict [(lit "a", PList [PInt 1; PFloat (lit "-2.5e3"); PBool true; PNone]);
                (lit "b", PDict [])]).
Proof. reflexivity. Qed.

Example loads_numbers :
  Json.loads (lit "[0, -0, 12, 1.5, 1e5, -2E-3, NaN]")
  = Ret (PList [PInt 0; PInt 0; PInt 12; PFloat (lit "1.5"); PFloat (lit "1e5");
                PFloat (lit "-2E-3"); PFloat (lit "NaN")]).
Proof. reflexivity. Qed.

Example loads_leading_zero :
  Json.loads (lit "01")
  = Raise (Exn JSONDecodeError (lit "Extra data: line 1 column 2 (char 1)")).
Proof. reflexivity. Qed.

Example loads_escapes :
  Json.loads ([DQ] ++ lit "a\n\u00e9\ud83d\ude00" ++ [DQ])
  = Ret (PStr [97; 10; 233; 128512]%N).
Proof. reflexivity. Qed.

Example loads_duplicate_key :
  Json.loads (lit "{" ++ [DQ] ++ lit "a" ++ [DQ] ++ lit ":1," ++ [DQ] ++ lit "b"
              ++ [DQ] ++ lit ":2," ++ [DQ] ++ lit "a" ++ [DQ] ++ lit ":3}")
  = Ret (PDict [(lit "a", PInt 3); (lit "b", PInt 2)]).
Proof. reflexivity. Qed.

Example loads_second_line :
  Json.loads (lit "[1," ++ [NL] ++ lit " x]")
  = Raise (Exn JSONDecodeError (lit "Expecting value: line 2 column 2 (char 5)")).
Proof. reflexivity. Qed.

Example loads_unterminated :
  Json.loads ([DQ] ++ lit "abc")
  = Raise (Exn JSONDecodeError
             (lit "Unterminated string starting at: line 1 column 1 (char 0)")).
Proof. reflexivity. Qed.

Example loads_extra_data :
  Json.loads (lit "1 2")
  = Raise (Exn JSONDecodeError (lit "Extra data: line 1 column 3 (char 2)")).
Proof. reflexivity. Qed.

(** The depth of nesting: an array or an object is refused where no level is
    left, the empty ones too. *)
Example loads_too_deep :
  Json.loads_with 3 (lit "[[[]]]") = Ret (PList [PList [PList []]])
  /\ Json.loads_with 2 (lit "[[[]]]")
     = Raise (Exn RecursionError
                (lit "maximum recursion depth exceeded while decoding a JSON array from a unicode string"))
  /\ Json.loads_with 1 (lit "[{}]")
     = Raise (Exn RecursionError
                (lit "maximum recursion depth exceeded while decoding a JSON object from a unicode string"))
  /\ Json.loads_with 2 (lit "[[], [], []]") = Ret (PList [PList []; PList []; PList []])
  /\ Json.loads_with 0 (lit "[]") = Raise (Json.too_deep "array").
Proof. by_computation. Qed.

Example loads_default_depth :
  Json.loads (repeat 91%N 2000) = Raise (Json.too_deep "array")
  /\ Json.loads (repeat 91%N 995 ++ repeat 93%N 995) = Raise (Json.too_deep "array")
  /\ (exists v, Json.loads (repeat 91%N 994 ++ repeat 93%N 994) = Ret v).
Proof.
  split; [vm_compute; reflexivity | split; [vm_compute; reflexivity |]].
  destruct (Json.loads (repeat 91%N 994 ++ repeat 93%N 994)) as [v | e] eqn:H.
  - now exists v.
  - vm_compute in H. discriminate.
Qed.

(** The digits of an integer: 4300 are read, 4301 are not, the sign does not
    count, and a float has no limit. *)
Example loads_long_integer :
  Json.loads (repeat 49%N 4301)
  = Raise (Exn ValueError
             (lit "Exceeds the limit (4300 digits) for integer string conversion: value has 4301 digits; use sys.set_int_max_str_digits() to increase the limit"))
  /\ Json.loads (45%N :: repeat 49%N 4301) = Raise (Json.too_many_digits 4301)
  /\ Json.loads (lit "0." ++ repeat 49%N 5000)
     = Ret (PFloat (lit "0." ++ repeat 49%N 5000)).
Proof. by_computation. Qed.

Example loads_integer_within_limit :
  match Json.loads (45%N :: repeat 49%N 4300) with
  | Ret (PInt _) => True
  | _ => False
  end.
Proof. vm_compute. exact I. Qed.

(** A float is false when it is zero: written as zero, or too small for a
    double. *)
Example float_truth :
  truthy (PFloat (lit "0.0")) = false
  /\ truthy (PFloat (lit "-0.0")) = false
  /\ truthy (PFloat (lit "0e5")) = false
  /\ truthy (PFloat (lit "1e-400")) = false
  /\ truthy (PFloat (lit "2.4703282292062327e-324")) = false
  /\ truthy (PFloat (lit "2.4703282292062328e-324")) = true
  /\ truthy (PFloat (lit "5e-324")) = true
  /\ truthy (PFloat (lit "0.1")) = true
  /\ truthy (PFloat (lit "NaN")) = true
  /\ truthy (PFloat (lit "-Infinity")) = true.
Proof. by_computation. Qed.

(** An entry of the listing whose name is a zero is passed over like one
    without a name; a detail that is no text stops the loop. *)
Example option_of_zero_name :
  SettingsPanel.option_of (PDict [(lit "model", PFloat (lit "0.0"))]) = Ret None
  /\ SettingsPanel.option_of (PDict [(lit "model", PInt 0)]) = Ret None.
Proof. by_computation. Qed.

Example option_of_malformed_detail :
  SettingsPanel.option_of
    (PDict [(lit "model", PStr (lit "llama3:latest"));
            (lit "details",
             PDict [(lit "parameter_size", PStr (lit "8.0B"));
                    (lit "quantization_level", PInt 4)])])
  = Raise (Exn TypeError (lit "sequence item 1: expected str instance, int found")).
Proof. reflexivity. Qed.

(** A raw output of 2000 opening brackets: [json.loads] runs out of
    recursion and [generate_json] lets the error through. *)
Example generate_json_too_deep :
  let st := provider_of
              (serving [] (PDict [(lit "response", PStr (repeat 91%N 2000))])) PNone in
  generate_json (lit "Brackets") st = (Raise (Json.too_deep "array"), st).
Proof. vm_compute. reflexivity. Qed.

Example send_hello :
  let a := send_message (with_chat_input (lit " hello ") (initial (fun _ => offline))) in
  controls a = [bot (Text (PStr WELCOME)); you (lit "hello")]
  /\ chat_input_value a = []
  /\ threads a = [{| user_message := lit "hello"; reply := None |}].
Proof. repeat split. Qed.

Example hello_round_trip :
  let answer := PDict [(lit "message", PDict [(lit "content", PStr (lit "hi there"))])] in
  option_map controls
    (run [Submit (lit "hello"); Call 0; Return 0]
         (initial (fun _ => serving [] answer)))
  = Some [bot (Text (PStr WELCOME)); you (lit "hello"); bot (Text (PStr (lit "hi there")))].
Proof. reflexivity. Qed.

Example hello_refused :
  option_map controls
    (run [Submit (lit "hello"); Call 0; Return 0] (initial (fun _ => offline)))
  = Some [bot (Text (PStr WELCOME)); you (lit "hello");
          bot (Text (PStr (lit "Error: connection refused")))].
Proof. reflexivity. Qed.

Example typing_shown_while_awaiting :
  option_map (fun a => (controls a, typing_indicator_visible a))
    (run [Submit (lit "hello"); Call 0] (initial (fun _ => offline)))
  = Some ([bot (Text (PStr WELCOME)); you (lit "hello"); typing_indicator], true).
Proof. reflexivity. Qed.

(* ================================================================== *)
(** * The session controller *)
(* ================================================================== *)

Section SessionFacts.

Variable ollama_Client : str -> Client.

Lemma lstrip_blank (s : str) :
  Forall (fun c => isspace c = true) s -> lstrip s = [].
Proof.
  induction 1 as [| c s Hc _ IH]; simpl.
  - reflexivity.
  - now rewrite Hc.
Qed.

Lemma strip_blank_text (s : str) :
  Forall (fun c => isspace c = true) s -> strip s = [].
Proof.
  intros H. unfold strip. now rewrite (lstrip_blank _ H).
Qed.

Lemma send_message_blank (a : App) :
  strip (chat_input_value a) = [] -> send_message a = a.
Proof.
  intros H. unfold send_message. now rewrite H.
Qed.

Lemma send_message_text (a : App) :
  strip (chat_input_value a) <> [] ->
  send_message a
  = with_threads
      (threads a ++ [{| user_message := strip (chat_input_value a); reply := None |}])
      (with_chat_input []
         (with_controls (controls a ++ [you (strip (chat_input_value a))]) a)).
Proof.
  intros H. unfold send_message.
  destruct (strip (chat_input_value a)) as [| c s]; [contradiction | reflexivity].
Qed.

Lemma reachable_run (evs : list event) :
  forall a a', reachable ollama_Client a -> run evs a = Some a' ->
               reachable ollama_Client a'.
Proof.
  induction evs as [| ev evs IH]; simpl; intros a a' Ha Hrun.
  - now inversion Hrun; subst.
  - destruct (step ev a) as [a1 |] eqn:Hstep; [| discriminate].
    eapply IH; [| exact Hrun].
    eapply reach_step; eassumption.
Qed.

End SessionFacts.

(** C9.  Sending a text that is empty or made of whitespace only, in a
    session with no request outstanding, changes nothing: the transcript is
    the same, the provider is untouched, no worker is started and the
    session is still idle. *)
Theorem blank_submit_is_no_op (a : App) (text : str) :
  idle a ->
  Forall (fun c => isspace c = true) text ->
  exists a',
    step (Submit text) a = Some a'
    /\ controls a' = controls a
    /\ llm_provider a' = llm_provider a
    /\ outstanding a' = 0%nat
    /\ idle a'.
Proof.
  intros Hidle Hblank.
  exists (with_chat_input text a). simpl.
  rewrite send_message_blank by (simpl; now apply strip_blank_text).
  unfold outstanding, idle in *. simpl. rewrite Hidle. repeat split.
Qed.

Lemma blank_submit_is_no_op_witness :
  exists a',
    step (Submit (lit "   ")) (initial (fun _ => offline)) = Some a'
    /\ controls a' = controls (initial (fun _ => offline))
    /\ llm_provider a' = llm_provider (initial (fun _ => offline))
    /\ outstanding a' = 0%nat
    /\ idle a'.
Proof.
  apply (@blank_submit_is_no_op (initial (fun _ => offline)) (lit "   ")).
  - reflexivity.
  - repeat constructor.
Defined.

(* ================================================================== *)
(** * The provider *)
(* ================================================================== *)

(** [get_available_models] case by case: a listing that fails, or whose
    payload has no [get], is printed and gives the empty list. *)
Lemma get_available_models_run (st : State) :
  get_available_models st
  = match client_list (client (self st)) with
    | Raise e =>
        (Ret (PList []), logged st (Line (lit "Error fetching models: " ++ str_of_exn e)))
    | Ret models =>
        match py_get models "models" (PList []) with
        | Ret v => (Ret v, st)
        | Raise e =>
            (Ret (PList []),
             logged st (Line (lit "Error fetching models: " ++ str_of_exn e)))
        end
    end.
Proof.
  unfold get_available_models. run_method.
  destruct (client_list (client (self st))) as [models | e]; [| reflexivity].
  destruct (py_get models "models" (PList [])); reflexivity.
Qed.

Lemma get_available_models_listing (st : State) (catalog : list dict) :
  client_list (client (self st)) = Ret (listing catalog) ->
  get_available_models st = (Ret (PList (map PDict catalog)), st).
Proof.
  intros H. rewrite get_available_models_run, H. reflexivity.
Qed.

(** C5, the statement as it stands fails: an unreachable backend and a
    backend with no model installed give the same result. *)
Lemma listing_failure_indistinguishable : ~ listing_failure_distinguishable.
Proof.
  intros H.
  apply (H (provider_of offline PNone) (provider_of (serving [] PNone) PNone) refused);
    reflexivity.
Qed.

(** C5, amended.  [get_available_models] never raises, and it does not tell
    a failed listing from an empty catalog: both return the empty list.  The
    failure leaves one line on the console and nothing in the result. *)
Theorem listing_failure_returns_empty (st_failed st_empty : State) (e : exn) :
  client_list (client (self st_failed)) = Raise e ->
  client_list (client (self st_empty)) = Ret (listing []) ->
  get_available_models st_failed
  = (Ret (PList []),
     logged st_failed (Line (lit "Error fetching models: " ++ str_of_exn e)))
  /\ get_available_models st_empty = (Ret (PList []), st_empty).
Proof.
  intros Hf He. split.
  - rewrite get_available_models_run, Hf. reflexivity.
  - exact (@get_available_models_listing st_empty [] He).
Qed.

Lemma listing_failure_returns_empty_witness :
  get_available_models (provider_of offline PNone)
  = (Ret (PList []),
     logged (provider_of offline PNone)
            (Line (lit "Error fetching models: " ++ str_of_exn refused)))
  /\ get_available_models (provider_of (serving [] PNone) PNone)
     = (Ret (PList []), provider_of (serving [] PNone) PNone).
Proof.
  apply (@listing_failure_returns_empty
           (provider_of offline PNone) (provider_of (serving [] PNone) PNone) refused);
    reflexivity.
Defined.

(** [generate_chat] leaves the provider and the console as they are. *)
Lemma generate_chat_state (messages : pyval) (t : option Q) (st : State) :
  snd (generate_chat messages t st) = st.
Proof.
  unfold generate_chat. run_method.
  destruct (client_chat _ _ _ _) as [response | e]; [| reflexivity].
  destruct (py_get response "message" (PDict [])) as [message | e]; [| reflexivity].
  destruct (py_get message "content" no_response); reflexivity.
Qed.

(** C2, the statement as it stands fails: a payload without a message is
    answered with a fixed text that is not marked as an error. *)
Lemma chat_errors_tagged_fails : ~ chat_errors_tagged.
Proof.
  intros H.
  destruct (H (provider_of (serving [] (PDict [])) PNone) (PList []) None)
    as (v & Hv & Htag).
  simpl in Hv. inversion Hv; subst v. simpl in Htag. discriminate.
Qed.

(** C2, amended.  [generate_chat] never raises and changes nothing in the
    provider.  When the call of the backend raises, the result is the text
    [Error: ] followed by the message of the exception; when the payload
    carries a message with a content, the result is that content; when the
    payload is a dict without a message, or its message a dict without a
    content, the result is the fixed text [No response from model], which is
    not marked as an error. *)
Theorem generate_chat_never_raises (st : State) (messages : pyval) (t : option Q) :
  let temp := match t with Some x => x | None => temperature (self st) end in
  let outcome := client_chat (client (self st)) (model_name (self st)) messages temp in
  (exists v, generate_chat messages t st = (Ret v, st))
  /\ (forall e, outcome = Raise e ->
        generate_chat messages t st = (Ret (PStr (lit "Error: " ++ str_of_exn e)), st)
        /\ is_error (PStr (lit "Error: " ++ str_of_exn e)) = true)
  /\ (forall response text, outcome = Ret response ->
        reply_text response = Some text ->
        generate_chat messages t st = (Ret (PStr text), st))
  /\ (forall d, outcome = Ret (PDict d) ->
        dict_lookup (lit "message") d = None
        \/ (exists m, dict_lookup (lit "message") d = Some (PDict m)
                      /\ dict_lookup (lit "content") m = None) ->
        generate_chat messages t st = (Ret no_response, st)
        /\ is_error no_response = false).
Proof.
  intros temp outcome. subst temp outcome.
  unfold generate_chat. run_method.
  split; [| split; [| split]].
  - destruct (client_chat _ _ _ _) as [response | e]; [| eauto].
    destruct (py_get response "message" (PDict [])) as [message | e]; [| eauto].
    destruct (py_get message "content" no_response); eauto.
  - intros e H. now rewrite H.
  - intros response text H Htext. rewrite H. unfold reply_text in Htext.
    destruct response as [| | | | | | d]; try discriminate. simpl.
    destruct (dict_lookup (lit "message") d) as [[| | | | | | m] |]; try discriminate.
    simpl. destruct (dict_lookup (lit "content") m) as [[| | | | s | |] |];
      try discriminate.
    now inversion Htext.
  - intros d H [Hm | (m & Hm & Hc)]; rewrite H; simpl; rewrite Hm; simpl.
    + split; reflexivity.
    + rewrite Hc. split; reflexivity.
Qed.

Lemma generate_chat_never_raises_witness :
  generate_chat (PList []) None (provider_of offline PNone)
  = (Ret (PStr (lit "Error: connection refused")), provider_of offline PNone)
  /\ generate_chat (PList []) None
       (provider_of
          (serving [] (PDict [(lit "message", PDict [(lit "content", PStr (lit "hi there"))])]))
          PNone)
     = (Ret (PStr (lit "hi there")),
        provider_of
          (serving [] (PDict [(lit "message", PDict [(lit "content", PStr (lit "hi there"))])]))
          PNone)
  /\ generate_chat (PList []) None (provider_of (serving [] (PDict [])) PNone)
     = (Ret no_response, provider_of (serving [] (PDict [])) PNone).
Proof.
  split; [| split].
  - apply (proj1 (proj2 (@generate_chat_never_raises
                           (provider_of offline PNone) (PList []) None)) refused).
    reflexivity.
  - apply (proj1 (proj2 (proj2 (@generate_chat_never_raises
             (provider_of
                (serving [] (PDict [(lit "message",
                                     PDict [(lit "content", PStr (lit "hi there"))])]))
                PNone)
             (PList []) None)))
             (PDict [(lit "message", PDict [(lit "content", PStr (lit "hi there"))])])
             (lit "hi there")); reflexivity.
  - apply (proj2 (proj2 (proj2 (@generate_chat_never_raises
             (provider_of (serving [] (PDict [])) PNone) (PList []) None)))
             []); [reflexivity | left; reflexivity].
Defined.

Lemma get_available_models_total (st : State) :
  exists v st',
    get_available_models st = (Ret v, st') /\ self st' = self st.
Proof.
  rewrite get_available_models_run.
  destruct (client_list (client (self st))) as [models | e]; [| eauto].
  destruct (py_get models "models" (PList [])); eauto.
Qed.

(** [set_model] never raises, and it touches the model name only, and only
    when it answers [True]. *)
Lemma set_model_total (name : str) (st : State) :
  exists b st',
    set_model name st = (Ret b, st')
    /\ self st' = (if b then set_model_name (PStr name) (self st) else self st).
Proof.
  destruct (get_available_models_total st) as (v & st1 & Hget & Hself).
  unfold set_model. run_method. rewrite Hget.
  destruct (py_iter v) as [items | e]; [| exists false; eauto].
  destruct (py_any _ items) as [[|] | e]; simpl.
  - exists true. eexists. split; [reflexivity |]. simpl. now rewrite Hself.
  - exists false. eauto.
  - exists false. eauto.
Qed.

Lemma py_any_entries (name : str) (catalog : list dict) :
  py_any (fun model => let? n := py_get model "name" PNone in Ret (eq_str n name))
         (map PDict catalog)
  = Ret (has_name_field name catalog).
Proof.
  induction catalog as [| entry catalog IH]; simpl; [reflexivity |].
  destruct (dict_lookup (lit "name") entry) as [v |]; simpl.
  - destruct (eq_str v name); [reflexivity | exact IH].
  - exact IH.
Qed.

(** On a well-formed listing [set_model] decides by the field [name] of the
    entries. *)
Lemma set_model_by_name_field (name : str) (catalog : list dict) (st : State) :
  client_list (client (self st)) = Ret (listing catalog) ->
  set_model name st
  = if has_name_field name catalog
    then (Ret true, {| self := set_model_name (PStr name) (self st);
                       console := console st |})
    else (Ret false,
          logged st (Line (lit "Model " ++ name ++ lit " not found in available models"))).
Proof.
  intros H. unfold set_model. run_method.
  rewrite (get_available_models_listing st catalog H). simpl.
  rewrite py_any_entries.
  destruct (has_name_field name catalog); reflexivity.
Qed.

(** No entry of a catalog whose names are under [model] alone passes the
    test of [set_model]. *)
Lemma set_model_without_name_field (name : str) (catalog : list dict) (st : State) :
  client_list (client (self st)) = Ret (listing catalog) ->
  Forall (fun entry => dict_lookup (lit "name") entry = None) catalog ->
  set_model name st
  = (Ret false,
     logged st (Line (lit "Model " ++ name ++ lit " not found in available models"))).
Proof.
  intros H Hnone. rewrite (set_model_by_name_field name catalog st H).
  replace (has_name_field name catalog) with false; [reflexivity |].
  symmetry. clear H. induction Hnone as [| entry catalog Hentry _ IH]; simpl.
  - reflexivity.
  - rewrite Hentry. exact IH.
Qed.

(** C3, at the failing input.  The catalog lists [llama3:latest]; the
    provider is on [mistral].  [set_model "llama3:latest"] answers [False],
    prints that the model was not found and leaves [mistral] in place:
    it reads the field [name], and the entries carry their name under
    [model]. *)
Theorem set_model_rejects_listed_model :
  let st := provider_of (serving llama_catalog PNone) (PStr (lit "mistral")) in
  listed (lit "llama3:latest") llama_catalog = true
  /\ fst (get_available_models st) = Ret (PList (map PDict llama_catalog))
  /\ set_model (lit "llama3:latest") st
     = (Ret false,
        logged st (Line (lit "Model llama3:latest not found in available models")))
  /\ model_name (self (snd (set_model (lit "llama3:latest") st))) = PStr (lit "mistral").
Proof. repeat split. Qed.

Lemma eqb_eq (a b : str) : Py.eqb a b = true <-> a = b.
Proof.
  revert b. induction a as [| x a IH]; intros [| y b]; simpl;
    try (split; [discriminate | discriminate]); [tauto |].
  rewrite andb_true_iff, N.eqb_eq, IH.
  split; [intros [-> ->]; reflexivity | intros H; inversion H; auto].
Qed.

Lemma eq_str_true (v : pyval) (s : str) : eq_str v s = true <-> v = PStr s.
Proof.
  destruct v; simpl; try (split; [discriminate | discriminate]).
  rewrite eqb_eq. split; [now intros -> | now inversion 1].
Qed.

Lemma py_map_entries (catalog : list dict) :
  py_map (fun model => py_get model "model" (PStr [])) (map PDict catalog)
  = Ret (map entry_name catalog).
Proof.
  induction catalog as [| entry catalog IH]; simpl; [reflexivity |].
  rewrite IH. unfold entry_name.
  destruct (dict_lookup (lit "model") entry); reflexivity.
Qed.

Lemma listed_names (name : str) (catalog : list dict) :
  existsb (fun v => eq_str v name) (map entry_name catalog) = listed name catalog.
Proof.
  unfold listed. induction catalog as [| entry catalog IH]; simpl; congruence.
Qed.

Lemma listed_In (name : str) (catalog : list dict) :
  listed name catalog = true <-> In (PStr name) (map entry_name catalog).
Proof.
  unfold listed. rewrite existsb_exists, in_map_iff. split.
  - intros (entry & Hin & Heq). apply eq_str_true in Heq. eauto.
  - intros (entry & Heq & Hin). exists entry. split; [exact Hin |].
    now apply eq_str_true.
Qed.


(** The object [__init__] leaves on a well-formed listing. *)
Lemma init_listing
    (ollama_Client : str -> Client) (host_ preferred : str) (available : list dict) :
  client_list (ollama_Client host_) = Ret (listing available) ->
  init ollama_Client host_ preferred
  = let p := {| host := host_; model_name := PStr preferred;
                temperature := 7 # 10; client := ollama_Client host_ |} in
    match available with
    | [] =>
        (Ret tt,
         {| self := set_model_name PNone p;
            console := [Line (lit "No models available. Please install at least one model with 'ollama pull <model>'.")] |})
    | entry :: _ =>
        if listed preferred available
        then (Ret tt, {| self := p; console := [] |})
        else (Ret tt,
              {| self := set_model_name (entry_name entry) p;
                 console := [DefaultModelNotFound (entry_name entry)] |})
    end.
Proof.
  intros Hlist.
  unfold init, init_body. run_method.
  erewrite get_available_models_listing; [| exact Hlist].
  destruct available as [| entry rest]; [reflexivity |].
  cbn [truthy map]. cbn [py_iter]. change (PDict entry :: map PDict rest)
    with (map PDict (entry :: rest)).
  rewrite py_map_entries, listed_names.
  destruct (listed preferred (entry :: rest)); simpl; [reflexivity |].
  unfold entry_name.
  destruct (dict_lookup (lit "model") entry); reflexivity.
Qed.

(** C6.  [__init__] resolves the model among the installed ones: a preferred
    name that the listing has is kept; otherwise the name of the first entry,
    in the order of the listing, is taken; with no entry the model is [None].
    So with a non-empty listing the model chosen is one of its names. *)
Theorem init_resolves_default
    (ollama_Client : str -> Client) (host_ preferred : str) (available : list dict) :
  client_list (ollama_Client host_) = Ret (listing available) ->
  let names := map entry_name available in
  let selected := model_name (self (snd (init ollama_Client host_ preferred))) in
  fst (init ollama_Client host_ preferred) = Ret tt
  /\ (In (PStr preferred) names -> selected = PStr preferred)
  /\ (available <> [] -> ~ In (PStr preferred) names ->
      selected = hd PNone names)
  /\ (available = [] -> selected = PNone)
  /\ (available <> [] -> In selected names).
Proof.
  intros Hlist names selected. subst names selected.
  rewrite (init_listing _ _ _ _ Hlist).
  destruct available as [| entry rest].
  - simpl.
    split; [reflexivity |]. split; [intros [] |].
    split; [intros H; now elim H |]. split; [reflexivity |].
    intros H; now elim H.
  - cbv zeta.
    destruct (listed preferred (entry :: rest)) eqn:Hlisted.
    + apply listed_In in Hlisted.
      split; [reflexivity |]. split; [reflexivity |].
      split; [intros _ Hnot; contradiction |].
      split; [discriminate |]. intros _. exact Hlisted.
    + assert (Hnot : ~ In (PStr preferred) (map entry_name (entry :: rest))).
      { intros Hin. apply listed_In in Hin. congruence. }
      split; [reflexivity |]. split; [intros Hin; contradiction |].
      split; [reflexivity |]. split; [discriminate |].
      intros _. left. reflexivity.
Qed.
Lemma init_resolves_default_witness :
  let available := llama_catalog in
  let names := map entry_name available in
  let selected :=
    model_name (self (snd (init (fun _ => serving llama_catalog PNone)
                                DEFAULT_HOST DEFAULT_MODEL))) in
  fst (init (fun _ => serving llama_catalog PNone) DEFAULT_HOST DEFAULT_MODEL) = Ret tt
  /\ (In (PStr DEFAULT_MODEL) names -> selected = PStr DEFAULT_MODEL)
  /\ (available <> [] -> ~ In (PStr DEFAULT_MODEL) names ->
      selected = hd PNone names)
  /\ (available = [] -> selected = PNone)
  /\ (available <> [] -> In selected names).
Proof.
  apply (init_resolves_default (fun _ => serving llama_catalog PNone)
           DEFAULT_HOST DEFAULT_MODEL llama_catalog).
  reflexivity.
Defined.

Example init_takes_first :
  model_name (self (snd (init (fun _ => serving llama_catalog PNone)
                              DEFAULT_HOST DEFAULT_MODEL)))
  = PStr (lit "llama3:latest").
Proof. reflexivity. Qed.

Example init_offline :
  snd (init (fun _ => offline) DEFAULT_HOST DEFAULT_MODEL)
  = {| self := {| host := DEFAULT_HOST; model_name := PNone;
                  temperature := 7 # 10; client := offline |};
       console :=
         [Line (lit "Error fetching models: connection refused");
          Line (lit "No models available. Please install at least one model with 'ollama pull <model>'.")] |}.
Proof. reflexivity. Qed.

(* ================================================================== *)
(** * The settings panel *)
(* ================================================================== *)

Lemma apply_endpoint_temperature
    (ollama_Client : str -> Client) (endpoint : str) (st : State) :
  temperature (self (apply_endpoint ollama_Client endpoint st)) = temperature (self st).
Proof.
  unfold apply_endpoint. destruct (negb _); reflexivity.
Qed.

(** The model update of [_handle_save] never raises and leaves the
    temperature alone. *)
Lemma apply_model_total (name : option str) (st : State) :
  exists b st',
    apply_model name st = (Ret b, st')
    /\ temperature (self st') = temperature (self st).
Proof.
  unfold apply_model.
  destruct name as [name |]; [| exists true, st; split; reflexivity].
  destruct (negb (Py.eqb name []) && negb (Py.eqb name NO_MODELS_FOUND));
    [| exists true, st; split; reflexivity].
  destruct (set_model_total name st) as (b & st' & Hrun & Hself).
  exists b, st'. split; [exact Hrun |].
  rewrite Hself. destruct b; reflexivity.
Qed.

Lemma apply_endpoint_same
    (ollama_Client : str -> Client) (endpoint : str) (st : State) :
  endpoint = host (self st) -> apply_endpoint ollama_Client endpoint st = st.
Proof.
  intros ->. unfold apply_endpoint.
  assert (H : Py.eqb (host (self st)) (host (self st)) = true).
  { induction (host (self st)) as [| c s IH]; simpl; [reflexivity |].
    now rewrite N.eqb_refl, IH. }
  now rewrite H.
Qed.

(** C4, the statement as it stands fails.  The slider is at 1, within its
    range, and the model chosen is the one the backend lists: [set_model]
    refuses it, the save returns early, and the temperature is still 0.7. *)
Lemma save_clamps_fails : ~ save_clamps (fun _ => serving llama_catalog PNone).
Proof.
  intros H.
  specialize (H refused_save).
  cbv zeta in H.
  assert (Hstored : temperature (self (llm_provider
                      (snd (_handle_save (fun _ => serving llama_catalog PNone)
                              refused_save)))) = 7 # 10) by reflexivity.
  rewrite Hstored in H.
  assert (Hclamp : 7 # 10 == clamp 1)
    by (apply H; vm_compute; discriminate).
  vm_compute in Hclamp. discriminate.
Qed.

(** C4, amended.  The slider of the panel yields values within [0, 2] only.
    For such a value, and with the endpoint left as it is, [_handle_save]
    returns and does not clamp: it stores the value of the slider as it is,
    which is also the clamped value.  And it can fail to store it: when the
    chosen model is refused it returns early and the old temperature stays;
    with no model chosen the value is always stored. *)
Theorem handle_save_temperature (ollama_Client : str -> Client) (a : App) :
  let panel := model_settings_panel a in
  let value := temperature_slider_value panel in
  let stored :=
    temperature (self (llm_provider (snd (_handle_save ollama_Client a)))) in
  0 <= value -> value <= 2 ->
  strip (endpoint_input_value panel) = host (self (llm_provider a)) ->
  fst (_handle_save ollama_Client a) = Ret tt
  /\ stored = (if save_rejected ollama_Client a
               then temperature (self (llm_provider a))
               else value)
  /\ (save_rejected ollama_Client a = false -> stored == clamp value)
  /\ (model_combo_value panel = None -> save_rejected ollama_Client a = false).
Proof.
  intros panel value stored H0 H2 Hendpoint. subst panel value stored.
  unfold _handle_save, save_rejected.
  rewrite (apply_endpoint_same ollama_Client _ _ Hendpoint).
  destruct (apply_model_total (model_combo_value (model_settings_panel a))
              (llm_provider a)) as (b & st' & Hrun & Htemp).
  rewrite Hrun.
  assert (Hclamp : clamp (temperature_slider_value (model_settings_panel a))
                   == temperature_slider_value (model_settings_panel a)).
  { unfold clamp.
    apply Qle_bool_iff in H0. rewrite H0.
    apply Qle_bool_iff in H2. rewrite H2. reflexivity. }
  split; [| split; [| split]].
  - destruct (negb b && has_page (model_settings_panel a)); reflexivity.
  - destruct (negb b && has_page (model_settings_panel a)); simpl.
    + exact Htemp.
    + destruct (has_on_save (model_settings_panel a)); reflexivity.
  - destruct (negb b && has_page (model_settings_panel a)); [discriminate |].
    intros _. rewrite Hclamp.
    simpl. destruct (has_on_save (model_settings_panel a)); reflexivity.
  - intros Hnone. rewrite Hnone in Hrun. simpl in Hrun.
    inversion Hrun. reflexivity.
Qed.

Lemma handle_save_temperature_witness :
  let a := slider_at (3 # 2) (initial (fun _ => offline)) in
  fst (_handle_save (fun _ => offline) a) = Ret tt
  /\ temperature (self (llm_provider (snd (_handle_save (fun _ => offline) a))))
     == clamp (3 # 2).
Proof.
  pose proof (handle_save_temperature (fun _ => offline)
                (slider_at (3 # 2) (initial (fun _ => offline)))) as H.
  cbv zeta in H.
  destruct H as (Hret & _ & Hstored & Hnone).
  - vm_compute; discriminate.
  - vm_compute; discriminate.
  - reflexivity.
  - split; [exact Hret |].
    apply Hstored, Hnone. reflexivity.
Defined.

(** With the catalog of the listing endpoint, choosing the listed model and
    saving is refused, and the temperature of the slider is not stored. *)
Example save_with_listed_model_refused :
  let backend := fun _ : str => serving llama_catalog PNone in
  let a := with_panel
             {| model_combo_value := Some (lit "llama3:latest");
                endpoint_input_value := DEFAULT_HOST;
                temperature_slider_value := 1;
                visible := true; has_page := true; has_on_save := true |}
             (initial backend) in
  let a' := snd (_handle_save backend a) in
  temperature (self (llm_provider a')) = 7 # 10
  /\ snack_bars a' = [lit "Failed to set model to llama3:latest"]
  /\ visible (model_settings_panel a') = true.
Proof. repeat split. Qed.

(* ================================================================== *)
(** * [split] and [partition] *)
(* ================================================================== *)

Section Pieces.

Variable sep : str.
Hypothesis sep_not_empty : sep <> [].

Lemma startswith_empty : startswith sep [] = false.
Proof. destruct sep; [contradiction | reflexivity]. Qed.

Lemma length_sep : List.length sep = S (List.length sep - 1).
Proof. destruct sep; [contradiction | simpl; lia]. Qed.

Lemma startswith_app (p s t : str) :
  startswith p s = true -> startswith p (s ++ t) = true.
Proof.
  revert s. induction p as [| x p IH]; intros [| y s]; simpl; try easy.
  rewrite !andb_true_iff. intros [Hx Hp]. auto.
Qed.

Lemma startswith_app_long (p s t : str) :
  (List.length p <= List.length s)%nat ->
  startswith p (s ++ t) = startswith p s.
Proof.
  revert s. induction p as [| x p IH]; intros [| y s]; simpl; try easy; try lia.
  intros H. rewrite IH by lia. reflexivity.
Qed.

Lemma startswith_split (p s : str) :
  startswith p s = true -> s = p ++ skipn (List.length p) s.
Proof.
  revert s. induction p as [| x p IH]; intros [| y s]; simpl; try easy.
  rewrite andb_true_iff, N.eqb_eq. intros [-> Hp]. f_equal. auto.
Qed.

Lemma split_go_skip (k : nat) :
  forall (s cur : str), split_go sep k cur s = split_go sep 0 cur (skipn k s).
Proof.
  induction k as [| k IH]; intros s cur.
  - reflexivity.
  - destruct s as [| c s]; [reflexivity |]. simpl skipn. rewrite <- IH. reflexivity.
Qed.

(** [split] cuts at the leftmost occurrence and goes on after it. *)
Lemma split_go_partition (s : str) :
  forall cur,
    split_go sep 0 cur s
    = match partition sep s with
      | None => [rev cur ++ s]
      | Some (a, b) => (rev cur ++ a) :: split sep b
      end.
Proof.
  induction s as [| c s IH]; intros cur.
  - simpl. rewrite startswith_empty. now rewrite app_nil_r.
  - cbn [split_go partition].
    destruct (startswith sep (c :: s)) eqn:Hstart.
    + rewrite app_nil_r. f_equal.
      rewrite split_go_skip. unfold split.
      rewrite length_sep at 2. reflexivity.
    + rewrite IH. simpl rev.
      destruct (partition sep s) as [[a b] |]; now rewrite <- app_assoc.
Qed.

Lemma split_partition (s : str) :
  split sep s
  = match partition sep s with
    | None => [s]
    | Some (a, b) => a :: split sep b
    end.
Proof. unfold split at 1. now rewrite split_go_partition. Qed.

Lemma contains_partition (s : str) :
  contains sep s = match partition sep s with Some _ => true | None => false end.
Proof.
  induction s as [| c s IH].
  - simpl. now rewrite startswith_empty.
  - cbn [contains partition].
    destruct (startswith sep (c :: s)); [reflexivity |].
    rewrite IH. simpl. now destruct (partition sep s) as [[a b] |].
Qed.

Lemma partition_app_eq (s a b : str) :
  partition sep s = Some (a, b) -> s = a ++ sep ++ b.
Proof.
  revert a b. induction s as [| c s IH]; intros a b.
  - simpl. now rewrite startswith_empty.
  - cbn [partition]. destruct (startswith sep (c :: s)) eqn:Hstart.
    + intros H. inversion H; subst. now apply startswith_split.
    + destruct (partition sep s) as [[a' b'] |]; [| discriminate].
      intros H. inversion H; subst. simpl. f_equal. now apply IH.
Qed.

(** The piece before the leftmost occurrence has no occurrence. *)
Lemma partition_before (s a b : str) :
  partition sep s = Some (a, b) -> partition sep a = None.
Proof.
  revert a b. induction s as [| c s IH]; intros a b.
  - simpl. now rewrite startswith_empty.
  - cbn [partition]. destruct (startswith sep (c :: s)) eqn:Hstart.
    + intros H. inversion H; subst. simpl. now rewrite startswith_empty.
    + destruct (partition sep s) as [[a' b'] |] eqn:Hpart; [| discriminate].
      intros H. inversion H; subst.
      cbn [partition].
      destruct (startswith sep (c :: a')) eqn:Hstart'.
      * apply partition_app_eq in Hpart. subst s.
        apply startswith_app with (t := sep ++ b) in Hstart'.
        simpl in Hstart', Hstart. congruence.
      * now rewrite (IH a' b).
Qed.

Lemma partition_app (s t a b : str) :
  partition sep s = Some (a, b) -> partition sep (s ++ t) = Some (a, b ++ t).
Proof.
  revert a b. induction s as [| c s IH]; intros a b.
  - simpl. now rewrite startswith_empty.
  - intros Hpart. pose proof (partition_app_eq _ _ _ Hpart) as Heq.
    assert (Hlen : (List.length sep <= List.length (c :: s))%nat).
    { rewrite Heq, !length_app. lia. }
    revert Hpart. change ((c :: s) ++ t) with (c :: (s ++ t)).
    cbn [partition].
    change (c :: (s ++ t)) with ((c :: s) ++ t).
    rewrite startswith_app_long by exact Hlen.
    destruct (startswith sep (c :: s)) eqn:Hstart.
    + intros H. inversion H; subst. f_equal. f_equal.
      rewrite skipn_app.
      replace (List.length sep - List.length (c :: s))%nat with 0%nat by lia.
      reflexivity.
    + destruct (partition sep s) as [[a' b'] |] eqn:Hs; [| discriminate].
      intros H. inversion H; subst.
      simpl app. now rewrite (IH a' b).
Qed.

Lemma before_idempotent (s : str) : before sep (before sep s) = before sep s.
Proof.
  unfold before at 2 3.
  destruct (partition sep s) as [[a b] |] eqn:Hpart.
  - unfold before. now rewrite (partition_before _ _ _ Hpart).
  - unfold before. now rewrite Hpart.
Qed.

Lemma before_app (s t : str) :
  contains sep s = true -> before sep (s ++ t) = before sep s.
Proof.
  rewrite contains_partition. unfold before.
  destruct (partition sep s) as [[a b] |] eqn:Hpart; [| discriminate].
  intros _. now rewrite (partition_app _ t _ _ Hpart).
Qed.

(** The first two pieces of a split. *)
Lemma split_first (s : str) : py_nth (split sep s) 0 = Ret (before sep s).
Proof.
  rewrite split_partition. unfold before, py_nth.
  now destruct (partition sep s) as [[a b] |].
Qed.

Lemma split_second (s : str) :
  contains sep s = true ->
  py_nth (split sep s) 1 = Ret (before sep (after sep s)).
Proof.
  rewrite contains_partition, split_partition. unfold after.
  destruct (partition sep s) as [[a b] |]; [| discriminate].
  intros _. exact (split_first b).
Qed.

End Pieces.

(* ================================================================== *)
(** * The fuel of the decoder *)
(* ================================================================== *)

Section Fuel.
Import Json.

Lemma skip_ws_length (s : str) : (List.length (skip_ws s) <= List.length s)%nat.
Proof.
  induction s as [| c s IH]; simpl; [lia |].
  destruct (is_ws c); simpl; lia.
Qed.

Lemma span_digits_length (s d r : str) :
  span_digits s = (d, r) -> (List.length r <= List.length s)%nat.
Proof.
  revert d r. induction s as [| c s IH]; intros d r; simpl.
  - intros H. inversion H. simpl. lia.
  - destruct (is_digit c).
    + destruct (span_digits s) as [d' r'] eqn:Hs. intros H. inversion H; subst.
      specialize (IH d' r eq_refl). lia.
    + intros H. inversion H. simpl. lia.
Qed.

Lemma decode_uXXXX_length (s r : str) (u : N) :
  decode_uXXXX s = Some (u, r) -> List.length s = (4 + List.length r)%nat.
Proof.
  unfold decode_uXXXX.
  destruct s as [| a [| b [| c [| d rest]]]]; try discriminate.
  destruct (hex_digit a), (hex_digit b), (hex_digit c), (hex_digit d);
    try discriminate.
  intros H. inversion H. reflexivity.
Qed.

Lemma literal_length (word : string) (v v' : pyval) (s r : str) :
  lit word <> [] -> literal word v s = Some (v', r) ->
  (List.length r < List.length s)%nat.
Proof.
  unfold literal. intros Hword.
  destruct (startswith (lit word) s) eqn:Hstart; [| discriminate].
  intros H. inversion H; subst.
  apply startswith_split in Hstart.
  rewrite Hstart at 2. rewrite length_app.
  destruct (lit word); [contradiction | simpl; lia].
Qed.

Lemma scan_integer_length (s ds r : str) :
  scan_integer s = Some (ds, r) -> (List.length r < List.length s)%nat.
Proof.
  unfold scan_integer. destruct s as [| c s]; [discriminate |].
  destruct ((49 <=? c)%N && (c <=? 57)%N).
  - destruct (span_digits s) as [d t] eqn:Hspan.
    apply span_digits_length in Hspan.
    intros H. inversion H; subst. simpl. lia.
  - destruct (c =? 48)%N; [| discriminate].
    intros H. inversion H; subst. simpl. lia.
Qed.

Lemma scan_fraction_length (s frac r : str) :
  scan_fraction s = (frac, r) -> (List.length r <= List.length s)%nat.
Proof.
  unfold scan_fraction.
  destruct s as [| dot [| c s]]; try (intros H; inversion H; subst; simpl; lia).
  destruct ((dot =? 46)%N && is_digit c).
  - destruct (span_digits s) as [d t] eqn:Hspan.
    apply span_digits_length in Hspan.
    intros H. inversion H; subst. simpl. lia.
  - intros H. inversion H; subst. simpl. lia.
Qed.

Lemma scan_exponent_length (s ex r : str) :
  scan_exponent s = (ex, r) -> (List.length r <= List.length s)%nat.
Proof.
  unfold scan_exponent.
  destruct s as [| e s]; [intros H; inversion H; subst; simpl; lia |].
  destruct ((e =? 101)%N || (e =? 69)%N);
    [| intros H; inversion H; subst; simpl; lia].
  destruct s as [| sg t].
  - simpl. intros H. inversion H; subst. simpl. lia.
  - destruct ((sg =? 45)%N || (sg =? 43)%N).
    + destruct (span_digits t) as [d r'] eqn:Hspan.
      apply span_digits_length in Hspan.
      destruct d; intros H; inversion H; subst; simpl; lia.
    + destruct (span_digits (sg :: t)) as [d r'] eqn:Hspan.
      apply span_digits_length in Hspan. simpl in Hspan.
      destruct d; intros H; inversion H; subst; simpl; lia.
Qed.

Lemma scan_sign_length (s s1 : str) (neg : bool) :
  scan_sign s = (neg, s1) -> (List.length s1 <= List.length s)%nat.
Proof.
  unfold scan_sign. destruct s as [| c s].
  - intros H. inversion H. simpl. lia.
  - destruct (c =? 45)%N; intros H; inversion H; subst; simpl; lia.
Qed.

Lemma match_number_length (s r : str) (v : pyval) :
  match_number s = Scanned v r -> (List.length r < List.length s)%nat.
Proof.
  unfold match_number.
  destruct (scan_sign s) as [neg s1] eqn:Hsign.
  apply scan_sign_length in Hsign.
  destruct (scan_integer s1) as [[ds r0] |] eqn:Hint; [| discriminate].
  apply scan_integer_length in Hint.
  destruct (scan_fraction r0) as [frac r1] eqn:Hfrac.
  apply scan_fraction_length in Hfrac.
  destruct (scan_exponent r1) as [ex r2] eqn:Hex.
  apply scan_exponent_length in Hex.
  destruct frac, ex;
    try destruct (int_max_str_digits <? List.length ds)%nat;
    intros H; inversion H; subst; lia.
Qed.

Lemma match_number_fuel (s : str) : match_number s <> OutOfFuel.
Proof.
  unfold match_number.
  destruct (scan_sign s) as [neg s1].
  destruct (scan_integer s1) as [[ds r0] |]; [| discriminate].
  destruct (scan_fraction r0) as [frac r1].
  destruct (scan_exponent r1) as [ex r2].
  destruct frac, ex;
    try destruct (int_max_str_digits <? List.length ds)%nat; discriminate.
Qed.

Lemma span_digits_digits (s d r : str) :
  span_digits s = (d, r) -> (List.length d <= List.length s)%nat.
Proof.
  revert d r. induction s as [| c s IH]; intros d r; simpl.
  - intros H. inversion H. simpl. lia.
  - destruct (is_digit c).
    + destruct (span_digits s) as [d' r'] eqn:Hs. specialize (IH d' r' eq_refl).
      intros H. inversion H; subst. simpl. lia.
    + intros H. inversion H. simpl. lia.
Qed.

Lemma scan_integer_digits (s ds r : str) :
  scan_integer s = Some (ds, r) -> (List.length ds <= List.length s)%nat.
Proof.
  unfold scan_integer. destruct s as [| c s]; [discriminate |].
  destruct ((49 <=? c)%N && (c <=? 57)%N).
  - destruct (span_digits s) as [d t] eqn:Hspan.
    apply span_digits_digits in Hspan.
    intros H. inversion H; subst. simpl. lia.
  - destruct (c =? 48)%N; [| discriminate].
    intros H. inversion H; subst. simpl. lia.
Qed.

(** The one exception of a number is the [ValueError] of an integer of more
    than 4300 digits. *)
Lemma match_number_raised (s : str) (e : exn) :
  match_number s = Raised e ->
  exn_cls e = ValueError /\ (int_max_str_digits < List.length s)%nat.
Proof.
  unfold match_number.
  destruct (scan_sign s) as [neg s1] eqn:Hsign.
  apply scan_sign_length in Hsign.
  destruct (scan_integer s1) as [[ds r0] |] eqn:Hint; [| discriminate].
  apply scan_integer_digits in Hint.
  destruct (scan_fraction r0) as [frac r1].
  destruct (scan_exponent r1) as [ex r2].
  destruct frac, ex; try discriminate.
  destruct (int_max_str_digits <? List.length ds)%nat eqn:Hlong; [| discriminate].
  apply Nat.ltb_lt in Hlong.
  intros H. inversion H; subst. split; [reflexivity | lia].
Qed.

(** A string scan always has fuel left when it starts with more fuel than
    characters, and what it leaves is shorter than what it was given. *)
Lemma scanstring_fuel (fuel : nat) :
  forall (begin acc s : str),
    (List.length s < fuel)%nat -> scanstring fuel begin acc s <> OutOfFuel.
Proof.
  induction fuel as [| fuel IH]; intros begin acc s Hlen; [lia |].
  destruct s as [| c s]; [discriminate |]. simpl in Hlen. cbn [scanstring].
  destruct (c =? 34)%N; [discriminate |].
  destruct (c =? 92)%N.
  - destruct s as [| esc s]; [discriminate |]. simpl in Hlen.
    destruct (esc =? 117)%N.
    + destruct (List.length s <=? 4)%nat; [discriminate |].
      destruct (decode_uXXXX s) as [[u r] |] eqn:Hu; [| discriminate].
      apply decode_uXXXX_length in Hu.
      destruct ((55296 <=? u)%N && (u <=? 56319)%N); [| apply IH; lia].
      destruct r as [| b [| u' r']]; try (apply IH; simpl in *; lia).
      simpl in Hu.
      destruct ((b =? 92)%N && (u' =? 117)%N && (5 <=? List.length r')%nat);
        [| apply IH; simpl; lia].
      destruct (decode_uXXXX r') as [[u2 r2] |] eqn:Hu2; [| discriminate].
      apply decode_uXXXX_length in Hu2.
      destruct ((56320 <=? u2)%N && (u2 <=? 57343)%N); apply IH; simpl; lia.
    + destruct (unescape esc); [apply IH; lia | discriminate].
  - destruct (c <=? 31)%N; [discriminate | apply IH; lia].
Qed.

Lemma scanstring_length (fuel : nat) :
  forall (begin acc s x r : str),
    scanstring fuel begin acc s = Scanned x r ->
    (List.length r < List.length s)%nat.
Proof.
  induction fuel as [| fuel IH]; intros begin acc s x r; [discriminate |].
  destruct s as [| c s]; [discriminate |]. cbn [scanstring].
  destruct (c =? 34)%N; [intros H; inversion H; subst; simpl; lia |].
  destruct (c =? 92)%N.
  - destruct s as [| esc s]; [discriminate |].
    destruct (esc =? 117)%N.
    + destruct (List.length s <=? 4)%nat; [discriminate |].
      destruct (decode_uXXXX s) as [[u t] |] eqn:Hu; [| discriminate].
      apply decode_uXXXX_length in Hu.
      destruct ((55296 <=? u)%N && (u <=? 56319)%N);
        [| intros H; apply IH in H; simpl; lia].
      destruct t as [| b [| u' t']];
        try (intros H; apply IH in H; simpl in *; lia).
      simpl in Hu.
      destruct ((b =? 92)%N && (u' =? 117)%N && (5 <=? List.length t')%nat);
        [| intros H; apply IH in H; simpl in *; lia].
      destruct (decode_uXXXX t') as [[u2 t2] |] eqn:Hu2; [| discriminate].
      apply decode_uXXXX_length in Hu2.
      destruct ((56320 <=? u2)%N && (u2 <=? 57343)%N);
        intros H; apply IH in H; simpl in *; lia.
    + destruct (unescape esc); [| discriminate].
      intros H; apply IH in H; simpl; lia.
  - destruct (c <=? 31)%N; [discriminate |].
    intros H; apply IH in H; simpl; lia.
Qed.

(** Whatever a scan returns, it has consumed something. *)
Lemma scan_length (fuel : nat) :
  (forall depth s v r, scan_once fuel depth s = Scanned v r ->
                       (List.length r < List.length s)%nat)
  /\ (forall depth acc s v r, parse_items fuel depth acc s = Scanned v r ->
                              (List.length r < List.length s)%nat)
  /\ (forall depth acc s v r, parse_members fuel depth acc s = Scanned v r ->
                              (List.length r < List.length s)%nat).
Proof.
  induction fuel as [| fuel (IH1 & IH2 & IH3)];
    [repeat split; intros; discriminate |].
  split; [| split].
  - intros depth s v r. destruct s as [| c s]; [discriminate |]. cbn [scan_once].
    destruct (c =? 34)%N.
    { destruct (scanstring _ _ _ s) as [x t | | | |] eqn:Hstr; try discriminate.
      apply scanstring_length in Hstr.
      intros H. inversion H; subst. simpl. lia. }
    destruct (c =? 123)%N.
    { destruct depth as [| depth']; [discriminate |].
      pose proof (skip_ws_length s) as Hws.
      destruct (skip_ws s) as [| close t] eqn:Hskip.
      - intros H. apply IH3 in H. simpl in *. lia.
      - destruct (close =? 125)%N.
        + intros H. inversion H; subst. simpl in *. lia.
        + intros H. apply IH3 in H. simpl in *. lia. }
    destruct (c =? 91)%N.
    { destruct depth as [| depth']; [discriminate |].
      pose proof (skip_ws_length s) as Hws.
      destruct (skip_ws s) as [| close t] eqn:Hskip.
      - intros H. apply IH2 in H. simpl in *. lia.
      - destruct (close =? 93)%N.
        + intros H. inversion H; subst. simpl in *. lia.
        + intros H. apply IH2 in H. simpl in *. lia. }
    match goal with
    | |- match ?named with _ => _ end = _ -> _ =>
        destruct named as [[v' t] |] eqn:Hnamed
    end.
    { intros H. inversion H; subst.
      repeat match type of Hnamed with
             | (if ?b then _ else _) = _ => destruct b
             end;
        try discriminate;
        (eapply literal_length; [| exact Hnamed]; discriminate). }
    apply match_number_length.
  - intros depth acc s v r. cbn [parse_items].
    destruct (scan_once fuel depth s) as [v' t | | | |] eqn:Hscan; try discriminate.
    apply IH1 in Hscan.
    pose proof (skip_ws_length t) as Hws.
    destruct (skip_ws t) as [| c t'] eqn:Hskip; [discriminate |].
    destruct (c =? 93)%N.
    + intros H. inversion H; subst. simpl in *. lia.
    + destruct (c =? 44)%N; [| discriminate].
      pose proof (skip_ws_length t') as Hws'.
      intros H. apply IH2 in H. simpl in *. lia.
  - intros depth acc s v r. cbn [parse_members].
    destruct s as [| q s]; [discriminate |].
    destruct (q =? 34)%N; [| discriminate].
    destruct (scanstring _ _ _ s) as [key t | | | |] eqn:Hstr; try discriminate.
    apply scanstring_length in Hstr.
    pose proof (skip_ws_length t) as Hws.
    destruct (skip_ws t) as [| colon t1] eqn:Hskip; [discriminate |].
    destruct (colon =? 58)%N; [| discriminate].
    pose proof (skip_ws_length t1) as Hws1.
    destruct (scan_once fuel depth (skip_ws t1)) as [v' t2 | | | |] eqn:Hscan;
      try discriminate.
    apply IH1 in Hscan.
    pose proof (skip_ws_length t2) as Hws2.
    destruct (skip_ws t2) as [| c t3] eqn:Hskip2; [discriminate |].
    destruct (c =? 125)%N.
    + intros H. inversion H; subst. simpl in *. lia.
    + destruct (c =? 44)%N; [| discriminate].
      pose proof (skip_ws_length t3) as Hws3.
      intros H. apply IH3 in H. simpl in *. lia.
Qed.

(** Two units of fuel for each character, and one more, are enough. *)
Lemma scan_fuel (fuel : nat) :
  (forall depth s, (2 * List.length s + 1 <= fuel)%nat ->
                   scan_once fuel depth s <> OutOfFuel)
  /\ (forall depth acc s, (2 * List.length s + 2 <= fuel)%nat ->
                          parse_items fuel depth acc s <> OutOfFuel)
  /\ (forall depth acc s, (2 * List.length s + 2 <= fuel)%nat ->
                          parse_members fuel depth acc s <> OutOfFuel).
Proof.
  induction fuel as [| fuel (IH1 & IH2 & IH3)];
    [repeat split; intros; lia |].
  split; [| split].
  - intros depth s Hlen. destruct s as [| c s]; [discriminate |].
    simpl in Hlen. cbn [scan_once].
    destruct (c =? 34)%N.
    { pose proof (scanstring_fuel (S (List.length s)) (c :: s) [] s) as Hstr.
      destruct (scanstring _ _ _ s); try discriminate.
      exfalso. apply Hstr; [lia | reflexivity]. }
    destruct (c =? 123)%N.
    { destruct depth as [| depth']; [discriminate |].
      pose proof (skip_ws_length s) as Hws.
      destruct (skip_ws s) as [| close t] eqn:Hskip.
      - apply IH3. simpl. lia.
      - destruct (close =? 125)%N; [discriminate |].
        apply IH3. simpl in *. lia. }
    destruct (c =? 91)%N.
    { destruct depth as [| depth']; [discriminate |].
      pose proof (skip_ws_length s) as Hws.
      destruct (skip_ws s) as [| close t] eqn:Hskip.
      - apply IH2. simpl. lia.
      - destruct (close =? 93)%N; [discriminate |].
        apply IH2. simpl in *. lia. }
    match goal with
    | |- match ?named with _ => _ end <> _ => destruct named as [[v' t] |]
    end; [discriminate |].
    apply match_number_fuel.
  - intros depth acc s Hlen. cbn [parse_items].
    pose proof (IH1 depth s) as Hfuel.
    pose proof (proj1 (scan_length fuel) depth s) as Hshort.
    destruct (scan_once fuel depth s) as [v' t | | | |]; try discriminate;
      [| apply Hfuel; lia].
    specialize (Hshort v' t eq_refl).
    pose proof (skip_ws_length t) as Hws.
    destruct (skip_ws t) as [| c t'] eqn:Hskip; [discriminate |].
    destruct (c =? 93)%N; [discriminate |].
    destruct (c =? 44)%N; [| discriminate].
    pose proof (skip_ws_length t') as Hws'.
    apply IH2. simpl in *. lia.
  - intros depth acc s Hlen. cbn [parse_members].
    destruct s as [| q s]; [discriminate |].
    destruct (q =? 34)%N; [| discriminate].
    pose proof (scanstring_fuel (S (List.length s)) (q :: s) [] s) as Hstr.
    pose proof (scanstring_length (S (List.length s)) (q :: s) [] s) as Hstrlen.
    destruct (scanstring _ _ _ s) as [key t | | | |]; try discriminate;
      [| exfalso; apply Hstr; [lia | reflexivity]].
    specialize (Hstrlen key t eq_refl).
    pose proof (skip_ws_length t) as Hws.
    destruct (skip_ws t) as [| colon t1] eqn:Hskip; [discriminate |].
    destruct (colon =? 58)%N; [| discriminate].
    pose proof (skip_ws_length t1) as Hws1.
    pose proof (IH1 depth (skip_ws t1)) as Hfuel.
    pose proof (proj1 (scan_length fuel) depth (skip_ws t1)) as Hshort.
    destruct (scan_once fuel depth (skip_ws t1)) as [v' t2 | | | |]; try discriminate;
      [| apply Hfuel; simpl in *; lia].
    specialize (Hshort v' t2 eq_refl).
    pose proof (skip_ws_length t2) as Hws2.
    destruct (skip_ws t2) as [| c t3] eqn:Hskip2; [discriminate |].
    destruct (c =? 125)%N; [discriminate |].
    destruct (c =? 44)%N; [| discriminate].
    pose proof (skip_ws_length t3) as Hws3.
    apply IH3. simpl in *. lia.
Qed.

Lemma scanstring_raised (fuel : nat) :
  forall (begin acc s : str) (e : exn), scanstring fuel begin acc s <> Raised e.
Proof.
  induction fuel as [| fuel IH]; intros begin acc s e; [discriminate |].
  destruct s as [| c s]; [discriminate |]. cbn [scanstring].
  destruct (c =? 34)%N; [discriminate |].
  destruct (c =? 92)%N.
  - destruct s as [| esc s]; [discriminate |].
    destruct (esc =? 117)%N.
    + destruct (List.length s <=? 4)%nat; [discriminate |].
      destruct (decode_uXXXX s) as [[u r] |]; [| discriminate].
      destruct ((55296 <=? u)%N && (u <=? 56319)%N); [| apply IH].
      destruct r as [| b [| u' r']]; try apply IH.
      destruct ((b =? 92)%N && (u' =? 117)%N && (5 <=? List.length r')%nat);
        [| apply IH].
      destruct (decode_uXXXX r') as [[u2 r2] |]; [| discriminate].
      destruct ((56320 <=? u2)%N && (u2 <=? 57343)%N); apply IH.
    + destruct (unescape esc); [apply IH | discriminate].
  - destruct (c <=? 31)%N; [discriminate | apply IH].
Qed.

(** What the scanner raises besides its own errors: a [RecursionError] when
    the nesting is deeper than allowed, the [ValueError] of an integer that
    is too long. *)
Lemma scan_raised (fuel : nat) :
  (forall depth s e, scan_once fuel depth s = Raised e ->
                     exn_cls e = RecursionError \/ exn_cls e = ValueError)
  /\ (forall depth acc s e, parse_items fuel depth acc s = Raised e ->
                            exn_cls e = RecursionError \/ exn_cls e = ValueError)
  /\ (forall depth acc s e, parse_members fuel depth acc s = Raised e ->
                            exn_cls e = RecursionError \/ exn_cls e = ValueError).
Proof.
  induction fuel as [| fuel (IH1 & IH2 & IH3)];
    [repeat split; intros; discriminate |].
  split; [| split].
  - intros depth s e. destruct s as [| c s]; [discriminate |]. cbn [scan_once].
    destruct (c =? 34)%N.
    { pose proof (scanstring_raised (S (List.length s)) (c :: s) [] s) as Hstr.
      destruct (scanstring _ _ _ s) as [x t | | | | e']; try discriminate.
      exfalso. now apply (Hstr e'). }
    destruct (c =? 123)%N.
    { destruct depth as [| depth'];
        [intros H; inversion H; subst; left; reflexivity |].
      destruct (skip_ws s) as [| close t]; [apply IH3 |].
      destruct (close =? 125)%N; [discriminate | apply IH3]. }
    destruct (c =? 91)%N.
    { destruct depth as [| depth'];
        [intros H; inversion H; subst; left; reflexivity |].
      destruct (skip_ws s) as [| close t]; [apply IH2 |].
      destruct (close =? 93)%N; [discriminate | apply IH2]. }
    match goal with
    | |- match ?named with _ => _ end = _ -> _ => destruct named as [[v' t] |]
    end; [discriminate |].
    intros H. apply match_number_raised in H. right. apply H.
  - intros depth acc s e. cbn [parse_items].
    pose proof (IH1 depth s) as Hscan.
    destruct (scan_once fuel depth s) as [v' t | | | | e']; try discriminate.
    + destruct (skip_ws t) as [| c t']; [discriminate |].
      destruct (c =? 93)%N; [discriminate |].
      destruct (c =? 44)%N; [apply IH2 | discriminate].
    + intros H. inversion H; subst. now apply Hscan.
  - intros depth acc s e. cbn [parse_members].
    destruct s as [| q s]; [discriminate |].
    destruct (q =? 34)%N; [| discriminate].
    pose proof (scanstring_raised (S (List.length s)) (q :: s) [] s) as Hstr.
    destruct (scanstring _ _ _ s) as [key t | | | | e']; try discriminate;
      [| exfalso; now apply (Hstr e')].
    destruct (skip_ws t) as [| colon t1]; [discriminate |].
    destruct (colon =? 58)%N; [| discriminate].
    pose proof (IH1 depth (skip_ws t1)) as Hscan.
    destruct (scan_once fuel depth (skip_ws t1)) as [v' t2 | | | | e''];
      try discriminate.
    + destruct (skip_ws t2) as [| c t3]; [discriminate |].
      destruct (c =? 125)%N; [discriminate |].
      destruct (c =? 44)%N; [apply IH3 | discriminate].
    + intros H. inversion H; subst. now apply Hscan.
Qed.

(** A text no longer than the depth allowed, and of no more than 4300
    characters, is scanned without either exception: each level of nesting
    takes a character, each digit too. *)
Lemma scan_short (fuel : nat) :
  (forall depth s e, (List.length s <= depth)%nat ->
                     (List.length s <= int_max_str_digits)%nat ->
                     scan_once fuel depth s <> Raised e)
  /\ (forall depth acc s e, (List.length s <= depth)%nat ->
                            (List.length s <= int_max_str_digits)%nat ->
                            parse_items fuel depth acc s <> Raised e)
  /\ (forall depth acc s e, (List.length s <= depth)%nat ->
                            (List.length s <= int_max_str_digits)%nat ->
                            parse_members fuel depth acc s <> Raised e).
Proof.
  induction fuel as [| fuel (IH1 & IH2 & IH3)];
    [repeat split; intros; discriminate |].
  split; [| split].
  - intros depth s e Hdepth Hdigits.
    destruct s as [| c s]; [discriminate |]. cbn [scan_once].
    simpl in Hdepth, Hdigits.
    destruct (c =? 34)%N.
    { pose proof (scanstring_raised (S (List.length s)) (c :: s) [] s) as Hstr.
      destruct (scanstring _ _ _ s) as [x t | | | | e']; try discriminate.
      exfalso. now apply (Hstr e'). }
    destruct (c =? 123)%N.
    { destruct depth as [| depth']; [lia |].
      pose proof (skip_ws_length s) as Hws.
      destruct (skip_ws s) as [| close t] eqn:Hskip.
      - apply IH3; simpl; lia.
      - destruct (close =? 125)%N; [discriminate |].
        apply IH3; simpl in *; lia. }
    destruct (c =? 91)%N.
    { destruct depth as [| depth']; [lia |].
      pose proof (skip_ws_length s) as Hws.
      destruct (skip_ws s) as [| close t] eqn:Hskip.
      - apply IH2; simpl; lia.
      - destruct (close =? 93)%N; [discriminate |].
        apply IH2; simpl in *; lia. }
    match goal with
    | |- match ?named with _ => _ end <> _ => destruct named as [[v' t] |]
    end; [discriminate |].
    intros H. apply match_number_raised in H. simpl in H. lia.
  - intros depth acc s e Hdepth Hdigits. cbn [parse_items].
    pose proof (IH1 depth s) as Hscan.
    pose proof (proj1 (scan_length fuel) depth s) as Hshort.
    destruct (scan_once fuel depth s) as [v' t | | | | e']; try discriminate.
    + specialize (Hshort v' t eq_refl).
      pose proof (skip_ws_length t) as Hws.
      destruct (skip_ws t) as [| c t'] eqn:Hskip; [discriminate |].
      destruct (c =? 93)%N; [discriminate |].
      destruct (c =? 44)%N; [| discriminate].
      pose proof (skip_ws_length t') as Hws'.
      apply IH2; simpl in *; lia.
    + exfalso. now apply (Hscan e').
  - intros depth acc s e Hdepth Hdigits. cbn [parse_members].
    destruct s as [| q s]; [discriminate |].
    destruct (q =? 34)%N; [| discriminate].
    pose proof (scanstring_raised (S (List.length s)) (q :: s) [] s) as Hstr.
    pose proof (scanstring_length (S (List.length s)) (q :: s) [] s) as Hstrlen.
    destruct (scanstring _ _ _ s) as [key t | | | | e']; try discriminate;
      [| exfalso; now apply (Hstr e')].
    specialize (Hstrlen key t eq_refl).
    pose proof (skip_ws_length t) as Hws.
    destruct (skip_ws t) as [| colon t1] eqn:Hskip; [discriminate |].
    destruct (colon =? 58)%N; [| discriminate].
    pose proof (skip_ws_length t1) as Hws1.
    pose proof (IH1 depth (skip_ws t1)) as Hscan.
    pose proof (proj1 (scan_length fuel) depth (skip_ws t1)) as Hshort.
    simpl in Hdepth, Hdigits.
    destruct (scan_once fuel depth (skip_ws t1)) as [v' t2 | | | | e''];
      try discriminate.
    + specialize (Hshort v' t2 eq_refl).
      pose proof (skip_ws_length t2) as Hws2.
      destruct (skip_ws t2) as [| c t3] eqn:Hskip2; [discriminate |].
      destruct (c =? 125)%N; [discriminate |].
      destruct (c =? 44)%N; [| discriminate].
      pose proof (skip_ws_length t3) as Hws3.
      apply IH3; simpl in *; lia.
    + exfalso. apply (Hscan e''); [simpl in *; lia | simpl in *; lia | reflexivity].
Qed.

(** [JSONDecoder.decode] returns a value, or raises a [JSONDecodeError], a
    [RecursionError] or a [ValueError]: the fuel never runs out. *)
Lemma decode_cases (depth : nat) (doc : str) :
  (exists v, decode depth doc = Ret v)
  \/ (exists e, decode depth doc = Raise e /\ is_JSONDecodeError e = true)
  \/ (exists e, decode depth doc = Raise e
                /\ (exn_cls e = RecursionError \/ exn_cls e = ValueError)).
Proof.
  unfold decode.
  assert (Hfuel : scan_once (S (2 * List.length doc)) depth (skip_ws doc) <> OutOfFuel).
  { apply (proj1 (scan_fuel _)). pose proof (skip_ws_length doc). lia. }
  pose proof (proj1 (scan_raised (S (2 * List.length doc))) depth (skip_ws doc))
    as Hraised.
  destruct (scan_once (S (2 * List.length doc)) depth (skip_ws doc))
    as [v r | a | m a | | e].
  - destruct (skip_ws r); [left; eauto | right; left; eauto].
  - right; left; eauto.
  - right; left; eauto.
  - contradiction.
  - right; right. exists e. split; [reflexivity | now apply Hraised].
Qed.

(** A text within the depth allowed and the limit of digits is decoded or
    refused with a [JSONDecodeError]. *)
Lemma decode_short (depth : nat) (doc : str) :
  (List.length doc <= depth)%nat ->
  (List.length doc <= int_max_str_digits)%nat ->
  (exists v, decode depth doc = Ret v)
  \/ (exists e, decode depth doc = Raise e /\ is_JSONDecodeError e = true).
Proof.
  intros Hdepth Hdigits.
  destruct (decode_cases depth doc) as [Hv | [He | (e & He & Hcls)]]; auto.
  exfalso. revert He. unfold decode.
  pose proof (skip_ws_length doc) as Hws.
  pose proof (proj1 (scan_short (S (2 * List.length doc))) depth (skip_ws doc)) as Hshort.
  destruct (scan_once (S (2 * List.length doc)) depth (skip_ws doc))
    as [v r | a | m a | | e'].
  - destruct (skip_ws r); intros H; inversion H; subst;
      destruct Hcls; discriminate.
  - intros H; inversion H; subst. destruct Hcls; discriminate.
  - intros H; inversion H; subst. destruct Hcls; discriminate.
  - intros H; inversion H; subst. destruct Hcls; discriminate.
  - intros _. apply (Hshort e'); [lia | lia | reflexivity].
Qed.

Lemma loads_with_decode (depth : nat) (doc : str) :
  loads_with depth doc = decode depth doc
  \/ loads_with depth doc
     = Raise (decode_error "Unexpected UTF-8 BOM (decode using utf-8-sig)" doc doc).
Proof.
  unfold loads_with. destruct doc as [| c doc']; [left; reflexivity |].
  repeat match goal with
         | |- context [match ?x with _ => _ end] =>
             match type of x with
             | N => destruct x
             | positive => destruct x
             end
         end;
    first [left; reflexivity | right; reflexivity].
Qed.

(** [json.loads] returns a value, or raises a [JSONDecodeError], a
    [RecursionError] or a [ValueError]. *)
Lemma loads_with_cases (depth : nat) (doc : str) :
  (exists v, loads_with depth doc = Ret v)
  \/ (exists e, loads_with depth doc = Raise e /\ is_JSONDecodeError e = true)
  \/ (exists e, loads_with depth doc = Raise e
                /\ (exn_cls e = RecursionError \/ exn_cls e = ValueError)).
Proof.
  destruct (loads_with_decode depth doc) as [-> | ->];
    [apply decode_cases | right; left; eauto].
Qed.

Lemma loads_with_short (depth : nat) (doc : str) :
  (List.length doc <= depth)%nat ->
  (List.length doc <= int_max_str_digits)%nat ->
  (exists v, loads_with depth doc = Ret v)
  \/ (exists e, loads_with depth doc = Raise e /\ is_JSONDecodeError e = true).
Proof.
  intros Hdepth Hdigits.
  destruct (loads_with_decode depth doc) as [-> | ->];
    [now apply decode_short | right; eauto].
Qed.

End Fuel.

(* ================================================================== *)
(** * [generate_json] *)
(* ================================================================== *)

Lemma FENCE_not_empty : FENCE <> [].
Proof. discriminate. Qed.

Lemma FENCE_JSON_not_empty : FENCE_JSON <> [].
Proof. discriminate. Qed.

(** The pieces the code takes, on any text. *)
Lemma extract_json_text_pieces (s : str) :
  extract_json_text (PStr s) = Ret (extract_by_pieces s).
Proof.
  unfold extract_json_text, extract_by_pieces. simpl.
  destruct (contains FENCE_JSON s) eqn:Htagged.
  - rewrite (split_second FENCE_JSON FENCE_JSON_not_empty s Htagged). simpl.
    rewrite (split_first FENCE FENCE_not_empty). reflexivity.
  - destruct (contains FENCE s) eqn:Hfenced; [| reflexivity].
    rewrite (split_second FENCE FENCE_not_empty s Hfenced). simpl.
    rewrite (split_first FENCE FENCE_not_empty). simpl.
    now rewrite (before_idempotent FENCE FENCE_not_empty).
Qed.

(** C10, the statement as it stands fails: on a response whose closing fence
    has four backticks and is followed by the marker, the code keeps one
    backtick that the wording leaves out. *)
Lemma extraction_as_claimed_fails : ~ extraction_as_claimed.
Proof.
  intros H. specialize (H overlapping_answer).
  vm_compute in H. discriminate.
Qed.

(** C10, amended.  The extraction never raises on a text and picks its block
    in a fixed way: with the marker in the text, the stretch from the first
    marker to the next occurrence of the marker (or to the end), cut at its
    first fence; else, with a fence in the text, what lies between the first
    and the second fence; else the whole text; stripped in each case.  This
    is the block from the first marker to the next fence whenever the marker
    does not occur again or a fence closes before it does. *)
Theorem extraction_by_pieces (s : str) :
  extract_json_text (PStr s) = Ret (extract_by_pieces s)
  /\ (contains FENCE_JSON (after FENCE_JSON s) = false
      \/ contains FENCE (before FENCE_JSON (after FENCE_JSON s)) = true ->
      extract_by_pieces s = extract_as_claimed s).
Proof.
  split; [apply extract_json_text_pieces |].
  unfold extract_by_pieces, extract_as_claimed.
  destruct (contains FENCE_JSON s); [| reflexivity].
  set (rest := after FENCE_JSON s).
  intros [Hnone | Hclosed].
  - rewrite (contains_partition FENCE_JSON FENCE_JSON_not_empty) in Hnone.
    unfold before at 2.
    destruct (partition FENCE_JSON rest) as [[a b] |]; [discriminate | reflexivity].
  - f_equal. revert Hclosed. unfold before at 1 3.
    destruct (partition FENCE_JSON rest) as [[a b] |] eqn:Hpart; [| reflexivity].
    intros Hclosed.
    rewrite (partition_app_eq FENCE_JSON FENCE_JSON_not_empty _ _ _ Hpart).
    symmetry. now apply (before_app FENCE FENCE_not_empty).
Qed.

Lemma extraction_by_pieces_witness :
  extract_json_text (PStr fenced_answer) = Ret (extract_by_pieces fenced_answer)
  /\ extract_by_pieces fenced_answer = extract_as_claimed fenced_answer.
Proof.
  destruct (extraction_by_pieces fenced_answer) as [Hrun Hsame].
  split; [exact Hrun |].
  apply Hsame. left. reflexivity.
Defined.

Example extract_fenced :
  extract_json_text (PStr fenced_answer)
  = Ret (lit "{" ++ [DQ] ++ lit "a" ++ [DQ] ++ lit ":1}").
Proof. reflexivity. Qed.

Example extract_overlapping :
  extract_json_text (PStr overlapping_answer) = Ret (lit "1`")
  /\ extract_as_claimed overlapping_answer = lit "1".
Proof. split; reflexivity. Qed.

Example extract_prose_around :
  extract_json_text
    (PStr (lit "Here you are: ```[1, 2]``` and ```json [3]``` done"))
  = Ret (lit "[3]").
Proof. reflexivity. Qed.

(** [generate_text] never raises and changes nothing. *)
Lemma generate_text_total (prompt : str) (t : option Q) (st : State) :
  exists v, generate_text prompt t st = (Ret v, st).
Proof.
  unfold generate_text. run_method.
  destruct (client_generate _ _ _ _) as [response | e]; [| eauto].
  destruct (py_get response "response" no_response); eauto.
Qed.

(** [generate_json] once the raw text is known: the outcome of [json.loads]
    on the extracted block decides. *)
Lemma generate_json_with_run (depth : nat) (prompt raw : str) (st : State) :
  generate_text (formatted prompt) None st = (Ret (PStr raw), st) ->
  generate_json_with depth prompt st
  = match Json.loads_with depth (extract_by_pieces raw) with
    | Ret v => (Ret v, st)
    | Raise e =>
        if is_JSONDecodeError e
        then (Ret (parse_failure e (PStr raw)), st)
        else (Raise e, st)
    end.
Proof.
  intros Htext. unfold generate_json_with. cbv zeta.
  fold (formatted prompt).
  unfold bind, before_binding. rewrite Htext.
  unfold try_except_JSONDecodeError, bind, lift, ret.
  rewrite extract_json_text_pieces.
  destruct (Json.loads_with depth (extract_by_pieces raw)) as [v | e]; [reflexivity |].
  destruct (is_JSONDecodeError e); reflexivity.
Qed.

Lemma generate_json_run (prompt raw : str) (st : State) :
  generate_text (formatted prompt) None st = (Ret (PStr raw), st) ->
  generate_json prompt st
  = match Json.loads (extract_by_pieces raw) with
    | Ret v => (Ret v, st)
    | Raise e =>
        if is_JSONDecodeError e
        then (Ret (parse_failure e (PStr raw)), st)
        else (Raise e, st)
    end.
Proof. apply generate_json_with_run. Qed.

Lemma is_JSONDecodeError_class (e : exn) :
  is_JSONDecodeError e = true <-> exn_cls e = JSONDecodeError.
Proof.
  unfold is_JSONDecodeError. destruct (exn_cls e); split; congruence.
Qed.

(** On [long_integer_answer] the extracted block is the raw output itself,
    [json.loads] raises the [ValueError] of the long integer, and so does
    [generate_json]. *)
Lemma long_integer_answer_raises :
  let st := provider_of
              (serving [] (PDict [(lit "response", PStr long_integer_answer)])) PNone in
  generate_text (formatted (lit "A number")) None st
  = (Ret (PStr long_integer_answer), st)
  /\ Json.loads (extract_by_pieces long_integer_answer)
     = Raise (Json.too_many_digits 4301)
  /\ generate_json (lit "A number") st = (Raise (Json.too_many_digits 4301), st).
Proof.
  cbv zeta.
  set (st := provider_of
               (serving [] (PDict [(lit "response", PStr long_integer_answer)])) PNone).
  assert (Htext : generate_text (formatted (lit "A number")) None st
                  = (Ret (PStr long_integer_answer), st)) by reflexivity.
  assert (Hloads : Json.loads (extract_by_pieces long_integer_answer)
                   = Raise (Json.too_many_digits 4301)) by (vm_compute; reflexivity).
  split; [exact Htext | split; [exact Hloads |]].
  rewrite (generate_json_run (lit "A number") long_integer_answer st Htext).
  rewrite Hloads. reflexivity.
Qed.




(** C8.  When the raw response is exactly the fenced block with the marker
    [json] around the text of the object with [a] equal to 1,
    [generate_json] strips the fence and returns the object parsed. *)
Theorem generate_json_fenced (prompt : str) (st : State) :
  generate_text (formatted prompt) None st = (Ret (PStr fenced_answer), st) ->
  extract_json_text (PStr fenced_answer)
  = Ret (lit "{" ++ [DQ] ++ lit "a" ++ [DQ] ++ lit ":1}")
  /\ generate_json prompt st = (Ret (PDict [(lit "a", PInt 1)]), st).
Proof.
  intros Htext. split; [reflexivity |].
  rewrite (generate_json_run prompt fenced_answer st Htext). reflexivity.
Qed.

Lemma generate_json_fenced_witness :
  let st := provider_of
              (serving [] (PDict [(lit "response", PStr fenced_answer)])) PNone in
  extract_json_text (PStr fenced_answer)
  = Ret (lit "{" ++ [DQ] ++ lit "a" ++ [DQ] ++ lit ":1}")
  /\ generate_json (lit "Give me a") st = (Ret (PDict [(lit "a", PInt 1)]), st).
Proof.
  apply (generate_json_fenced (lit "Give me a")
           (provider_of (serving [] (PDict [(lit "response", PStr fenced_answer)])) PNone)).
  reflexivity.
Defined.

(* ================================================================== *)
(** * More on the provider *)
(* ================================================================== *)

Import Admin SettingsPanel Transcript.

(** X1.  [generate_text] never raises and changes nothing in the provider.
    When the call of the backend raises, the result is the text [Error: ]
    followed by the message of the exception; a payload with a [response]
    gives that response; a payload without one gives the fixed text
    [No response from model]. *)
Theorem generate_text_never_raises (st : State) (prompt : str) (t : option Q) :
  let temp := match t with Some x => x | None => temperature (self st) end in
  let outcome := client_generate (client (self st)) (model_name (self st)) prompt temp in
  (exists v, generate_text prompt t st = (Ret v, st))
  /\ (forall e, outcome = Raise e ->
        generate_text prompt t st = (Ret (PStr (lit "Error: " ++ str_of_exn e)), st))
  /\ (forall d v, outcome = Ret (PDict d) ->
        dict_lookup (lit "response") d = Some v ->
        generate_text prompt t st = (Ret v, st))
  /\ (forall d, outcome = Ret (PDict d) ->
        dict_lookup (lit "response") d = None ->
        generate_text prompt t st = (Ret no_response, st)).
Proof.
  intros temp outcome. subst temp outcome.
  split; [apply generate_text_total |].
  unfold generate_text. run_method.
  split; [| split].
  - intros e H. now rewrite H.
  - intros d v H Hv. rewrite H. simpl. now rewrite Hv.
  - intros d H Hv. rewrite H. simpl. now rewrite Hv.
Qed.

Lemma generate_text_never_raises_witness :
  generate_text (lit "hello") None (provider_of offline PNone)
  = (Ret (PStr (lit "Error: connection refused")), provider_of offline PNone)
  /\ generate_text (lit "hello") None
       (provider_of (serving [] (PDict [(lit "response", PStr (lit "hi"))])) PNone)
     = (Ret (PStr (lit "hi")),
        provider_of (serving [] (PDict [(lit "response", PStr (lit "hi"))])) PNone)
  /\ generate_text (lit "hello") None (provider_of (serving [] (PDict [])) PNone)
     = (Ret no_response, provider_of (serving [] (PDict [])) PNone).
Proof.
  split; [| split].
  - apply (proj1 (proj2 (generate_text_never_raises
                           (provider_of offline PNone) (lit "hello") None)) refused).
    reflexivity.
  - apply (proj1 (proj2 (proj2 (generate_text_never_raises
             (provider_of (serving [] (PDict [(lit "response", PStr (lit "hi"))])) PNone)
             (lit "hello") None)))
             [(lit "response", PStr (lit "hi"))] (PStr (lit "hi"))); reflexivity.
  - apply (proj2 (proj2 (proj2 (generate_text_never_raises
             (provider_of (serving [] (PDict [])) PNone) (lit "hello") None))) []);
      reflexivity.
Defined.



(** X3.  [generate_json] catches the parse error only: when the response of
    the backend is not a string, the [TypeError] or [AttributeError] of the
    extraction escapes to the caller. *)
Theorem generate_json_not_text (prompt : str) (v : pyval) (st : State) :
  generate_text (formatted prompt) None st = (Ret v, st) ->
  (forall s, v <> PStr s) ->
  exists e,
    generate_json prompt st = (Raise e, st)
    /\ (exn_cls e = TypeError \/ exn_cls e = AttributeError).
Proof.
  intros Htext Hv. unfold generate_json, generate_json_with. cbv zeta.
  fold (formatted prompt). unfold bind, before_binding. rewrite Htext.
  unfold try_except_JSONDecodeError, bind, lift, ret.
  destruct v as [| b | z | x | s | l | d];
    try (eexists; split; [reflexivity | left; reflexivity]).
  - now elim (Hv s).
  - unfold extract_json_text. simpl.
    destruct (existsb _ l); simpl;
      [eexists; split; [reflexivity | right; reflexivity] |].
    destruct (existsb _ l); simpl;
      eexists; split; try reflexivity; right; reflexivity.
  - unfold extract_json_text. simpl.
    destruct (existsb _ d); simpl;
      [eexists; split; [reflexivity | right; reflexivity] |].
    destruct (existsb _ d); simpl;
      eexists; split; try reflexivity; right; reflexivity.
Qed.

Lemma generate_json_not_text_witness :
  exists e,
    generate_json (lit "Anything")
      (provider_of (serving [] (PDict [(lit "response", PNone)])) PNone)
    = (Raise e, provider_of (serving [] (PDict [(lit "response", PNone)])) PNone)
    /\ (exn_cls e = TypeError \/ exn_cls e = AttributeError).
Proof.
  apply (generate_json_not_text (lit "Anything") PNone
           (provider_of (serving [] (PDict [(lit "response", PNone)])) PNone)).
  - reflexivity.
  - discriminate.
Defined.

(* ------------------------------------------------------------------ *)
(** ** What [strip] leaves *)

Lemma lstrip_suffix (s : str) : exists u, s = u ++ lstrip s.
Proof.
  induction s as [| c s (u & IH)]; [exists []; reflexivity |].
  simpl. destruct (isspace c).
  - exists (c :: u). simpl. now f_equal.
  - now exists [].
Qed.

Lemma lstrip_head (s : str) (c : N) (t : str) :
  lstrip s = c :: t -> isspace c = false.
Proof.
  induction s as [| x s IH]; simpl; [discriminate |].
  destruct (isspace x) eqn:Hx; [exact IH |].
  intros H. inversion H; subst. exact Hx.
Qed.

Lemma lstrip_fixed (c : N) (t : str) :
  isspace c = false -> lstrip (c :: t) = c :: t.
Proof. intros H. simpl. now rewrite H. Qed.

Lemma lstrip_idempotent (s : str) : lstrip (lstrip s) = lstrip s.
Proof.
  destruct (lstrip s) as [| c t] eqn:H; [reflexivity |].
  apply lstrip_fixed. exact (lstrip_head _ _ _ H).
Qed.

Lemma rstrip_prefix (s : str) : exists u, s = rstrip s ++ u.
Proof.
  unfold rstrip. destruct (lstrip_suffix (rev s)) as (u & Hu).
  exists (rev u). rewrite <- rev_app_distr, <- Hu. now rewrite rev_involutive.
Qed.

Lemma rstrip_idempotent (s : str) : rstrip (rstrip s) = rstrip s.
Proof.
  unfold rstrip. now rewrite rev_involutive, lstrip_idempotent.
Qed.

(** A text that starts with a character that is no whitespace keeps it. *)
Lemma lstrip_snoc (s : str) (c : N) :
  isspace c = false -> exists t, lstrip (s ++ [c]) = t ++ [c].
Proof.
  intros Hc. induction s as [| x s (t & IH)]; simpl.
  - rewrite Hc. now exists [].
  - destruct (isspace x); [now exists t |].
    now exists (x :: s).
Qed.

Lemma strip_keeps_head (c : N) (s : str) :
  isspace c = false -> exists t, strip (c :: s) = c :: t.
Proof.
  intros Hc. unfold strip. rewrite (lstrip_fixed _ _ Hc).
  unfold rstrip. simpl rev.
  destruct (lstrip_snoc (rev s) c Hc) as (t & Ht). rewrite Ht.
  exists (rev t). now rewrite rev_app_distr.
Qed.

Lemma strip_idempotent (s : str) : strip (strip s) = strip s.
Proof.
  unfold strip at 1.
  assert (Hl : lstrip (strip s) = strip s).
  { unfold strip. destruct (rstrip (lstrip s)) as [| c t] eqn:Hr; [reflexivity |].
    apply lstrip_fixed.
    destruct (rstrip_prefix (lstrip s)) as (u & Hu). rewrite Hr in Hu.
    exact (lstrip_head s c (t ++ u) Hu). }
  rewrite Hl. unfold strip. apply rstrip_idempotent.
Qed.

Lemma contains_cons (sep s : str) (c : N) :
  contains sep s = true -> contains sep (c :: s) = true.
Proof. intros H. simpl. rewrite H. apply orb_true_r. Qed.

Lemma contains_app_r (sep u s : str) :
  contains sep s = true -> contains sep (u ++ s) = true.
Proof.
  intros H. induction u as [| c u IH]; [exact H |].
  simpl app. now apply contains_cons.
Qed.

Lemma contains_app_l (sep s u : str) :
  contains sep s = true -> contains sep (s ++ u) = true.
Proof.
  induction s as [| c s IH]; intros H.
  - simpl in H. rewrite orb_false_r in H.
    destruct sep; [destruct u; reflexivity | discriminate].
  - cbn [contains] in H. apply orb_true_iff in H. destruct H as [H | H].
    + change (contains sep (c :: (s ++ u)) = true). cbn [contains].
      change (c :: s ++ u) with ((c :: s) ++ u).
      rewrite (startswith_app sep (c :: s) u H). reflexivity.
    + simpl app. apply contains_cons. now apply IH.
Qed.

(** Stripping does not bring in a separator. *)
Lemma contains_strip (sep s : str) :
  contains sep s = false -> contains sep (strip s) = false.
Proof.
  intros H. destruct (contains sep (strip s)) eqn:Hc; [| reflexivity].
  unfold strip in Hc.
  destruct (rstrip_prefix (lstrip s)) as (u & Hu).
  destruct (lstrip_suffix s) as (v & Hv).
  apply (contains_app_l sep _ u) in Hc. rewrite <- Hu in Hc.
  apply (contains_app_r sep v) in Hc. rewrite <- Hv in Hc. congruence.
Qed.

Lemma before_clean (sep s : str) :
  sep <> [] -> contains sep (before sep s) = false.
Proof.
  intros Hsep. rewrite (contains_partition sep Hsep). unfold before.
  destruct (partition sep s) as [[a b] |] eqn:Hpart.
  - now rewrite (partition_before sep Hsep _ _ _ Hpart).
  - now rewrite Hpart.
Qed.

Lemma startswith_shorter (p q s : str) :
  startswith (p ++ q) s = true -> startswith p s = true.
Proof.
  revert s. induction p as [| x p IH]; intros s; [reflexivity |].
  destruct s as [| y s]; simpl; [discriminate |].
  rewrite !andb_true_iff. intros [Hx Hp]. auto.
Qed.

Lemma contains_shorter (p q s : str) :
  contains (p ++ q) s = true -> contains p s = true.
Proof.
  induction s as [| c s IH]; cbn [contains]; rewrite !orb_true_iff.
  - intros [H | H]; [| discriminate]. left. exact (startswith_shorter p q [] H).
  - intros [H | H]; [left; exact (startswith_shorter p q _ H) | right; auto].
Qed.

(** X4.  Whatever the text, the block the extraction hands to [json.loads]
    contains no fence and has no whitespace at either end. *)
Theorem extracted_block_clean (s block : str) :
  extract_json_text (PStr s) = Ret block ->
  contains FENCE block = false /\ strip block = block.
Proof.
  rewrite extract_json_text_pieces. intros H. inversion H; subst block. clear H.
  unfold extract_by_pieces.
  destruct (contains FENCE_JSON s); [| destruct (contains FENCE s) eqn:Hf].
  - split; [| apply strip_idempotent].
    apply contains_strip, before_clean, FENCE_not_empty.
  - split; [| apply strip_idempotent].
    apply contains_strip, before_clean, FENCE_not_empty.
  - split; [| apply strip_idempotent].
    now apply contains_strip.
Qed.

Lemma extracted_block_clean_witness :
  contains FENCE (lit "{" ++ [DQ] ++ lit "a" ++ [DQ] ++ lit ":1}") = false
  /\ strip (lit "{" ++ [DQ] ++ lit "a" ++ [DQ] ++ lit ":1}")
     = lit "{" ++ [DQ] ++ lit "a" ++ [DQ] ++ lit ":1}".
Proof.
  apply (extracted_block_clean fenced_answer). reflexivity.
Defined.

Lemma generate_text_raised (st : State) (prompt : str) (e : exn) :
  client_generate (client (self st)) (model_name (self st)) prompt
    (temperature (self st)) = Raise e ->
  generate_text prompt None st = (Ret (PStr (lit "Error: " ++ str_of_exn e)), st).
Proof.
  intros H. unfold generate_text. run_method. now rewrite H.
Qed.

(** X5.  When the backend cannot be reached, [generate_json] answers with the
    dict of a parse failure whose [raw_text] is the error text of
    [generate_text]: that text starts with [Error:], which is no JSON.  (An
    exception whose message carries a fence is the exception: the extraction
    would look inside it.) *)
Theorem generate_json_backend_failure (prompt : str) (st : State) (e : exn) :
  client_generate (client (self st)) (model_name (self st)) (formatted prompt)
    (temperature (self st)) = Raise e ->
  contains FENCE (lit "Error: " ++ str_of_exn e) = false ->
  generate_json prompt st
  = (Ret (PDict [(lit "error",
                  PStr (lit "Failed to parse JSON: Expecting value: line 1 column 1 (char 0)"));
                 (lit "raw_text", PStr (lit "Error: " ++ str_of_exn e))]), st).
Proof.
  intros Hcall Hfence.
  pose proof (generate_text_raised st (formatted prompt) e Hcall) as Htext.
  rewrite (generate_json_run prompt _ st Htext).
  assert (Hblock : exists t,
             extract_by_pieces (lit "Error: " ++ str_of_exn e) = 69%N :: t).
  { unfold extract_by_pieces. rewrite Hfence.
    destruct (contains FENCE_JSON (lit "Error: " ++ str_of_exn e)) eqn:Hj.
    - apply (contains_shorter FENCE (lit "json")) in Hj. congruence.
    - apply (strip_keeps_head 69%N). reflexivity. }
  destruct Hblock as (t & ->).
  unfold Json.loads, Json.loads_with, Json.decode.
  cbn -[Nat.mul Nat.sub Json.errmsg].
  unfold Json.decode_error. rewrite Nat.sub_diag. reflexivity.
Qed.

Lemma generate_json_backend_failure_witness :
  generate_json (lit "List three colours") (provider_of offline PNone)
  = (Ret (PDict [(lit "error",
                  PStr (lit "Failed to parse JSON: Expecting value: line 1 column 1 (char 0)"));
                 (lit "raw_text", PStr (lit "Error: connection refused"))]),
     provider_of offline PNone).
Proof.
  apply (generate_json_backend_failure (lit "List three colours")
           (provider_of offline PNone) refused); reflexivity.
Defined.

(* ------------------------------------------------------------------ *)
(** ** [set_model], [__init__] and the administrative calls *)

Lemma set_model_run_cases (name : str) (st : State) :
  set_model name st
  = match get_available_models st with
    | (Ret models, st1) =>
        match py_iter models with
        | Ret items =>
            match py_any (fun model =>
                            let? n := py_get model "name" PNone in
                            Ret (eq_str n name)) items with
            | Ret true =>
                (Ret true, {| self := set_model_name (PStr name) (self st1);
                              console := console st1 |})
            | Ret false =>
                (Ret false,
                 logged st1 (Line (lit "Model " ++ name
                                   ++ lit " not found in available models")))
            | Raise e =>
                (Ret false,
                 logged st1 (Line (lit "Error setting model: " ++ str_of_exn e)))
            end
        | Raise e =>
            (Ret false,
             logged st1 (Line (lit "Error setting model: " ++ str_of_exn e)))
        end
    | (Raise e, st1) =>
        (Ret false, logged st1 (Line (lit "Error setting model: " ++ str_of_exn e)))
    end.
Proof.
  unfold set_model. run_method.
  destruct (get_available_models st) as [[models | e] st1]; [| reflexivity].
  destruct (py_iter models) as [items | e]; [| reflexivity].
  destruct (py_any _ items) as [[|] | e]; reflexivity.
Qed.

(** What [set_model] can and cannot change. *)
Lemma set_model_effect (name : str) (st : State) :
  exists b st',
    set_model name st = (Ret b, st')
    /\ host (self st') = host (self st)
    /\ temperature (self st') = temperature (self st)
    /\ client (self st') = client (self st)
    /\ model_name (self st') = (if b then PStr name else model_name (self st))
    /\ (b = false -> exists lines l, console st' = console st ++ lines ++ [l]).
Proof.
  rewrite set_model_run_cases, get_available_models_run.
  destruct (client_list (client (self st))) as [models | e].
  - destruct (py_get models "models" (PList [])) as [v | e].
    + destruct (py_iter v) as [items | e].
      * destruct (py_any _ items) as [[|] | e].
        -- exists true. eexists. repeat split; try reflexivity. discriminate.
        -- exists false. eexists. repeat split; try reflexivity.
           intros _. exists []. eexists. reflexivity.
        -- exists false. eexists. repeat split; try reflexivity.
           intros _. exists []. eexists. reflexivity.
      * exists false. eexists. repeat split; try reflexivity.
        intros _. exists []. eexists. reflexivity.
    + exists false. eexists. repeat split; try reflexivity.
      intros _. eexists. eexists. simpl. rewrite <- app_assoc. reflexivity.
  - exists false. eexists. repeat split; try reflexivity.
    intros _. eexists. eexists. simpl. rewrite <- app_assoc. reflexivity.
Qed.

(** X6.  [set_model] never raises.  It leaves the host, the temperature and
    the client alone; the model changes exactly when the answer is [True],
    and then to the name asked for; and a refusal is always printed. *)
Theorem set_model_frame (name : str) (st : State) :
  exists b st',
    set_model name st = (Ret b, st')
    /\ host (self st') = host (self st)
    /\ temperature (self st') = temperature (self st)
    /\ client (self st') = client (self st)
    /\ model_name (self st') = (if b then PStr name else model_name (self st))
    /\ (b = false -> exists lines l, console st' = console st ++ lines ++ [l]).
Proof. exact (set_model_effect name st). Qed.

Lemma set_model_frame_witness :
  exists b st',
    set_model (lit "llama3:latest")
      (provider_of (serving llama_catalog PNone) (PStr (lit "mistral"))) = (Ret b, st')
    /\ b = false
    /\ model_name (self st') = PStr (lit "mistral")
    /\ exists lines l,
         console st'
         = console (provider_of (serving llama_catalog PNone) (PStr (lit "mistral")))
           ++ lines ++ [l].
Proof.
  destruct (set_model_frame (lit "llama3:latest")
              (provider_of (serving llama_catalog PNone) (PStr (lit "mistral"))))
    as (b & st' & Hrun & _ & _ & _ & Hm & Hp).
  exists b, st'. split; [exact Hrun |].
  assert (Hb : b = false) by (vm_compute in Hrun; now inversion Hrun).
  split; [exact Hb |]. subst b. split; [exact Hm | exact (Hp eq_refl)].
Defined.

Lemma has_name_field_In (name : str) (catalog : list dict) :
  has_name_field name catalog = true
  <-> exists entry, In entry catalog
                    /\ dict_lookup (lit "name") entry = Some (PStr name).
Proof.
  unfold has_name_field. rewrite existsb_exists. split.
  - intros (entry & Hin & H). exists entry. split; [exact Hin |].
    destruct (dict_lookup (lit "name") entry) as [v |]; [| discriminate].
    apply eq_str_true in H. now subst.
  - intros (entry & Hin & H). exists entry. split; [exact Hin |].
    rewrite H. now apply eq_str_true.
Qed.

(** X7.  On a listing of dicts, [set_model] answers [True] exactly when some
    entry carries the name under the key [name]; it then stores the name and
    prints nothing. *)
Theorem set_model_accepts_name_field
    (name : str) (catalog : list dict) (st : State) :
  client_list (client (self st)) = Ret (listing catalog) ->
  (fst (set_model name st) = Ret true
   <-> exists entry, In entry catalog
                     /\ dict_lookup (lit "name") entry = Some (PStr name))
  /\ (fst (set_model name st) = Ret true ->
      snd (set_model name st)
      = {| self := set_model_name (PStr name) (self st); console := console st |}).
Proof.
  intros Hlist. rewrite (set_model_by_name_field name catalog st Hlist).
  rewrite <- has_name_field_In.
  destruct (has_name_field name catalog); simpl; split;
    try (split; congruence); congruence.
Qed.

Lemma set_model_accepts_name_field_witness :
  let catalog := [[(lit "name", PStr (lit "phi3")); (lit "model", PStr (lit "phi3"))]] in
  let st := provider_of (serving catalog PNone) (PStr (lit "mistral")) in
  fst (set_model (lit "phi3") st) = Ret true
  /\ snd (set_model (lit "phi3") st)
     = {| self := set_model_name (PStr (lit "phi3")) (self st); console := console st |}.
Proof.
  pose proof (set_model_accepts_name_field (lit "phi3")
                [[(lit "name", PStr (lit "phi3")); (lit "model", PStr (lit "phi3"))]]
                (provider_of
                   (serving [[(lit "name", PStr (lit "phi3"));
                              (lit "model", PStr (lit "phi3"))]] PNone)
                   (PStr (lit "mistral")))
                eq_refl) as [Hiff Hstate].
  cbv zeta. split; [reflexivity | apply Hstate; reflexivity].
Defined.

(** X8.  When the listing request fails, [set_model] refuses every name: it
    answers [False], leaves the provider as it was and prints the failure
    of the listing and the refusal. *)
Theorem set_model_listing_failure (name : str) (st : State) (e : exn) :
  client_list (client (self st)) = Raise e ->
  set_model name st
  = (Ret false,
     {| self := self st;
        console := console st
                   ++ [Line (lit "Error fetching models: " ++ str_of_exn e);
                       Line (lit "Model " ++ name ++ lit " not found in available models")] |}).
Proof.
  intros Hlist. rewrite set_model_run_cases, get_available_models_run, Hlist.
  simpl. unfold logged. simpl. now rewrite <- app_assoc.
Qed.

Lemma set_model_listing_failure_witness :
  set_model (lit "mistral") (provider_of offline (PStr (lit "mistral")))
  = (Ret false,
     {| self := self (provider_of offline (PStr (lit "mistral")));
        console := [Line (lit "Error fetching models: connection refused");
                    Line (lit "Model mistral not found in available models")] |}).
Proof.
  apply (set_model_listing_failure (lit "mistral")
           (provider_of offline (PStr (lit "mistral"))) refused).
  reflexivity.
Defined.

Lemma init_body_frame (preferred : str) (st : State) :
  exists st',
    init_body preferred st = (Ret tt, st')
    /\ host (self st') = host (self st)
    /\ temperature (self st') = temperature (self st)
    /\ client (self st') = client (self st).
Proof.
  destruct (get_available_models_total st) as (models & st1 & Hget & Hself).
  unfold init_body. run_method. rewrite Hget.
  destruct (truthy models);
    [| eexists; split; [reflexivity |]; simpl; rewrite Hself; auto].
  destruct (py_iter models) as [items | e];
    [| eexists; split; [reflexivity |]; simpl; rewrite Hself; auto].
  destruct (py_map _ items) as [names | e]; simpl;
    [| eexists; split; [reflexivity |]; simpl; rewrite Hself; auto].
  destruct (negb (existsb _ names));
    [| eexists; split; [reflexivity |]; simpl; rewrite Hself; auto].
  destruct (py_first models) as [first | e];
    [| eexists; split; [reflexivity |]; simpl; rewrite Hself; auto].
  destruct (py_get first "model" (PStr [])) as [name | e];
    eexists; (split; [reflexivity |]); simpl; rewrite Hself; auto.
Qed.

(** X9.  [__init__] never raises, whatever the backend answers to the
    listing: the provider it leaves has the host it was given, the
    temperature 0.7 and the client of that host. *)
Theorem init_never_raises
    (ollama_Client : str -> Client) (host_ preferred : str) :
  exists st,
    init ollama_Client host_ preferred = (Ret tt, st)
    /\ host (self st) = host_
    /\ temperature (self st) = 7 # 10
    /\ client (self st) = ollama_Client host_.
Proof.
  unfold init.
  destruct (init_body_frame preferred
              {| self := {| host := host_; model_name := PStr preferred;
                            temperature := 7 # 10; client := ollama_Client host_ |};
                 console := [] |}) as (st & Hrun & Hh & Ht & Hc).
  exists st. auto.
Qed.

(** X10.  When the listing request fails at start-up, [__init__] leaves the
    provider without a model: the failure is printed, the empty list it
    turns into reads as no model installed, and the preferred name is
    dropped. *)
Theorem init_listing_failure
    (ollama_Client : str -> Client) (host_ preferred : str) (e : exn) :
  client_list (ollama_Client host_) = Raise e ->
  init ollama_Client host_ preferred
  = (Ret tt,
     {| self := {| host := host_; model_name := PNone;
                   temperature := 7 # 10; client := ollama_Client host_ |};
        console :=
          [Line (lit "Error fetching models: " ++ str_of_exn e);
           Line (lit "No models available. Please install at least one model with 'ollama pull <model>'.")] |}).
Proof.
  intros Hlist. unfold init, init_body. run_method.
  rewrite get_available_models_run. simpl. rewrite Hlist. reflexivity.
Qed.

Lemma init_listing_failure_witness :
  init (fun _ => offline) DEFAULT_HOST DEFAULT_MODEL
  = (Ret tt,
     {| self := {| host := DEFAULT_HOST; model_name := PNone;
                   temperature := 7 # 10; client := offline |};
        console :=
          [Line (lit "Error fetching models: " ++ str_of_exn refused);
           Line (lit "No models available. Please install at least one model with 'ollama pull <model>'.")] |}).
Proof.
  apply (init_listing_failure (fun _ => offline) DEFAULT_HOST DEFAULT_MODEL refused).
  reflexivity.
Defined.

(** X11.  [pull_model] and [delete_model] never raise and leave the
    attributes of the provider alone, and their result tells whether the
    call of the backend raised: the dict of [pull_model] has the key [error]
    exactly then, and [delete_model] answers [False] exactly then. *)
Theorem admin_calls_report (c : AdminClient) (name : str) (st : State) :
  (exists d st',
      pull_model c name st = (Ret (PDict d), st')
      /\ self st' = self st
      /\ (dict_lookup (lit "error") d <> None
          <-> exists e, client_pull c name = Raise e))
  /\ (exists b st',
        delete_model c name st = (Ret b, st')
        /\ self st' = self st
        /\ (b = false <-> exists e, client_delete c name = Raise e)).
Proof.
  unfold pull_model, delete_model. run_method. split.
  - destruct (client_pull c name) as [v | e].
    + eexists. eexists. split; [reflexivity |]. split; [reflexivity |].
      vm_compute. split; [intros H; now elim H | intros (e & H); discriminate].
    + eexists. eexists. split; [reflexivity |]. split; [reflexivity |].
      split; [eauto | intros _; vm_compute; discriminate].
  - destruct (client_delete c name) as [v | e].
    + exists true. eexists. split; [reflexivity |]. split; [reflexivity |].
      split; [discriminate | intros (e & H); discriminate].
    + exists false. eexists. split; [reflexivity |]. split; [reflexivity |].
      split; eauto.
Qed.

Lemma admin_calls_report_witness :
  (exists d st',
      pull_model admin_offline (lit "phi3") (provider_of offline PNone)
      = (Ret (PDict d), st')
      /\ dict_lookup (lit "error") d <> None)
  /\ (exists st',
        delete_model (admin_serving PNone) (lit "phi3") (provider_of offline PNone)
        = (Ret true, st')).
Proof.
  destruct (admin_calls_report admin_offline (lit "phi3") (provider_of offline PNone))
    as ((d & st1 & Hpull & _ & Herr) & _).
  destruct (admin_calls_report (admin_serving PNone) (lit "phi3")
              (provider_of offline PNone))
    as (_ & (b & st2 & Hdel & _ & Hb)).
  split.
  - exists d, st1. split; [exact Hpull |]. apply Herr. exists refused. reflexivity.
  - exists st2. destruct b; [exact Hdel |].
    destruct (proj1 Hb eq_refl) as (e & He). discriminate.
Defined.

(** X12.  [get_running_models] never raises and leaves the attributes of the
    provider alone; a call that fails is printed and answered with the empty
    list, like a backend on which nothing runs. *)
Theorem get_running_models_failure (c : AdminClient) (st : State) :
  (exists v st', get_running_models c st = (Ret v, st') /\ self st' = self st)
  /\ (forall e, client_ps c = Raise e ->
        get_running_models c st
        = (Ret (PList []),
           logged st (Line (lit "Error fetching running models: " ++ str_of_exn e))))
  /\ (client_ps c = Ret (PDict [(lit "models", PList [])]) ->
      get_running_models c st = (Ret (PList []), st)).
Proof.
  unfold get_running_models. run_method. split; [| split].
  - destruct (client_ps c) as [r | e]; [| eauto].
    destruct (py_get r "models" (PList [])); eauto.
  - intros e H. now rewrite H.
  - intros H. now rewrite H.
Qed.

Lemma get_running_models_failure_witness :
  get_running_models admin_offline (provider_of offline PNone)
  = (Ret (PList []),
     logged (provider_of offline PNone)
            (Line (lit "Error fetching running models: " ++ str_of_exn refused)))
  /\ get_running_models (admin_serving PNone) (provider_of offline PNone)
     = (Ret (PList []), provider_of offline PNone).
Proof.
  destruct (get_running_models_failure admin_offline (provider_of offline PNone))
    as (_ & Hfail & _).
  destruct (get_running_models_failure (admin_serving PNone) (provider_of offline PNone))
    as (_ & _ & Hempty).
  split; [apply (Hfail refused) | apply Hempty]; reflexivity.
Defined.

(* ================================================================== *)
(** * More on the settings panel *)
(* ================================================================== *)

Lemma apply_endpoint_host
    (ollama_Client : str -> Client) (endpoint : str) (st : State) :
  host (self (apply_endpoint ollama_Client endpoint st)) = endpoint.
Proof.
  unfold apply_endpoint.
  destruct (Py.eqb endpoint (host (self st))) eqn:H; simpl; [| reflexivity].
  symmetry. now apply eqb_eq.
Qed.

Lemma apply_endpoint_client
    (ollama_Client : str -> Client) (endpoint : str) (st : State) :
  client (self (apply_endpoint ollama_Client endpoint st))
  = (if Py.eqb endpoint (host (self st)) then client (self st)
     else ollama_Client endpoint).
Proof.
  unfold apply_endpoint. now destruct (Py.eqb endpoint (host (self st))).
Qed.

Lemma apply_endpoint_model
    (ollama_Client : str -> Client) (endpoint : str) (st : State) :
  model_name (self (apply_endpoint ollama_Client endpoint st)) = model_name (self st).
Proof.
  unfold apply_endpoint. now destruct (negb _).
Qed.

(** The model update of [_handle_save] touches the model only, and only when
    it answers [True]. *)
Lemma apply_model_frame (name : option str) (st : State) :
  exists b st',
    apply_model name st = (Ret b, st')
    /\ host (self st') = host (self st)
    /\ temperature (self st') = temperature (self st)
    /\ client (self st') = client (self st)
    /\ (b = false -> model_name (self st') = model_name (self st)).
Proof.
  unfold apply_model.
  destruct name as [name |]; [| exists true, st; repeat split; reflexivity].
  destruct (negb (Py.eqb name []) && negb (Py.eqb name NO_MODELS_FOUND));
    [| exists true, st; repeat split; reflexivity].
  destruct (set_model_effect name st) as (b & st' & Hrun & Hh & Ht & Hc & Hm & _).
  exists b, st'. repeat split; auto.
  intros ->. exact Hm.
Qed.

(** X13.  A save that is refused is not undone: the endpoint typed in the
    panel, stripped, is already the host of the provider, with the client
    that goes with it, while the model and the temperature are the old ones.
    Nothing is written to the transcript, the panel is as it was, and one
    snack bar is shown. *)
Theorem handle_save_refused (ollama_Client : str -> Client) (a : App) :
  save_rejected ollama_Client a = true ->
  let endpoint := strip (endpoint_input_value (model_settings_panel a)) in
  let a' := snd (_handle_save ollama_Client a) in
  host (self (llm_provider a')) = endpoint
  /\ client (self (llm_provider a'))
     = (if Py.eqb endpoint (host (self (llm_provider a)))
        then client (self (llm_provider a)) else ollama_Client endpoint)
  /\ model_name (self (llm_provider a')) = model_name (self (llm_provider a))
  /\ temperature (self (llm_provider a')) = temperature (self (llm_provider a))
  /\ controls a' = controls a
  /\ model_settings_panel a' = model_settings_panel a
  /\ List.length (snack_bars a') = S (List.length (snack_bars a)).
Proof.
  unfold save_rejected, _handle_save.
  destruct (apply_model_frame (model_combo_value (model_settings_panel a))
              (apply_endpoint ollama_Client
                 (strip (endpoint_input_value (model_settings_panel a)))
                 (llm_provider a))) as (b & st' & Hrun & Hh & Ht & Hc & Hm).
  rewrite Hrun. intros Hrej. rewrite Hrej. simpl.
  rewrite Hh, Hc, Ht, apply_endpoint_host, apply_endpoint_client,
    apply_endpoint_temperature.
  destruct b; [discriminate |].
  rewrite (Hm eq_refl), apply_endpoint_model, length_app. simpl.
  repeat split. lia.
Qed.

Lemma handle_save_refused_witness :
  let backend := fun _ : str => serving llama_catalog PNone in
  let a := with_panel
             {| model_combo_value := Some (lit "llama3:latest");
                endpoint_input_value := lit " http://10.0.0.2:11434 ";
                temperature_slider_value := 1;
                visible := true; has_page := true; has_on_save := true |}
             (initial backend) in
  let a' := snd (_handle_save backend a) in
  host (self (llm_provider a')) = lit "http://10.0.0.2:11434"
  /\ temperature (self (llm_provider a')) = 7 # 10
  /\ controls a' = controls a.
Proof.
  pose proof (handle_save_refused (fun _ : str => serving llama_catalog PNone)
                (with_panel
                   {| model_combo_value := Some (lit "llama3:latest");
                      endpoint_input_value := lit " http://10.0.0.2:11434 ";
                      temperature_slider_value := 1;
                      visible := true; has_page := true; has_on_save := true |}
                   (initial (fun _ : str => serving llama_catalog PNone)))
                eq_refl) as H.
  cbv zeta in H. destruct H as (Hh & _ & _ & Ht & Hc & _).
  cbv zeta. split; [exact Hh | split; [exact Ht | exact Hc]].
Defined.

(** X14.  A save that goes through commits the three settings and closes the
    panel: the host is the endpoint typed, stripped, the temperature is the
    value of the slider, the panel is hidden, no snack bar is added, and the
    transcript gains exactly one message of the bot, the note of the new
    settings. *)
Theorem handle_save_accepted (ollama_Client : str -> Client) (a : App) :
  save_rejected ollama_Client a = false ->
  has_on_save (model_settings_panel a) = true ->
  let panel := model_settings_panel a in
  let a' := snd (_handle_save ollama_Client a) in
  fst (_handle_save ollama_Client a) = Ret tt
  /\ host (self (llm_provider a')) = strip (endpoint_input_value panel)
  /\ temperature (self (llm_provider a')) = temperature_slider_value panel
  /\ visible (model_settings_panel a') = false
  /\ snack_bars a' = snack_bars a
  /\ controls a'
     = controls a ++ [bot (SettingsUpdated (model_combo_value panel)
                             (temperature_slider_value panel))]
  /\ threads a' = threads a.
Proof.
  unfold save_rejected, _handle_save.
  destruct (apply_model_frame (model_combo_value (model_settings_panel a))
              (apply_endpoint ollama_Client
                 (strip (endpoint_input_value (model_settings_panel a)))
                 (llm_provider a))) as (b & st' & Hrun & Hh & Ht & Hc & Hm).
  rewrite Hrun. intros Hrej Hsave. rewrite Hrej, Hsave. simpl.
  rewrite Hh, apply_endpoint_host. repeat split.
Qed.

Lemma handle_save_accepted_witness :
  let a := slider_at (3 # 2) (initial (fun _ => offline)) in
  let a' := snd (_handle_save (fun _ => offline) a) in
  temperature (self (llm_provider a')) = 3 # 2
  /\ visible (model_settings_panel a') = false
  /\ controls a' = controls a ++ [bot (SettingsUpdated None (3 # 2))].
Proof.
  pose proof (handle_save_accepted (fun _ => offline)
                (slider_at (3 # 2) (initial (fun _ => offline))) eq_refl eq_refl) as H.
  cbv zeta in H. destruct H as (_ & _ & Ht & Hv & _ & Hc & _).
  cbv zeta. split; [exact Ht | split; [exact Hv | exact Hc]].
Defined.

Lemma get_model_info_frame (c : AdminClient) (name : str) (st : State) :
  exists v st', get_model_info c name st = (Ret v, st') /\ self st' = self st.
Proof.
  unfold get_model_info. run_method.
  destruct (client_show c name); eauto.
Qed.

Lemma update_model_details_frame
    (c : AdminClient) (name : str) (st : State) (w : Widgets) :
  let r := _update_model_details c name st w in
  self (fst r) = self st
  /\ model_details_visible (snd r) = true
  /\ model_combo_options (snd r) = model_combo_options w
  /\ model_combo_disabled (snd r) = model_combo_disabled w
  /\ loading_visible (snd r) = loading_visible w
  /\ temp_label_value (snd r) = temp_label_value w.
Proof.
  unfold _update_model_details.
  destruct (get_model_info_frame c name st) as (v & st' & Hrun & Hself).
  rewrite Hrun.
  destruct (negb (truthy v)); [simpl; auto 6 |].
  destruct (py_contains (lit "error") v) as [[|] | e]; simpl; auto 6.
  destruct (detail_rows name v); simpl; auto 6.
Qed.

(** [_populate_models] touches neither the attributes of the provider nor
    the inputs of the panel other than the dropdown, and it always ends with
    the dropdown enabled and the loading ring hidden. *)
Lemma populate_models_frame
    (c : AdminClient) (st st' : State) (p p' : Panel) (w w' : Widgets) :
  _populate_models c st p w = Some (st', p', w') ->
  self st' = self st
  /\ endpoint_input_value p' = endpoint_input_value p
  /\ temperature_slider_value p' = temperature_slider_value p
  /\ visible p' = visible p
  /\ has_page p' = has_page p
  /\ has_on_save p' = has_on_save p
  /\ loading_visible w' = false
  /\ model_combo_disabled w' = false.
Proof.
  unfold _populate_models.
  destruct (get_available_models_total st) as (models & st1 & Hget & Hself).
  rewrite Hget.
  set (listed := if negb (truthy models) then _ else _).
  destruct listed as [[options | e] st2] eqn:Hlisted.
  - assert (st2 = st1) by (subst listed; destruct (negb (truthy models));
                           now inversion Hlisted).
    subst st2.
    destruct (combo_value_of (model_name (self st1))) as [[name |] |];
      [| | discriminate].
    + pose proof (update_model_details_frame c name st1
                    (with_options options (with_loading true w)))
        as (Hs & _ & _ & Hd & _ & _).
      destruct (_update_model_details c name st1 _) as [st3 w3].
      intros H. inversion H; subst. simpl in *.
      rewrite Hs, Hself. auto 8.
    + intros H. inversion H; subst. simpl. auto 8.
  - assert (st2 = st1) by (subst listed; destruct (negb (truthy models));
                           now inversion Hlisted).
    subst st2. intros H. inversion H; subst. simpl. auto 8.
Qed.

(** X15.  Opening the settings panel and saving at once leaves the
    temperature of the provider as it was: opening sets the slider to the
    provider's temperature, and a save either stores the slider or, refused,
    stores nothing. *)
Theorem open_then_save_keeps_temperature
    (ollama_Client : str -> Client) (ollama_Admin : str -> AdminClient)
    (a a1 : App) (w w1 : Widgets) :
  visible (model_settings_panel a) = false ->
  _toggle_model_settings ollama_Admin a w = Some (a1, w1) ->
  visible (model_settings_panel a1) = true
  /\ temperature_slider_value (model_settings_panel a1)
     = temperature (self (llm_provider a))
  /\ temperature (self (llm_provider (snd (_handle_save ollama_Client a1))))
     = temperature (self (llm_provider a)).
Proof.
  intros Hhidden. unfold _toggle_model_settings, toggle_visibility.
  simpl. rewrite Hhidden. simpl.
  destruct (_populate_models _ _ _ w) as [[[st1 p1] w2] |] eqn:Hpop; [| discriminate].
  apply populate_models_frame in Hpop.
  destruct Hpop as (Hself & _ & _ & Hvis & _).
  intros H. inversion H; subst a1 w1. clear H. simpl.
  split; [exact Hvis | split; [now rewrite Hself |]].
  unfold _handle_save. simpl.
  match goal with
  | |- context [apply_model ?m ?s] =>
      destruct (apply_model_frame m s) as (b & st' & Hrun & _ & Ht & _)
  end.
  rewrite Hrun. rewrite apply_endpoint_temperature in Ht. simpl in Ht.
  destruct (negb b && has_page p1); simpl.
  - rewrite Ht, Hself. reflexivity.
  - destruct (has_on_save p1); simpl; now rewrite Hself.
Qed.

Lemma open_then_save_keeps_temperature_witness :
  exists a1 w1,
    _toggle_model_settings (fun _ => admin_offline)
      (initial (fun _ => serving llama_catalog PNone)) initial_widgets = Some (a1, w1)
    /\ temperature (self (llm_provider
         (snd (_handle_save (fun _ => serving llama_catalog PNone) a1))))
       = temperature (self (llm_provider (initial (fun _ => serving llama_catalog PNone)))).
Proof.
  destruct (_toggle_model_settings (fun _ => admin_offline)
              (initial (fun _ => serving llama_catalog PNone)) initial_widgets)
    as [[a1 w1] |] eqn:Htoggle; [| discriminate].
  exists a1, w1. split; [reflexivity |].
  exact (proj2 (proj2 (open_then_save_keeps_temperature
                         (fun _ => serving llama_catalog PNone) (fun _ => admin_offline)
                         (initial (fun _ => serving llama_catalog PNone)) a1
                         initial_widgets w1 eq_refl Htoggle))).
Defined.

Lemma handle_save_host (ollama_Client : str -> Client) (a : App) :
  host (self (llm_provider (snd (_handle_save ollama_Client a))))
  = strip (endpoint_input_value (model_settings_panel a)).
Proof.
  unfold _handle_save.
  destruct (apply_model_frame (model_combo_value (model_settings_panel a))
              (apply_endpoint ollama_Client
                 (strip (endpoint_input_value (model_settings_panel a)))
                 (llm_provider a))) as (b & st' & Hrun & Hh & _).
  rewrite Hrun.
  destruct (negb b && has_page (model_settings_panel a)); simpl.
  - now rewrite Hh, apply_endpoint_host.
  - destruct (has_on_save (model_settings_panel a)); simpl;
      now rewrite Hh, apply_endpoint_host.
Qed.

(** X16.  The two handlers that apply the endpoint differ on a blank field:
    [_refresh_models] keeps the host and the client of the provider, while
    [_handle_save] makes the empty string the host.  On a field that is not
    blank both make it, stripped, the host; [_refresh_models] changes
    neither the model nor the temperature. *)
Theorem endpoint_blank_or_not
    (ollama_Client : str -> Client) (ollama_Admin : str -> AdminClient)
    (a : App) (w : Widgets) (st' : State) (p' : Panel) (w' : Widgets) :
  _refresh_models ollama_Client ollama_Admin
    (llm_provider a) (model_settings_panel a) w = Some (st', p', w') ->
  let endpoint := strip (endpoint_input_value (model_settings_panel a)) in
  (endpoint = [] ->
   host (self st') = host (self (llm_provider a))
   /\ client (self st') = client (self (llm_provider a))
   /\ host (self (llm_provider (snd (_handle_save ollama_Client a)))) = [])
  /\ (endpoint <> [] ->
      host (self st') = endpoint
      /\ host (self (llm_provider (snd (_handle_save ollama_Client a)))) = endpoint)
  /\ model_name (self st') = model_name (self (llm_provider a))
  /\ temperature (self st') = temperature (self (llm_provider a)).
Proof.
  unfold _refresh_models. intros Hpop. apply populate_models_frame in Hpop.
  destruct Hpop as (Hself & _). rewrite Hself. clear Hself. cbv zeta.
  rewrite handle_save_host.
  set (endpoint := strip (endpoint_input_value (model_settings_panel a))) in *.
  split; [| split].
  - intros ->. simpl. auto.
  - intros Hne. split; [| reflexivity].
    destruct (Py.eqb endpoint []) eqn:Hblank;
      [apply eqb_eq in Hblank; contradiction |].
    simpl. destruct (Py.eqb endpoint (host (self (llm_provider a)))) eqn:Hsame; simpl.
    + symmetry. now apply eqb_eq.
    + reflexivity.
  - destruct (negb (Py.eqb endpoint []) && negb (Py.eqb endpoint _)); simpl; auto.
Qed.

Lemma endpoint_blank_or_not_witness :
  let a := with_panel
             {| model_combo_value := None; endpoint_input_value := lit "  ";
                temperature_slider_value := 7 # 10;
                visible := true; has_page := true; has_on_save := true |}
             (initial (fun _ => offline)) in
  exists st' p' w',
    _refresh_models (fun _ => offline) (fun _ => admin_offline)
      (llm_provider a) (model_settings_panel a) initial_widgets = Some (st', p', w')
    /\ host (self st') = DEFAULT_HOST
    /\ host (self (llm_provider (snd (_handle_save (fun _ => offline) a)))) = [].
Proof.
  cbv zeta.
  set (a := with_panel _ (initial (fun _ => offline))).
  destruct (_refresh_models (fun _ => offline) (fun _ => admin_offline)
              (llm_provider a) (model_settings_panel a) initial_widgets)
    as [[[st' p'] w'] |] eqn:Hrefresh; [| discriminate].
  exists st', p', w'. split; [reflexivity |].
  destruct (endpoint_blank_or_not (fun _ => offline) (fun _ => admin_offline)
              a initial_widgets st' p' w' Hrefresh) as (Hblank & _).
  destruct (Hblank eq_refl) as (Hh & _ & Hs).
  split; [exact Hh | exact Hs].
Defined.

(* ------------------------------------------------------------------ *)
(** ** The options of the dropdown *)

Lemma py_join_from_strings (i : nat) (vs : list pyval) (parts : list str) :
  Forall (fun v => truthy v = true) vs ->
  py_join_from i vs = Ret parts ->
  List.length parts = List.length vs /\ Forall (fun part => part <> []) parts.
Proof.
  revert i parts. induction vs as [| v vs IH]; intros i parts Hvs; simpl.
  - intros H. inversion H. split; [reflexivity | constructor].
  - inversion Hvs as [| ? ? Hv Hrest]; subst.
    destruct v as [| | | | s | |]; try discriminate.
    destruct (py_join_from (S i) vs) as [more |] eqn:Hmore; [| discriminate].
    intros H. inversion H; subst.
    destruct (IH (S i) more Hrest Hmore) as (Hlen & Hall).
    split; [simpl; now rewrite Hlen |].
    constructor; [| exact Hall].
    intros ->. discriminate.
Qed.

Lemma py_join_parts_strings (vs : list pyval) (parts : list str) :
  Forall (fun v => truthy v = true) vs ->
  py_join_parts vs = Ret parts ->
  List.length parts = List.length vs /\ Forall (fun part => part <> []) parts.
Proof. apply py_join_from_strings. Qed.

(** One entry of the listing gives no option when it has no name, and an
    option under its name otherwise. *)
Lemma option_of_entry (entry : dict) (o : option dropdown_option) :
  option_of (PDict entry) = Ret o ->
  if truthy (entry_name entry)
  then exists x, o = Some x /\ option_key x = entry_name entry /\ well_labelled x
  else o = None.
Proof.
  unfold option_of. simpl py_get.
  replace (match dict_lookup (lit "model") entry with
           | Some x => Ret x
           | None => Ret (PStr [])
           end) with (Ret (entry_name entry))
    by (unfold entry_name; now destruct (dict_lookup (lit "model") entry)).
  simpl rbind.
  destruct (truthy (entry_name entry)); simpl;
    [| intros H; now inversion H].
  destruct (match dict_lookup (lit "details") entry with
            | Some x => Ret x
            | None => Ret (PDict [])
            end) as [details | e]; [| discriminate].
  simpl rbind.
  destruct (py_get details "parameter_size" (PStr [])) as [size | e];
    [| discriminate].
  simpl rbind.
  destruct (py_get details "quantization_level" (PStr [])) as [quant | e];
    [| discriminate].
  simpl rbind.
  destruct (truthy size) eqn:Hsize, (truthy quant) eqn:Hquant; simpl app; cbv iota.
  - destruct (py_join_parts [size; quant]) as [parts |] eqn:Hjoin; [| discriminate].
    apply py_join_parts_strings in Hjoin; [| repeat constructor; assumption].
    intros H. inversion H; subst. eexists. split; [reflexivity |].
    split; [reflexivity |]. right. exists parts. simpl in *.
    split; [reflexivity |]. destruct Hjoin as (-> & Hall). split; [lia | exact Hall].
  - destruct (py_join_parts [size]) as [parts |] eqn:Hjoin; [| discriminate].
    apply py_join_parts_strings in Hjoin; [| repeat constructor; assumption].
    intros H. inversion H; subst. eexists. split; [reflexivity |].
    split; [reflexivity |]. right. exists parts. simpl in *.
    split; [reflexivity |]. destruct Hjoin as (-> & Hall). split; [lia | exact Hall].
  - destruct (py_join_parts [quant]) as [parts |] eqn:Hjoin; [| discriminate].
    apply py_join_parts_strings in Hjoin; [| repeat constructor; assumption].
    intros H. inversion H; subst. eexists. split; [reflexivity |].
    split; [reflexivity |]. right. exists parts. simpl in *.
    split; [reflexivity |]. destruct Hjoin as (-> & Hall). split; [lia | exact Hall].
  - intros H. inversion H; subst. eexists. split; [reflexivity |].
    split; [reflexivity |]. left. reflexivity.
Qed.

Lemma options_of_catalog (catalog : list dict) (options : list dropdown_option) :
  options_of (map PDict catalog) = Ret options ->
  map option_key options = filter truthy (map entry_name catalog)
  /\ Forall well_labelled options.
Proof.
  revert options. induction catalog as [| entry catalog IH]; intros options; simpl.
  - intros H. inversion H. split; [reflexivity | constructor].
  - destruct (option_of (PDict entry)) as [o | e] eqn:Ho; [| discriminate].
    apply option_of_entry in Ho. simpl rbind.
    destruct (options_of (map PDict catalog)) as [more | e]; [| discriminate].
    destruct (IH more eq_refl) as (Hkeys & Hall).
    simpl rbind. intros H. inversion H; subst options. clear H.
    destruct (truthy (entry_name entry)).
    + destruct Ho as (x & -> & Hkey & Hlab). simpl. rewrite Hkey, Hkeys.
      split; [reflexivity | now constructor].
    + subst o. split; assumption.
Qed.

(** [_populate_models] on a listing of dicts that is not empty. *)
Lemma populate_models_listing
    (c : AdminClient) (st : State) (p : Panel) (w : Widgets) (catalog : list dict) :
  client_list (client (self st)) = Ret (listing catalog) ->
  catalog <> [] ->
  _populate_models c st p w
  = match options_of (map PDict catalog) with
    | Ret options =>
        match combo_value_of (model_name (self st)) with
        | None => None
        | Some (Some name) =>
            let (st2, w2) :=
              _update_model_details c name st
                (with_options options (with_loading true w)) in
            Some (st2, with_combo_value (Some name) p, with_loading false w2)
        | Some None =>
            Some (st, with_combo_value None p,
                  with_loading false (with_options options (with_loading true w)))
        end
    | Raise e =>
        Some ({| self := self st;
                 console := console st
                            ++ [Line (lit "Error populating models: " ++ str_of_exn e)] |},
              p,
              with_loading false
                (with_options [fixed_option "Error loading models"]
                   (with_loading true w)))
    end.
Proof.
  intros Hlist Hne. unfold _populate_models.
  rewrite (get_available_models_listing st catalog Hlist).
  destruct catalog as [| entry rest]; [contradiction |].
  cbn [truthy map negb py_iter rbind].
  change (PDict entry :: map PDict rest) with (map PDict (entry :: rest)).
  destruct (options_of (map PDict (entry :: rest))); [| reflexivity].
  destruct (combo_value_of (model_name (self st))) as [[name |] |]; reflexivity.
Qed.

(** X17.  On a listing of dicts that is not empty, the dropdown offers
    exactly the entries that have a name, under their names and in the order
    of the listing, each labelled with its name alone or with its name and
    one or two details that are not empty; unless an entry is malformed, in
    which case the one option is [Error loading models]. *)
Theorem populate_models_options
    (c : AdminClient) (st st' : State) (p p' : Panel) (w w' : Widgets)
    (catalog : list dict) :
  client_list (client (self st)) = Ret (listing catalog) ->
  catalog <> [] ->
  _populate_models c st p w = Some (st', p', w') ->
  model_combo_options w' = [fixed_option "Error loading models"]
  \/ (map option_key (model_combo_options w') = filter truthy (map entry_name catalog)
      /\ Forall well_labelled (model_combo_options w')).
Proof.
  intros Hlist Hne. rewrite (populate_models_listing c st p w catalog Hlist Hne).
  destruct (options_of (map PDict catalog)) as [options | e] eqn:Hopts.
  - apply options_of_catalog in Hopts.
    destruct (combo_value_of (model_name (self st))) as [[name |] |];
      [| | discriminate].
    + pose proof (update_model_details_frame c name st
                    (with_options options (with_loading true w)))
        as (_ & _ & Ho & _).
      destruct (_update_model_details c name st _) as [st2 w2].
      intros H. inversion H; subst. right. simpl in *. now rewrite Ho.
    + intros H. inversion H; subst. right. exact Hopts.
  - intros H. inversion H; subst. left. reflexivity.
Qed.

Lemma populate_models_options_witness :
  exists st' p' w',
    _populate_models admin_offline
      (provider_of (serving llama_catalog PNone) PNone)
      (model_settings_panel (initial (fun _ => offline))) initial_widgets
    = Some (st', p', w')
    /\ map option_key (model_combo_options w') = [PStr (lit "llama3:latest")]
    /\ map option_text (model_combo_options w')
       = [Detailed (PStr (lit "llama3:latest")) [lit "8.0B"; lit "Q4_0"]].
Proof.
  destruct (_populate_models admin_offline
              (provider_of (serving llama_catalog PNone) PNone)
              (model_settings_panel (initial (fun _ => offline))) initial_widgets)
    as [[[st' p'] w'] |] eqn:Hpop; [| discriminate].
  exists st', p', w'. split; [reflexivity |].
  destruct (populate_models_options admin_offline
              (provider_of (serving llama_catalog PNone) PNone) st'
              (model_settings_panel (initial (fun _ => offline))) p'
              initial_widgets w' llama_catalog
              eq_refl ltac:(discriminate) Hpop) as [Herr | (Hkeys & _)].
  - vm_compute in Hpop. inversion Hpop; subst. discriminate.
  - split; [exact Hkeys |].
    vm_compute in Hpop. inversion Hpop; subst. reflexivity.
Defined.

(** X18.  After [__init__] on a listing that is not empty and whose entries
    all have a non-empty string for a name, filling the dropdown from the
    same listing selects the model of the provider, and that model is one of
    the options offered (unless a malformed entry leaves the one option
    [Error loading models]). *)
Theorem populate_models_after_init
    (ollama_Client : str -> Client) (c : AdminClient) (host_ preferred : str)
    (catalog : list dict) (p p' : Panel) (w w' : Widgets) (st' : State) :
  client_list (ollama_Client host_) = Ret (listing catalog) ->
  catalog <> [] ->
  Forall (fun entry => exists s, entry_name entry = PStr s /\ s <> []) catalog ->
  _populate_models c (snd (init ollama_Client host_ preferred)) p w
  = Some (st', p', w') ->
  model_combo_options w' = [fixed_option "Error loading models"]
  \/ exists s,
       model_name (self st') = PStr s
       /\ model_combo_value p' = Some s
       /\ In (PStr s) (map option_key (model_combo_options w')).
Proof.
  intros Hlist Hne Hnames.
  assert (Hinit : exists s lines,
             snd (init ollama_Client host_ preferred)
             = {| self := {| host := host_; model_name := PStr s;
                             temperature := 7 # 10; client := ollama_Client host_ |};
                  console := lines |}
             /\ s <> [] /\ In (PStr s) (map entry_name catalog)).
  { rewrite (init_listing ollama_Client host_ preferred catalog Hlist).
    destruct catalog as [| entry rest]; [contradiction |]. cbv zeta.
    destruct (listed preferred (entry :: rest)) eqn:Hl.
    - apply listed_In in Hl. exists preferred, []. split; [reflexivity |].
      split; [| exact Hl].
      apply in_map_iff in Hl. destruct Hl as (e & He & Hin).
      rewrite Forall_forall in Hnames. destruct (Hnames e Hin) as (s & Hs & Hne').
      congruence.
    - inversion Hnames as [| ? ? (s & Hs & Hne') _]; subst.
      exists s. eexists. simpl. rewrite Hs. split; [reflexivity |].
      split; [exact Hne' | now left]. }
  destruct Hinit as (s & lines & -> & Hs & Hin).
  rewrite (populate_models_listing c
             {| self := {| host := host_; model_name := PStr s;
                           temperature := 7 # 10; client := ollama_Client host_ |};
                console := lines |} p w catalog Hlist Hne).
  destruct (options_of (map PDict catalog)) as [options | e] eqn:Hopts;
    [| intros H; inversion H; subst; now left].
  apply options_of_catalog in Hopts. destruct Hopts as (Hkeys & _).
  assert (Hall : filter truthy (map entry_name catalog) = map entry_name catalog).
  { clear -Hnames. induction Hnames as [| entry rest (s & Hs & Hne) _ IH];
      [reflexivity |].
    simpl. rewrite Hs at 1. destruct s; [contradiction |]. simpl.
    rewrite Hs. now f_equal. }
  rewrite Hall in Hkeys.
  simpl model_name. destruct s as [| ch s]; [contradiction |]. simpl combo_value_of.
  pose proof (update_model_details_frame c (ch :: s)
                {| self := {| host := host_; model_name := PStr (ch :: s);
                              temperature := 7 # 10; client := ollama_Client host_ |};
                   console := lines |}
                (with_options options (with_loading true w)))
    as (Hself & _ & Ho & _).
  destruct (_update_model_details c (ch :: s) _ _) as [st2 w2].
  intros H. inversion H; subst. right. exists (ch :: s). simpl in *.
  rewrite Hself, Ho, Hkeys. auto.
Qed.

Lemma populate_models_after_init_witness :
  exists st' p' w',
    _populate_models admin_offline
      (snd (init (fun _ => serving llama_catalog PNone) DEFAULT_HOST DEFAULT_MODEL))
      (model_settings_panel (initial (fun _ => offline))) initial_widgets
    = Some (st', p', w')
    /\ (model_combo_options w' = [fixed_option "Error loading models"]
        \/ exists s,
             model_name (self st') = PStr s
             /\ model_combo_value p' = Some s
             /\ In (PStr s) (map option_key (model_combo_options w'))).
Proof.
  destruct (_populate_models admin_offline
              (snd (init (fun _ => serving llama_catalog PNone) DEFAULT_HOST DEFAULT_MODEL))
              (model_settings_panel (initial (fun _ => offline))) initial_widgets)
    as [[[st' p'] w'] |] eqn:Hpop; [| discriminate].
  exists st', p', w'. split; [reflexivity |].
  apply (populate_models_after_init (fun _ => serving llama_catalog PNone)
           admin_offline DEFAULT_HOST DEFAULT_MODEL llama_catalog
           (model_settings_panel (initial (fun _ => offline))) p'
           initial_widgets w' st').
  - reflexivity.
  - discriminate.
  - repeat constructor. exists (lit "llama3:latest"). split; [reflexivity | discriminate].
  - exact Hpop.
Defined.

(** X19.  When nothing is listed, because the request failed or because no
    model is installed, the dropdown gets the one option [No models found];
    and a save with that option chosen skips the model update, so it cannot
    be refused. *)
Theorem populate_models_nothing_listed
    (ollama_Client : str -> Client) (c : AdminClient)
    (st st' : State) (p p' : Panel) (w w' : Widgets) (a : App) :
  (client_list (client (self st)) = Ret (listing [])
   \/ exists e, client_list (client (self st)) = Raise e) ->
  _populate_models c st p w = Some (st', p', w') ->
  model_combo_options w' = [fixed_option "No models found"]
  /\ (model_combo_value (model_settings_panel a) = Some (lit "No models found") ->
      save_rejected ollama_Client a = false).
Proof.
  intros Hlist Hpop. split.
  - revert Hpop. unfold _populate_models. rewrite get_available_models_run.
    assert (Hcase : exists st1,
               (match client_list (client (self st)) with
                | Ret models =>
                    match py_get models "models" (PList []) with
                    | Ret v => (Ret v, st)
                    | Raise e =>
                        (Ret (PList []),
                         logged st (Line (lit "Error fetching models: " ++ str_of_exn e)))
                    end
                | Raise e =>
                    (Ret (PList []),
                     logged st (Line (lit "Error fetching models: " ++ str_of_exn e)))
                end) = (Ret (PList []), st1)).
    { destruct Hlist as [-> | (e & ->)]; eexists; reflexivity. }
    destruct Hcase as (st1 & ->). simpl.
    destruct (combo_value_of (model_name (self st1))) as [[name |] |];
      [| | discriminate].
    + pose proof (update_model_details_frame c name st1
                    (with_options [fixed_option "No models found"]
                       (with_loading true w))) as (_ & _ & Ho & _).
      destruct (_update_model_details c name st1 _) as [st2 w2].
      intros H. inversion H; subst. simpl in *. exact Ho.
    + intros H. inversion H; subst. reflexivity.
  - intros Hvalue. unfold save_rejected. rewrite Hvalue. reflexivity.
Qed.

Lemma populate_models_nothing_listed_witness :
  exists st' p' w',
    _populate_models admin_offline (provider_of offline PNone)
      (model_settings_panel (initial (fun _ => offline))) initial_widgets
    = Some (st', p', w')
    /\ model_combo_options w' = [fixed_option "No models found"].
Proof.
  destruct (_populate_models admin_offline (provider_of offline PNone)
              (model_settings_panel (initial (fun _ => offline))) initial_widgets)
    as [[[st' p'] w'] |] eqn:Hpop; [| discriminate].
  exists st', p', w'. split; [reflexivity |].
  apply (proj1 (populate_models_nothing_listed (fun _ => offline) admin_offline
                  (provider_of offline PNone) st'
                  (model_settings_panel (initial (fun _ => offline))) p'
                  initial_widgets w' (initial (fun _ => offline))
                  (or_intror (ex_intro _ refused eq_refl)) Hpop)).
Defined.

Lemma eqb_refl (k : str) : Py.eqb k k = true.
Proof. now apply eqb_eq. Qed.

Lemma dict_lookup_key (k : str) (d : dict) (v : pyval) :
  dict_lookup k d = Some v ->
  existsb (fun kv => Py.eqb (fst kv) k) d = true.
Proof.
  induction d as [| [k' x] d IH]; [discriminate |].
  cbn [dict_lookup existsb fst].
  destruct (Py.eqb k k') eqn:Hk.
  - apply eqb_eq in Hk. subst k'. now rewrite eqb_refl.
  - intros H. rewrite (IH H). apply orb_true_r.
Qed.

(** X20.  [_update_model_details] always shows the details container.  It
    shows the text [Error fetching details for] the model when the request
    for the details raised, when the backend answered with an empty dict,
    and also when the details it answered carry a key [error] of their
    own. *)
Theorem update_model_details_error
    (c : AdminClient) (name : str) (st : State) (w : Widgets) :
  model_details_visible (snd (_update_model_details c name st w)) = true
  /\ (forall e, client_show c name = Raise e ->
        _update_model_details c name st w
        = (logged st (Line (lit "Error fetching model info: " ++ str_of_exn e)),
           with_details (ErrorFetchingDetails name) w))
  /\ (client_show c name = Ret (PDict []) ->
      _update_model_details c name st w
      = (st, with_details (ErrorFetchingDetails name) w))
  /\ (forall d v, client_show c name = Ret (PDict d) ->
        dict_lookup (lit "error") d = Some v ->
        _update_model_details c name st w
        = (st, with_details (ErrorFetchingDetails name) w)).
Proof.
  split; [apply update_model_details_frame |].
  unfold _update_model_details, get_model_info. run_method.
  split; [| split].
  - intros e ->. reflexivity.
  - intros ->. reflexivity.
  - intros d v -> Hv.
    destruct d as [| kv d]; [discriminate |]. cbn [truthy negb].
    unfold py_contains. rewrite (dict_lookup_key _ _ _ Hv). reflexivity.
Qed.

Lemma update_model_details_error_witness :
  _update_model_details admin_offline (lit "mistral")
    (provider_of offline PNone) initial_widgets
  = (logged (provider_of offline PNone)
       (Line (lit "Error fetching model info: " ++ str_of_exn refused)),
     with_details (ErrorFetchingDetails (lit "mistral")) initial_widgets).
Proof.
  apply (proj1 (proj2 (update_model_details_error admin_offline (lit "mistral")
                         (provider_of offline PNone) initial_widgets)) refused).
  reflexivity.
Defined.

(* ================================================================== *)
(** * More on the session *)
(* ================================================================== *)

Lemma generate_chat_returns (st : State) (messages : pyval) (t : option Q) :
  exists v, generate_chat messages t st = (Ret v, st).
Proof.
  unfold generate_chat. run_method.
  destruct (client_chat _ _ _ _) as [response | e]; [| eauto].
  destruct (py_get response "message" (PDict [])) as [message | e]; [| eauto].
  destruct (py_get message "content" no_response); eauto.
Qed.

Lemma messages_app (l l' : list control) :
  messages (l ++ l') = messages l ++ messages l'.
Proof.
  induction l as [| [m |] l IH]; simpl; [reflexivity | now rewrite IH | exact IH].
Qed.

Lemma indicators_app (l l' : list control) :
  indicators (l ++ l') = (indicators l + indicators l')%nat.
Proof.
  induction l as [| [m |] l IH]; simpl; [reflexivity | exact IH | now rewrite IH].
Qed.

Lemma sent_app (l l' : list control) :
  sent (l ++ l') = sent l ++ sent l'.
Proof.
  induction l as [| [m |] l IH]; simpl; [reflexivity | | exact IH].
  destruct (Py.eqb (user_name m) (lit "You")); simpl; now rewrite IH.
Qed.

Lemma messages_remove (l : list control) :
  messages (remove_typing_indicator l) = messages l.
Proof.
  induction l as [| [m |] l IH]; simpl; [reflexivity | now rewrite IH | reflexivity].
Qed.

Lemma sent_remove (l : list control) :
  sent (remove_typing_indicator l) = sent l.
Proof.
  induction l as [| [m |] l IH]; simpl; [reflexivity | | reflexivity].
  destruct (Py.eqb (user_name m) (lit "You")); now rewrite IH.
Qed.

Lemma indicators_remove (l : list control) :
  indicators (remove_typing_indicator l) = pred (indicators l).
Proof.
  induction l as [| [m |] l IH]; simpl; [reflexivity | exact IH | reflexivity].
Qed.

Lemma remove_only_indicator (l l' : list control) :
  indicators l = 0%nat ->
  remove_typing_indicator (l ++ typing_indicator :: l') = l ++ l'.
Proof.
  induction l as [| [m |] l IH]; simpl; [reflexivity | | discriminate].
  intros H. now rewrite IH.
Qed.

Lemma In_remove_typing (c : control) (l : list control) :
  c <> typing_indicator -> In c l -> In c (remove_typing_indicator l).
Proof.
  intros Hc. induction l as [| [m |] l IH]; simpl; [tauto | |].
  - intros [H | H]; [now left | right; auto].
  - intros [H | H]; [congruence | exact H].
Qed.

Lemma calling_replace (ts : list thread) (i : nat) (m : str) (r : res pyval) :
  nth_error ts i = Some {| user_message := m; reply := None |} ->
  List.length (calling (replace_nth i {| user_message := m; reply := Some r |} ts))
  = S (List.length (calling ts)).
Proof.
  revert i. induction ts as [| t ts IH]; intros [| i]; simpl; try discriminate.
  - intros H. inversion H; subst. reflexivity.
  - intros H. destruct (reply t); simpl; now rewrite (IH i H).
Qed.

Lemma calling_remove_done (ts : list thread) (i : nat) (m : str) (r : res pyval) :
  nth_error ts i = Some {| user_message := m; reply := Some r |} ->
  S (List.length (calling (remove_nth i ts))) = List.length (calling ts).
Proof.
  revert i. induction ts as [| t ts IH]; intros [| i]; simpl; try discriminate.
  - intros H. inversion H; subst. reflexivity.
  - intros H. destruct (reply t); simpl; now rewrite <- (IH i H).
Qed.

Lemma calling_remove_waiting (ts : list thread) (i : nat) (m : str) :
  nth_error ts i = Some {| user_message := m; reply := None |} ->
  calling (remove_nth i ts) = calling ts.
Proof.
  revert i. induction ts as [| t ts IH]; intros [| i]; simpl; try discriminate.
  - intros H. inversion H; subst. reflexivity.
  - intros H. destruct (reply t); simpl; now rewrite (IH i H).
Qed.

Lemma In_remove_nth {A} (x : A) (i : nat) (l : list A) :
  In x (remove_nth i l) -> In x l.
Proof.
  revert i. induction l as [| y l IH]; intros [| i]; simpl; try tauto.
  intros [H | H]; [now left | right; eauto].
Qed.

Lemma In_replace_nth (ts : list thread) (i : nat) (m : str) (r : res pyval) (t : thread) :
  nth_error ts i = Some {| user_message := m; reply := None |} ->
  In t (replace_nth i {| user_message := m; reply := Some r |} ts) ->
  exists t', In t' ts /\ user_message t' = user_message t.
Proof.
  revert i. induction ts as [| x ts IH]; intros [| i]; simpl; try discriminate.
  - intros H. inversion H; subst. intros [<- | Hin].
    + eexists. split; [left; reflexivity | reflexivity].
    + exists t. auto.
  - intros H [<- | Hin].
    + exists x. auto.
    + destruct (IH i H Hin) as (t' & Hin' & Hm). exists t'. auto.
Qed.

(** What one step does, event by event. *)
Lemma step_cases (ev : event) (a a' : App) :
  step ev a = Some a' ->
  (exists text, ev = Submit text /\ a' = send_message (with_chat_input text a))
  \/ (exists i m v,
        ev = Call i
        /\ nth_error (threads a) i = Some {| user_message := m; reply := None |}
        /\ a' = with_threads
                  (replace_nth i {| user_message := m; reply := Some (Ret v) |}
                     (threads a))
                  (with_provider (llm_provider a)
                     (with_controls (controls a ++ [typing_indicator])
                        (with_typing true a))))
  \/ (exists i m r,
        ev = Return i
        /\ nth_error (threads a) i = Some {| user_message := m; reply := Some r |}
        /\ a' = process_message_return r (with_threads (remove_nth i (threads a)) a))
  \/ (exists i m,
        ev = Abort i
        /\ nth_error (threads a) i = Some {| user_message := m; reply := None |}
        /\ a' = with_threads (remove_nth i (threads a)) a).
Proof.
  destruct ev as [text | i | i | i]; simpl.
  - intros H. inversion H. left. eauto.
  - destruct (nth_error (threads a) i) as [[m [r |]] |] eqn:Hnth; try discriminate.
    unfold process_message_call. simpl.
    destruct (generate_chat_returns (llm_provider a)
                (PList [PDict [(lit "role", PStr (lit "user"));
                               (lit "content", PStr m)]])
                (Some (temperature (self (llm_provider a)))))
      as (v & Hv).
    rewrite Hv. intros H. inversion H. right. left. exists i, m, v. auto.
  - destruct (nth_error (threads a) i) as [[m [r |]] |] eqn:Hnth; try discriminate.
    intros H. inversion H. right. right. left. exists i, m, r. auto.
  - destruct (nth_error (threads a) i) as [[m [r |]] |] eqn:Hnth; try discriminate.
    intros H. inversion H. right. right. right. exists i, m. auto.
Qed.

Lemma send_message_cases (a : App) (text : str) :
  send_message (with_chat_input text a) = with_chat_input text a
  \/ (strip text <> []
      /\ send_message (with_chat_input text a)
         = with_threads
             (threads a ++ [{| user_message := strip text; reply := None |}])
             (with_chat_input []
                (with_controls (controls a ++ [you (strip text)])
                   (with_chat_input text a)))).
Proof.
  destruct (strip text) as [| c s] eqn:Hs.
  - left. apply send_message_blank. exact Hs.
  - right. split; [discriminate |].
    rewrite send_message_text by (simpl; congruence).
    simpl. now rewrite Hs.
Qed.

Lemma calling_app (ts ts' : list thread) :
  calling (ts ++ ts') = calling ts ++ calling ts'.
Proof. apply filter_app. Qed.

Lemma indicator_invariant (ollama_Client : str -> Client) (a : App) :
  reachable ollama_Client a ->
  indicators (controls a) = List.length (calling (threads a))
  /\ (typing_indicator_visible a = true -> calling (threads a) <> []).
Proof.
  induction 1 as [| a ev a' _ (IHc & IHv) Hstep].
  - split; [reflexivity | discriminate].
  - apply step_cases in Hstep.
    destruct Hstep as [(text & _ & ->) | [(i & m & v & _ & Hnth & ->)
                      | [(i & m & r & _ & Hnth & ->) | (i & m & _ & Hnth & ->)]]].
    + destruct (send_message_cases a text) as [-> | (_ & ->)]; simpl.
      * auto.
      * rewrite indicators_app, calling_app, length_app. simpl.
        split; [lia |].
        intros Hv. specialize (IHv Hv).
        destruct (calling (threads a)); [contradiction | discriminate].
    + simpl. rewrite indicators_app, (calling_replace _ _ _ _ Hnth). simpl.
      split; [lia |]. intros _ Hnil.
      pose proof (calling_replace _ _ _ (Ret v) Hnth) as Hlen.
      rewrite Hnil in Hlen. discriminate.
    + pose proof (calling_remove_done _ _ _ _ Hnth) as Hlen.
      unfold process_message_return. destruct r; simpl;
        rewrite indicators_app, indicators_remove; simpl;
        (split; [lia | discriminate]).
    + simpl. rewrite (calling_remove_waiting _ _ _ Hnth). auto.
Qed.

(** X21.  In every reachable state the typing indicator occurs in the
    transcript once for each call of [generate_chat] under way, and the
    flag that shows it is up only while some call is under way.  So a
    session with no request outstanding has no indicator left in its
    transcript. *)
Theorem typing_indicator_accounted (ollama_Client : str -> Client) (a : App) :
  reachable ollama_Client a ->
  indicators (controls a) = List.length (calling (threads a))
  /\ (typing_indicator_visible a = true -> calling (threads a) <> [])
  /\ (idle a -> indicators (controls a) = 0%nat
                /\ typing_indicator_visible a = false).
Proof.
  intros Hreach.
  pose proof (indicator_invariant ollama_Client a Hreach) as Hinv.
  destruct Hinv as (Hc & Hv). split; [exact Hc | split; [exact Hv |]].
  intros Hidle. unfold idle in Hidle. rewrite Hidle in *. simpl in *.
  split; [exact Hc |].
  destruct (typing_indicator_visible a); [now elim Hv | reflexivity].
Qed.

Lemma typing_indicator_accounted_witness :
  exists a,
    run [Submit (lit "one"); Submit (lit "two"); Call 0; Call 1; Return 0]
        (initial (fun _ => offline)) = Some a
    /\ indicators (controls a) = 1%nat
    /\ List.length (calling (threads a)) = 1%nat
    /\ typing_indicator_visible a = false.
Proof.
  destruct (run [Submit (lit "one"); Submit (lit "two"); Call 0; Call 1; Return 0]
                (initial (fun _ => offline))) as [a |] eqn:Hrun; [| discriminate].
  exists a. split; [reflexivity |].
  pose proof (typing_indicator_accounted (fun _ => offline) a
                (reachable_run (fun _ => offline) _ _ _
                   (reach_initial (fun _ => offline)) Hrun)) as (Hc & _).
  vm_compute in Hrun. inversion Hrun; subst a. clear Hrun.
  split; [exact Hc | split; reflexivity].
Defined.

(** X22.  One exchange, from a reachable state with no request outstanding
    and a text that is not blank: sending it, letting its worker call the
    backend and letting the call return adds exactly two messages to the
    transcript, the stripped text of the user and then the answer of
    [generate_chat], and leaves the session idle with the indicator gone and
    the input field empty. *)
Theorem exchange_adds_two_messages
    (ollama_Client : str -> Client) (a : App) (text : str) :
  reachable ollama_Client a ->
  idle a ->
  strip text <> [] ->
  exists v a',
    generate_chat
      (PList [PDict [(lit "role", PStr (lit "user"));
                     (lit "content", PStr (strip text))]])
      (Some (temperature (self (llm_provider a)))) (llm_provider a)
    = (Ret v, llm_provider a)
    /\ run [Submit text; Call 0; Return 0] a = Some a'
    /\ controls a' = controls a ++ [you (strip text); bot (Text v)]
    /\ idle a'
    /\ typing_indicator_visible a' = false
    /\ chat_input_value a' = [].
Proof.
  intros Hreach Hidle Htext.
  assert (Hind : indicators (controls a) = 0%nat).
  { rewrite (proj1 (indicator_invariant ollama_Client a Hreach)).
    unfold idle in Hidle. now rewrite Hidle. }
  destruct (generate_chat_returns (llm_provider a)
              (PList [PDict [(lit "role", PStr (lit "user"));
                             (lit "content", PStr (strip text))]])
              (Some (temperature (self (llm_provider a))))) as (v & Hv).
  exists v. eexists. split; [exact Hv |].
  unfold idle in Hidle.
  cbn [run step]. rewrite send_message_text by exact Htext.
  cbn [with_threads with_chat_input with_controls threads controls chat_input_value
       llm_provider typing_indicator_visible snack_bars model_settings_panel].
  rewrite Hidle. cbn [app nth_error].
  unfold process_message_call.
  cbn [with_threads with_chat_input with_controls with_typing with_provider
       threads controls chat_input_value
       llm_provider typing_indicator_visible snack_bars model_settings_panel].
  rewrite Hv.
  cbn [with_threads with_chat_input with_controls with_typing with_provider
       threads controls chat_input_value replace_nth nth_error remove_nth
       llm_provider typing_indicator_visible snack_bars model_settings_panel].
  split; [reflexivity |].
  unfold process_message_return.
  cbn [with_threads with_chat_input with_controls with_typing with_provider
       threads controls chat_input_value
       llm_provider typing_indicator_visible snack_bars model_settings_panel].
  rewrite (remove_only_indicator (controls a ++ [you (strip text)]) [])
    by (rewrite indicators_app; simpl; lia).
  rewrite app_nil_r, <- app_assoc. repeat split.
Qed.

Lemma exchange_adds_two_messages_witness :
  exists v a',
    generate_chat
      (PList [PDict [(lit "role", PStr (lit "user"));
                     (lit "content", PStr (strip (lit " hello ")))]])
      (Some (temperature (self (llm_provider (initial (fun _ => offline))))))
      (llm_provider (initial (fun _ => offline)))
    = (Ret v, llm_provider (initial (fun _ => offline)))
    /\ run [Submit (lit " hello "); Call 0; Return 0] (initial (fun _ => offline))
       = Some a'
    /\ controls a'
       = controls (initial (fun _ => offline))
         ++ [you (strip (lit " hello ")); bot (Text v)]
    /\ idle a'
    /\ typing_indicator_visible a' = false
    /\ chat_input_value a' = [].
Proof.
  apply (exchange_adds_two_messages (fun _ => offline)
           (initial (fun _ => offline)) (lit " hello ")).
  - apply reach_initial.
  - reflexivity.
  - vm_compute. discriminate.
Defined.

Lemma step_messages (ev : event) (a a' : App) :
  step ev a = Some a' ->
  exists more,
    messages (controls a') = messages (controls a) ++ more
    /\ (List.length more <= 1)%nat.
Proof.
  intros Hstep. apply step_cases in Hstep.
  destruct Hstep as [(text & _ & ->) | [(i & m & v & _ & Hnth & ->)
                    | [(i & m & r & _ & Hnth & ->) | (i & m & _ & Hnth & ->)]]].
  - destruct (send_message_cases a text) as [-> | (_ & ->)]; simpl.
    + exists []. rewrite app_nil_r. auto.
    + rewrite messages_app. simpl. eexists. split; [reflexivity | simpl; lia].
  - simpl. rewrite messages_app. simpl. exists []. auto.
  - unfold process_message_return. destruct r; simpl;
      rewrite messages_app, messages_remove; simpl;
      eexists; (split; [reflexivity | simpl; lia]).
  - simpl. exists []. rewrite app_nil_r. auto.
Qed.

Lemma step_frame (ev : event) (a a' : App) :
  step ev a = Some a' ->
  llm_provider a' = llm_provider a
  /\ model_settings_panel a' = model_settings_panel a
  /\ snack_bars a' = snack_bars a.
Proof.
  intros Hstep. apply step_cases in Hstep.
  destruct Hstep as [(text & _ & ->) | [(i & m & v & _ & Hnth & ->)
                    | [(i & m & r & _ & Hnth & ->) | (i & m & _ & Hnth & ->)]]].
  - destruct (send_message_cases a text) as [-> | (_ & ->)]; simpl; auto.
  - simpl. auto.
  - unfold process_message_return. destruct r; simpl; auto.
  - simpl. auto.
Qed.

(** X23.  No run of the session removes, changes or reorders a message: the
    messages of the transcript before a run are a prefix of the messages
    after it, with at most one message more for each event. *)
Theorem run_keeps_messages (evs : list event) (a a' : App) :
  run evs a = Some a' ->
  exists more,
    messages (controls a') = messages (controls a) ++ more
    /\ (List.length more <= List.length evs)%nat.
Proof.
  revert a. induction evs as [| ev evs IH]; intros a; simpl.
  - intros H. inversion H. exists []. rewrite app_nil_r. auto.
  - destruct (step ev a) as [a1 |] eqn:Hstep; [| discriminate].
    intros Hrun. destruct (step_messages ev a a1 Hstep) as (m1 & H1 & L1).
    destruct (IH a1 Hrun) as (m2 & H2 & L2).
    exists (m1 ++ m2). rewrite H2, H1, <- app_assoc, length_app.
    split; [reflexivity | lia].
Qed.

Lemma run_keeps_messages_witness :
  exists a' more,
    run [Submit (lit "one"); Submit (lit "two"); Call 1; Return 1; Abort 0]
        (initial (fun _ => offline)) = Some a'
    /\ messages (controls a')
       = messages (controls (initial (fun _ => offline))) ++ more
    /\ (List.length more <= 5)%nat.
Proof.
  destruct (run [Submit (lit "one"); Submit (lit "two"); Call 1; Return 1; Abort 0]
                (initial (fun _ => offline))) as [a' |] eqn:Hrun; [| discriminate].
  destruct (run_keeps_messages _ _ _ Hrun) as (more & Hm & Hl).
  exists a', more. split; [reflexivity | split; [exact Hm | exact Hl]].
Defined.

(** X24.  The session leaves the settings alone: no run of submissions and
    worker steps changes the provider (host, model, temperature, client,
    console), the settings panel or the snack bars. *)
Theorem run_keeps_settings (evs : list event) (a a' : App) :
  run evs a = Some a' ->
  llm_provider a' = llm_provider a
  /\ model_settings_panel a' = model_settings_panel a
  /\ snack_bars a' = snack_bars a.
Proof.
  revert a. induction evs as [| ev evs IH]; intros a; simpl.
  - intros H. inversion H. auto.
  - destruct (step ev a) as [a1 |] eqn:Hstep; [| discriminate].
    intros Hrun. destruct (step_frame ev a a1 Hstep) as (H1 & H2 & H3).
    destruct (IH a1 Hrun) as (K1 & K2 & K3).
    rewrite K1, K2, K3. auto.
Qed.

Lemma run_keeps_settings_witness :
  exists a',
    run [Submit (lit "one"); Call 0; Return 0] (initial (fun _ => offline)) = Some a'
    /\ llm_provider a' = llm_provider (initial (fun _ => offline)).
Proof.
  destruct (run [Submit (lit "one"); Call 0; Return 0] (initial (fun _ => offline)))
    as [a' |] eqn:Hrun; [| discriminate].
  exists a'. split; [reflexivity |].
  exact (proj1 (run_keeps_settings _ _ _ Hrun)).
Defined.

(** X25.  In every reachable state each request outstanding has its message
    in the transcript, as a message of the user; and every message of the
    user in the transcript is a text that is not empty and has no whitespace
    at either end. *)
Theorem user_messages_recorded (ollama_Client : str -> Client) (a : App) :
  reachable ollama_Client a ->
  Forall (fun t => In (you (user_message t)) (controls a)) (threads a)
  /\ Forall (fun t => exists s, t = Text (PStr s) /\ s <> [] /\ strip s = s)
            (sent (controls a)).
Proof.
  induction 1 as [| a ev a' _ (IHt & IHs) Hstep].
  - split; constructor.
  - apply step_cases in Hstep.
    destruct Hstep as [(text & _ & ->) | [(i & m & v & _ & Hnth & ->)
                      | [(i & m & r & _ & Hnth & ->) | (i & m & _ & Hnth & ->)]]].
    + destruct (send_message_cases a text) as [-> | (Htext & ->)]; simpl.
      * auto.
      * split.
        -- apply Forall_app. split.
           ++ eapply Forall_impl; [| exact IHt]. intros t Hin.
              apply in_or_app. now left.
           ++ constructor; [| constructor]. simpl.
              apply in_or_app. right. now left.
        -- rewrite sent_app. apply Forall_app. split; [exact IHs |].
           simpl. constructor; [| constructor].
           exists (strip text). split; [reflexivity |].
           split; [exact Htext | apply strip_idempotent].
    + simpl. split.
      * rewrite Forall_forall in *. intros t Hin.
        destruct (In_replace_nth _ _ _ _ _ Hnth Hin) as (t' & Hin' & Hm).
        rewrite <- Hm. apply in_or_app. left. now apply IHt.
      * rewrite sent_app. simpl. now rewrite app_nil_r.
    + assert (Hthreads :
                Forall (fun t => In (you (user_message t))
                                    (remove_typing_indicator (controls a)))
                       (remove_nth i (threads a))).
      { rewrite Forall_forall in *. intros t Hin.
        apply In_remove_typing; [discriminate |].
        apply IHt. eapply In_remove_nth. exact Hin. }
      unfold process_message_return. destruct r; simpl; split;
        try (eapply Forall_impl; [| exact Hthreads]; intros t Hin;
             apply in_or_app; now left);
        rewrite sent_app, sent_remove; simpl; now rewrite app_nil_r.
    + simpl. split; [| exact IHs].
      rewrite Forall_forall in *. intros t Hin. apply IHt.
      eapply In_remove_nth. exact Hin.
Qed.

Lemma user_messages_recorded_witness :
  exists a,
    run [Submit (lit "  one "); Submit (lit "two"); Call 1; Return 1]
        (initial (fun _ => offline)) = Some a
    /\ Forall (fun t => In (you (user_message t)) (controls a)) (threads a)
    /\ Forall (fun t => exists s, t = Text (PStr s) /\ s <> [] /\ strip s = s)
              (sent (controls a)).
Proof.
  destruct (run [Submit (lit "  one "); Submit (lit "two"); Call 1; Return 1]
                (initial (fun _ => offline))) as [a |] eqn:Hrun; [| discriminate].
  exists a. split; [reflexivity |].
  apply (user_messages_recorded (fun _ => offline)).
  exact (reachable_run (fun _ => offline) _ _ _ (reach_initial (fun _ => offline)) Hrun).
Defined.

(* ================================================================== *)
(** * One call of the backend at a time *)
(* ================================================================== *)

Import EventLoop.

(** The steps the loop allows are steps of the session. *)
Lemma loop_step_step (ev : event) (a a' : App) :
  loop_step ev a = Some a' -> step ev a = Some a'.
Proof.
  destruct ev as [text | i | i | i]; unfold loop_step;
    try destruct (is_running a); congruence.
Qed.

Lemma loop_reachable_reachable (ollama_Client : str -> Client) (a : App) :
  loop_reachable ollama_Client a -> reachable ollama_Client a.
Proof.
  induction 1 as [| a ev a' _ IH Hstep].
  - apply reach_initial.
  - apply (@reach_step ollama_Client a ev a' IH (loop_step_step ev a a' Hstep)).
Qed.

Lemma loop_reachable_run (ollama_Client : str -> Client) (evs : list event) :
  forall a a', loop_reachable ollama_Client a -> loop_run evs a = Some a' ->
               loop_reachable ollama_Client a'.
Proof.
  induction evs as [| ev evs IH]; simpl; intros a a' Ha Hrun.
  - now inversion Hrun; subst.
  - destruct (loop_step ev a) as [a1 |] eqn:Hstep; [| discriminate].
    eapply IH; [| exact Hrun].
    eapply loop_next; eassumption.
Qed.

Lemma is_running_calls (a : App) :
  is_running a = negb (backend_calls a =? 0)%nat.
Proof.
  unfold is_running, backend_calls. now destruct (calling (threads a)).
Qed.

(** What a step under the loop does to the number of calls under way. *)
Lemma loop_step_calls (ev : event) (a a' : App) :
  loop_step ev a = Some a' ->
  match ev with
  | Submit _ => backend_calls a' = backend_calls a
  | Call _ => backend_calls a = 0%nat /\ backend_calls a' = 1%nat
  | Return _ => S (backend_calls a') = backend_calls a
  | Abort _ => backend_calls a' = backend_calls a
  end.
Proof.
  intros Hloop. pose proof (loop_step_step ev a a' Hloop) as Hstep.
  apply step_cases in Hstep.
  destruct Hstep as [(text & -> & ->) | [(i & m & v & -> & Hnth & ->)
                    | [(i & m & r & -> & Hnth & ->) | (i & m & -> & Hnth & ->)]]].
  - unfold backend_calls.
    destruct (send_message_cases a text) as [-> | (_ & ->)]; simpl.
    + reflexivity.
    + rewrite calling_app, length_app. simpl. lia.
  - unfold loop_step in Hloop. rewrite is_running_calls in Hloop.
    destruct (backend_calls a =? 0)%nat eqn:Hzero; [| discriminate].
    apply Nat.eqb_eq in Hzero. split; [exact Hzero |].
    unfold backend_calls in *. simpl.
    rewrite (calling_replace _ _ _ _ Hnth). now rewrite Hzero.
  - pose proof (calling_remove_done _ _ _ _ Hnth) as Hlen.
    unfold backend_calls, process_message_return. destruct r; simpl; exact Hlen.
  - unfold backend_calls. simpl. now rewrite (calling_remove_waiting _ _ _ Hnth).
Qed.

Lemma loop_calls_bounded (ollama_Client : str -> Client) (a : App) :
  loop_reachable ollama_Client a -> (backend_calls a <= 1)%nat.
Proof.
  induction 1 as [| a ev a' _ IH Hstep].
  - change (0 <= 1)%nat. lia.
  - apply loop_step_calls in Hstep. destruct ev; lia.
Qed.



